(** * A shallow embedding of the web-scrapper crawl engine

    The development follows the Python sources:
    - [src/enhanced_scraper.py]: [URLProcessor], [ContentExtractor] and
      [EnhancedWebScraper] (single-page fetch with retry, quality score);
    - [simple_scraper.py] and [src/test_api.py]: the round-based crawl
      [scrape_website] / [scrape_website_async];
    - [src/main.py]: the queue-based crawl of [scrape_enhanced].

    Conventions.  A Python [str] is a [string] whose characters are the code
    points 0..255 (Latin-1), so that [len] is [String.length].  A Python
    [int] is a [Z]; a Python [float] is a primitive binary64 [float].  A
    Python [set] of strings is a [gset string].  The network, the HTML parser
    and [urllib.parse] are outside the repository: they are the fields of the
    classes [UrlLib] and [Web], and the code is embedded over any instance. *)

From Stdlib Require Import PrimFloat Uint63.
From Stdlib Require Import ZArith Ascii String DecimalString.
From stdpp Require Import gmap strings list sorting.

Set Warnings "-inexact-float,-register-all".
#[local] Open Scope Z_scope.

(** ** Python strings *)

Module Py.

(** [str.isspace] on one code point below 256. *)
Definition isspace (c : ascii) : bool :=
  let n := N_of_ascii c in
  ((9 <=? n) && (n <=? 13) || (28 <=? n) && (n <=? 32)
   || (n =? 133) || (n =? 160))%N.

(** [str.isdecimal] (the class [\d]). *)
Definition isdecimal (c : ascii) : bool :=
  let n := N_of_ascii c in ((48 <=? n) && (n <=? 57))%N.

(** [str.isalnum() or c == '_'] (the class [\w]). *)
Definition isword (c : ascii) : bool :=
  let n := N_of_ascii c in
  ((48 <=? n) && (n <=? 57) || (65 <=? n) && (n <=? 90)
   || (97 <=? n) && (n <=? 122) || (n =? 95)
   || (n =? 170) || (n =? 178) || (n =? 179) || (n =? 181)
   || (n =? 185) || (n =? 186) || (188 <=? n) && (n <=? 190)
   || (192 <=? n) && (n <=? 214) || (216 <=? n) && (n <=? 246)
   || (248 <=? n))%N.

Definition lower_char (c : ascii) : ascii :=
  let n := N_of_ascii c in
  if ((65 <=? n) && (n <=? 90)
      || (192 <=? n) && (n <=? 222) && negb (n =? 215))%N
  then ascii_of_N (n + 32) else c.

(** [s.lower()] *)
Fixpoint lower (s : string) : string :=
  match s with
  | EmptyString => EmptyString
  | String c s' => String (lower_char c) (lower s')
  end.

(** [len(s)] *)
Definition len (s : string) : Z := Z.of_nat (String.length s).

(** [s.startswith(p)] *)
Definition startswith (s p : string) : bool := String.prefix p s.

(** [s[:n]] and [s[n:]] for a literal [n >= 0]. *)
Fixpoint take (n : nat) (s : string) : string :=
  match n, s with
  | S n', String c s' => String c (take n' s')
  | _, _ => EmptyString
  end.

Fixpoint drop (n : nat) (s : string) : string :=
  match n, s with
  | S n', String _ s' => drop n' s'
  | _, _ => s
  end.

Fixpoint lstrip_by (p : ascii -> bool) (s : string) : string :=
  match s with
  | String c s' => if p c then lstrip_by p s' else s
  | EmptyString => EmptyString
  end.

Fixpoint rstrip_by (p : ascii -> bool) (s : string) : string :=
  match s with
  | EmptyString => EmptyString
  | String c s' =>
      match rstrip_by p s' with
      | EmptyString => if p c then EmptyString else String c EmptyString
      | r => String c r
      end
  end.

(** [s.strip()] *)
Definition strip (s : string) : string :=
  rstrip_by isspace (lstrip_by isspace s).

(** [s.rstrip('/')] *)
Definition rstrip_slash (s : string) : string :=
  rstrip_by (fun c => bool_decide (c = "/"%char)) s.

(** [re.sub(r'\s+', ' ', s)]: every maximal run of whitespace becomes one
    space; [in_run] says that the previous character was whitespace. *)
Fixpoint sub_ws_from (in_run : bool) (s : string) : string :=
  match s with
  | EmptyString => EmptyString
  | String c s' =>
      if isspace c
      then (if in_run then sub_ws_from true s'
            else String " " (sub_ws_from true s'))
      else String c (sub_ws_from false s')
  end.

Definition sub_ws (s : string) : string := sub_ws_from false s.

(** [s.split()]: the maximal runs of non-whitespace.  [split_aux] returns
    the word that is still open at the head of [s] and the words after it. *)
Fixpoint split_aux (s : string) : string * list string :=
  match s with
  | EmptyString => (EmptyString, [])
  | String c s' =>
      let '(w, ws) := split_aux s' in
      if isspace c
      then (EmptyString, match w with EmptyString => ws | _ => w :: ws end)
      else (String c w, ws)
  end.

Definition split (s : string) : list string :=
  let '(w, ws) := split_aux s in
  match w with EmptyString => ws | _ => w :: ws end.

(** [sep.join(l)] *)
Fixpoint join (sep : string) (l : list string) : string :=
  match l with
  | [] => EmptyString
  | [x] => x
  | x :: l' => x +:+ sep +:+ join sep l'
  end.

(** [str(n)] for an [int]. *)
Definition str_of_int (n : Z) : string :=
  NilZero.string_of_int (Z.to_int n).

(** Truthiness of a [str]. *)
Definition nonempty (s : string) : bool :=
  match s with EmptyString => false | _ => true end.

End Py.

(** ** Regular expressions ([re.match] and [re.search] with [re.IGNORECASE]) *)

Module Re.

Inductive regex : Type :=
| Nothing
| Eps
| Eos                                  (* [$] *)
| Chr (p : ascii -> bool)              (* a character class *)
| Seq (r1 r2 : regex)
| Alt (r1 r2 : regex)
| Star (r : regex).

Definition plus (r : regex) : regex := Seq r (Star r).
Definition opt (r : regex) : regex := Alt r Eps.

(** A literal character under [re.IGNORECASE]. *)
Definition chr_i (a : ascii) : regex :=
  Chr (fun c => bool_decide (Py.lower_char c = Py.lower_char a)).

Fixpoint lit_i (s : string) : regex :=
  match s with
  | EmptyString => Eps
  | String a s' => Seq (chr_i a) (lit_i s')
  end.

Definition alts (l : list regex) : regex := foldr Alt Nothing l.

Definition ws : regex := Chr Py.isspace.
Definition digit : regex := Chr Py.isdecimal.
Definition word : regex := Chr Py.isword.

(** [$] holds at the end of the subject and just before a final newline. *)
Definition at_eos (rest : string) : bool :=
  match rest with
  | EmptyString => true
  | String c EmptyString => bool_decide (c = "010"%char)
  | _ => false
  end.

(** [nullable e r]: [r] matches the empty string at a position where
    [$] holds iff [e]. *)
Fixpoint nullable (e : bool) (r : regex) : bool :=
  match r with
  | Nothing => false
  | Eps => true
  | Eos => e
  | Chr _ => false
  | Seq r1 r2 => nullable e r1 && nullable e r2
  | Alt r1 r2 => nullable e r1 || nullable e r2
  | Star _ => true
  end.

Definition seq' (r1 r2 : regex) : regex :=
  match r1 with Nothing => Nothing | _ => Seq r1 r2 end.

Definition alt' (r1 r2 : regex) : regex :=
  match r1, r2 with
  | Nothing, _ => r2
  | _, Nothing => r1
  | _, _ => Alt r1 r2
  end.

(** The derivative of [r] by the character [c] read at a position where
    [$] holds iff [e]. *)
Fixpoint deriv (e : bool) (c : ascii) (r : regex) : regex :=
  match r with
  | Nothing | Eps | Eos => Nothing
  | Chr p => if p c then Eps else Nothing
  | Seq r1 r2 =>
      alt' (seq' (deriv e c r1) r2)
           (if nullable e r1 then deriv e c r2 else Nothing)
  | Alt r1 r2 => alt' (deriv e c r1) (deriv e c r2)
  | Star r1 => seq' (deriv e c r1) (Star r1)
  end.

(** [re.match(r, s) is not None]: some prefix of [s] matches [r]. *)
Fixpoint match_ (r : regex) (s : string) : bool :=
  nullable (at_eos s) r ||
  match s with
  | EmptyString => false
  | String c s' => match_ (deriv (at_eos s) c r) s'
  end.

(** [re.search(r, s) is not None]: a match starts somewhere in [s]. *)
Fixpoint search (r : regex) (s : string) : bool :=
  match_ r s ||
  match s with
  | EmptyString => false
  | String _ s' => search r s'
  end.

End Re.

(** ** Exceptions

    A computation that may raise: [Raise msg] carries [str(e)]. *)

Inductive exn (A : Type) : Type :=
| Ret (a : A)
| Raise (msg : string).
Arguments Ret {A} a.
Arguments Raise {A} msg.

#[global] Instance exn_ret : MRet exn := @Ret.
#[global] Instance exn_bind : MBind exn :=
  fun A B f m => match m with Ret a => f a | Raise e => Raise e end.
#[global] Instance exn_fmap : FMap exn :=
  fun A B f m => match m with Ret a => Ret (f a) | Raise e => Raise e end.

(** ** The parse tree of [BeautifulSoup] *)

Module Html.

Inductive node : Type :=
| Text (s : string)                       (* a NavigableString *)
| Comment (s : string)
| Element (name : string) (attrs : list (string * string))
          (children : list node).

(** The document object: the list of its top-level nodes. *)
Definition soup : Type := list node.

Definition name_of (n : node) : string :=
  match n with Element t _ _ => t | _ => "" end.

(** [tag.get(key)] *)
Fixpoint lookup_attr (key : string) (attrs : list (string * string))
  : option string :=
  match attrs with
  | [] => None
  | (k, v) :: rest =>
      if bool_decide (k = key) then Some v else lookup_attr key rest
  end.

Definition get (key : string) (n : node) : option string :=
  match n with Element _ a _ => lookup_attr key a | _ => None end.

(** [tag.get(key, '')] *)
Definition get_or_empty (key : string) (n : node) : string :=
  default "" (get key n).

(** [tag.descendants], in document order. *)
Fixpoint descendants (n : node) : list node :=
  match n with
  | Element _ _ cs =>
      (fix go (l : list node) : list node :=
         match l with
         | [] => []
         | c :: l' => c :: descendants c ++ go l'
         end) cs
  | _ => []
  end.

Definition descendants_of (doc : soup) : list node :=
  flat_map (fun c => c :: descendants c) doc.

Definition is_tag (names : list string) (n : node) : bool :=
  match n with
  | Element t _ _ => bool_decide (t ∈ names)
  | _ => false
  end.

(** [soup.find_all(names)] and [tag.find_all(names)] *)
Definition find_all (names : list string) (doc : soup) : list node :=
  List.filter (is_tag names) (descendants_of doc).

Definition find_all_in (names : list string) (n : node) : list node :=
  List.filter (is_tag names) (descendants n).

(** [soup.find(name)] *)
Definition find (name : string) (doc : soup) : option node :=
  head (find_all [name] doc).

(** [tag.get_text()]: the strings below the tag, comments left out. *)
Fixpoint get_text (n : node) : string :=
  match n with
  | Text s => s
  | Comment _ => ""
  | Element _ _ cs =>
      (fix go (l : list node) : string :=
         match l with
         | [] => ""
         | c :: l' => get_text c +:+ go l'
         end) cs
  end.

(** [for element in soup(names): element.decompose()] *)
Fixpoint decompose_in (names : list string) (n : node) : node :=
  match n with
  | Element t a cs =>
      Element t a
        ((fix go (l : list node) : list node :=
            match l with
            | [] => []
            | c :: l' =>
                if is_tag names c then go l'
                else decompose_in names c :: go l'
            end) cs)
  | _ => n
  end.

Fixpoint decompose_all (names : list string) (doc : soup) : soup :=
  match doc with
  | [] => []
  | c :: l' =>
      if is_tag names c then decompose_all names l'
      else decompose_in names c :: decompose_all names l'
  end.

(** [for comment in soup.find_all(string=...Comment): comment.extract()] *)
Definition is_comment (n : node) : bool :=
  match n with Comment _ => true | _ => false end.

Fixpoint extract_comments_in (n : node) : node :=
  match n with
  | Element t a cs =>
      Element t a
        ((fix go (l : list node) : list node :=
            match l with
            | [] => []
            | c :: l' =>
                if is_comment c then go l'
                else extract_comments_in c :: go l'
            end) cs)
  | _ => n
  end.

Fixpoint extract_comments (doc : soup) : soup :=
  match doc with
  | [] => []
  | c :: l' =>
      if is_comment c then extract_comments l'
      else extract_comments_in c :: extract_comments l'
  end.

(** The CSS selectors the code uses with [select_one]. *)
Inductive selector : Type :=
| ByTag (t : string)       (* [main] *)
| ByClass (c : string)     (* [.content] *)
| ById (i : string).       (* [#content] *)

Definition selects (sel : selector) (n : node) : bool :=
  match n with
  | Element t _ _ =>
      match sel with
      | ByTag t' => bool_decide (t = t')
      | ByClass c =>
          bool_decide (c ∈ Py.split (get_or_empty "class" n))
      | ById i => bool_decide (get "id" n = Some i)
      end
  | _ => false
  end.

Definition select_one (sel : selector) (doc : soup) : option node :=
  head (List.filter (selects sel) (descendants_of doc)).

End Html.

(** ** [urllib.parse] and the outside world *)

(** The six-tuple of [urlparse]. *)
Record ParseResult : Type := mkParse {
  scheme : string;
  netloc : string;
  path : string;
  params : string;
  query : string;
  fragment : string
}.

(** [urllib.parse] as the code uses it.  [urlparse] and [urljoin] may raise
    [ValueError]. *)
Class UrlLib : Type := {
  urlparse : string -> exn ParseResult;
  urlunparse : ParseResult -> string;
  urljoin : string -> string -> exn string
}.

(** ** [URLProcessor] (enhanced_scraper.py) *)

Module URLProcessor.
Section with_urllib.
Context `{UrlLib}.

(** The edits that [normalize_url] makes on the parsed tuple. *)
Definition normalize_parts (parsed : ParseResult) : ParseResult :=
  (* Remove fragment *)
  let parsed :=
    mkParse parsed.(scheme) parsed.(netloc) parsed.(path)
            parsed.(params) parsed.(query) "" in
  (* Normalize scheme *)
  let parsed :=
    if negb (Py.nonempty parsed.(scheme))
    then mkParse "https" parsed.(netloc) parsed.(path)
                 parsed.(params) parsed.(query) parsed.(fragment)
    else parsed in
  (* Normalize netloc (domain) *)
  let netloc0 := Py.lower parsed.(netloc) in
  let netloc1 :=
    if Py.startswith netloc0 "www." && (4 <? Py.len netloc0)
    then Py.drop 4 netloc0 else netloc0 in
  let parsed :=
    mkParse parsed.(scheme) netloc1 parsed.(path)
            parsed.(params) parsed.(query) parsed.(fragment) in
  (* Clean path *)
  let path0 := Py.rstrip_slash parsed.(path) in
  let path1 := if negb (Py.nonempty path0) then "/" else path0 in
  mkParse parsed.(scheme) parsed.(netloc) path1
          parsed.(params) parsed.(query) parsed.(fragment).

(** [URLProcessor.normalize_url]: an exception of the parser is logged and
    the input comes back unchanged. *)
Definition normalize_url (url : string) : string :=
  match urlparse (Py.strip url) with
  | Ret parsed => urlunparse (normalize_parts parsed)
  | Raise _ => url
  end.

(** [URLProcessor.is_valid_url] *)
Definition is_valid_url (url : string) (base_domain : option string)
  : bool :=
  match urlparse url with
  | Raise _ => false
  | Ret parsed =>
      if negb (Py.nonempty parsed.(scheme))
         || negb (Py.nonempty parsed.(netloc)) then false
      else if negb (bool_decide (parsed.(scheme) ∈ ["http"; "https"]))
      then false
      else
        match base_domain with
        | Some d =>
            if Py.nonempty d then
              let url_domain := Py.lower parsed.(netloc) in
              let url_domain :=
                if Py.startswith url_domain "www."
                then Py.drop 4 url_domain else url_domain in
              bool_decide (url_domain = d)
            else true
        | None => true
        end
  end.

(** [URLProcessor.should_exclude_url] *)
Definition should_exclude_url (url : string)
    (exclude_patterns : list Re.regex) : bool :=
  existsb (fun pattern => Re.search pattern url) exclude_patterns.

End with_urllib.
End URLProcessor.

(** ** [ScrapingConfig] *)

Module ScrapingConfig.
Import Re.

Definition ext (e : string) : regex := Seq (lit_i e) Eos.
Definition ext_opt (e : string) (c : ascii) : regex :=
  Seq (lit_i e) (Seq (opt (chr_i c)) Eos).

(** The default list of [__post_init__], in its order. *)
Definition default_exclude_patterns : list regex :=
  [ ext ".pdf"; ext_opt ".doc" "x"; ext_opt ".xls" "x"; ext_opt ".ppt" "x";
    ext ".zip"; ext ".rar"; ext ".tar.gz"; ext ".exe"; ext ".dmg";
    Seq (lit_i ".mp") (Seq (Alt (chr_i "3") (chr_i "4")) Eos);
    ext ".avi"; ext ".mov"; ext ".wmv"; ext ".flv";
    ext ".jpg"; ext ".jpeg"; ext ".png"; ext ".gif"; ext ".bmp"; ext ".svg";
    lit_i "mailto:"; lit_i "tel:"; lit_i "ftp:"; lit_i "javascript:" ].

Record t : Type := mk {
  max_retries : Z;
  timeout : Z;
  delay_between_requests : float;
  user_agent : string;
  max_redirects : Z;
  exclude_patterns : list regex
}.

(** [ScrapingConfig()] *)
Definition default : t :=
  mk 3 30 1.0%float "Enhanced Web Scraper 1.0" 10 default_exclude_patterns.

End ScrapingConfig.

(** ** [ContentExtractor] (enhanced_scraper.py) *)

Module ContentExtractor.
Import Re Html.

(** [skip_patterns] of [clean_text].  The patterns are tried with
    [re.match], which anchors them at the start, so their leading [^] is
    not written. *)
Definition skip_patterns : list regex :=
  [ (* ^(skip to|jump to|go to)\s+\w+ *)
    Seq (alts [lit_i "skip to"; lit_i "jump to"; lit_i "go to"])
        (Seq (plus ws) (plus word));
    (* ^(home|about|contact|privacy|terms)\s*$ *)
    Seq (alts [lit_i "home"; lit_i "about"; lit_i "contact";
               lit_i "privacy"; lit_i "terms"])
        (Seq (Star ws) Eos);
    (* ^\s*(©|copyright)\s*\d{4} *)
    Seq (Star ws)
        (Seq (alts [chr_i "169"; lit_i "copyright"])
             (Seq (Star ws) (Seq digit (Seq digit (Seq digit digit)))));
    (* ^(follow us|connect with us) *)
    alts [lit_i "follow us"; lit_i "connect with us"] ].

(** [ContentExtractor.clean_text] *)
Definition clean_text (text : string) : string :=
  if negb (Py.nonempty text) then ""
  else
    let text := Py.sub_ws (Py.strip text) in
    if existsb (fun pattern => match_ pattern text) skip_patterns
    then "" else text.

Record heading : Type := mkHeading {
  level : Z;
  text : string;
  tag : string
}.

Record list_block : Type := mkList {
  list_type : string;
  items : list string
}.

Record content : Type := mkContent {
  title : string;
  headings : list heading;
  paragraphs : list string;
  lists : list list_block;
  tables : list (list (list string));
  main_content : string
}.

(** [int(level[1])] for the tag names [h1] .. [h6]. *)
Definition level_of (tag : string) : Z :=
  match tag with
  | String _ (String d _) => Z.of_N (N_of_ascii d) - 48
  | _ => 0
  end.

Definition heading_tags : list string :=
  ["h1"; "h2"; "h3"; "h4"; "h5"; "h6"].

Definition main_selectors : list selector :=
  [ByTag "main"; ByTag "article"; ByClass "content";
   ByClass "main-content"; ById "content"; ById "main"].

(** The title: the first [<title>], else the first [<h1>]. *)
Definition extract_title (doc : soup) : string :=
  let title :=
    match find "title" doc with
    | Some title_tag => clean_text (get_text title_tag)
    | None => ""
    end in
  if negb (Py.nonempty title) then
    match find "h1" doc with
    | Some h1 => clean_text (get_text h1)
    | None => title
    end
  else title.

(** The tree after the [decompose] and [extract] loops. *)
Definition strip_chrome (doc : soup) : soup :=
  extract_comments
    (decompose_all ["script"; "style"; "nav"; "footer"; "header"] doc).

(** The loop over the six heading levels and the elements of each. *)
Definition extract_headings (doc : soup) : list heading :=
  foldl (fun headings level =>
    foldl (fun headings h =>
      let text := clean_text (get_text h) in
      if Py.nonempty text && (2 <=? Z.of_nat (length (Py.split text)))
      then headings ++ [mkHeading (level_of level) text level]
      else headings)
      headings (find_all [level] doc))
    [] heading_tags.

(** The loop over the [<p>] elements with its quality filter. *)
Definition extract_paragraphs (doc : soup) : list string :=
  foldl (fun paragraphs p =>
    let text := clean_text (get_text p) in
    if Py.nonempty text && (30 <? Py.len text)
       && (5 <=? Z.of_nat (length (Py.split text)))
    then paragraphs ++ [text]
    else paragraphs)
    [] (find_all ["p"] doc).

Definition extract_lists (doc : soup) : list list_block :=
  foldl (fun lists ul =>
    let list_items :=
      foldl (fun list_items li =>
        let item_text := clean_text (get_text li) in
        if Py.nonempty item_text then list_items ++ [item_text]
        else list_items)
        [] (find_all_in ["li"] ul) in
    match list_items with
    | [] => lists
    | _ => lists ++ [mkList (name_of ul) list_items]
    end)
    [] (find_all ["ul"; "ol"] doc).

Definition extract_tables (doc : soup) : list (list (list string)) :=
  foldl (fun tables table =>
    let rows :=
      foldl (fun rows tr =>
        let cells :=
          foldl (fun cells cell => cells ++ [clean_text (get_text cell)])
                [] (find_all_in ["td"; "th"] tr) in
        match cells with [] => rows | _ => rows ++ [cells] end)
        [] (find_all_in ["tr"] table) in
    match rows with [] => tables | _ => tables ++ [rows] end)
    [] (find_all ["table"] doc).

(** The loop over [main_selectors]: the first selector that finds an
    element decides, whatever its text. *)
Fixpoint select_main (selectors : list selector) (doc : soup) : string :=
  match selectors with
  | [] => ""
  | sel :: rest =>
      match select_one sel doc with
      | Some main_elem => clean_text (get_text main_elem)
      | None => select_main rest doc
      end
  end.

(** [ContentExtractor.extract_main_content].  The function edits the tree
    it is given; the edited tree is returned beside the dictionary. *)
Definition extract_main_content (doc : soup) : soup * content :=
  let title := extract_title doc in
  let doc := strip_chrome doc in
  let headings := extract_headings doc in
  let paragraphs := extract_paragraphs doc in
  let lists := extract_lists doc in
  let tables := extract_tables doc in
  let main_content := select_main main_selectors doc in
  let main_content :=
    if negb (Py.nonempty main_content)
    then Py.join " " (take 5 paragraphs)   (* First 5 paragraphs *)
    else main_content in
  (doc, mkContent title headings paragraphs lists tables main_content).

End ContentExtractor.

(** ** The network and the HTML parser *)

Record response : Type := mkResponse {
  status : Z;
  redirected_to : option string;   (* [str(response.url)] when
                                      [response.history] is not empty *)
  body : string;                   (* [await response.text()] *)
  content_type : string;
  last_modified : string
}.

(** What one GET comes to. *)
Inductive net_outcome : Type :=
| NetTimeout                           (* asyncio.TimeoutError *)
| NetClientError (msg : string)        (* aiohttp.ClientError *)
| NetError (msg : string)              (* any other exception *)
| NetResponse (r : response).

Class Web : Type := {
  (** [session.get] of [EnhancedWebScraper]: the outcome of a GET of a URL
      when [n] requests were sent on the session before it. *)
  session_get : nat -> string -> net_outcome;
  (** The outcome of the one GET that a crawl job sends for a URL. *)
  http_get : string -> net_outcome;
  (** [urllib.request.urlopen(req, timeout=30)] followed by
      [response.read().decode('utf-8', errors='ignore')] (main.py). *)
  urlopen : string -> exn string;
  (** [BeautifulSoup(html, 'html.parser')] *)
  BeautifulSoup : string -> Html.soup
}.

(** ** [EnhancedWebScraper] (enhanced_scraper.py) *)

Module EnhancedWebScraper.
Import Html ContentExtractor.

Inductive link_type : Type := Internal | External | Relative.

Record link : Type := mkLink {
  link_url : string;
  link_text : string;
  link_title : string;
  link_kind : link_type
}.

(** The success dictionary of [scrape_url].  The media, meta and
    structured-data entries and the two clock readings are left out. *)
Record page : Type := mkPage {
  url : string;
  original_url : string;
  domain : string;
  page_path : string;
  page_title : string;
  page_headings : list heading;
  page_paragraphs : list string;
  page_lists : list list_block;
  page_tables : list (list (list string));
  page_main_content : string;
  links : list link;
  content_length : Z;
  text_length : Z;
  quality_score : float;
  headings_count : Z;
  paragraphs_count : Z;
  links_count : Z;
  lists_count : Z;
  tables_count : Z;
  status_code : Z;
  page_content_type : string;
  page_last_modified : string
}.

(** A result dictionary: with or without the key ["error"]. *)
Inductive result : Type :=
| Success (p : page)
| Failure (error : string) (failed_url : string) (code : option Z).

(** The scraper object; [requests] and [sleeps] log the GETs sent and the
    arguments of [asyncio.sleep], oldest first. *)
Record state : Type := mkState {
  visited_urls : gset string;
  requests : list string;
  sleeps : list Z
}.

Definition initial : state := mkState ∅ [] [].

#[local] Open Scope float_scope.

(** [a / b] on two [int]s below 2^53. *)
Definition truediv (a b : Z) : float :=
  of_uint63 (Uint63.of_Z a) / of_uint63 (Uint63.of_Z b).

(** [min(a, b)] on floats: the first of the smallest. *)
Definition py_min (a b : float) : float := if b <? a then b else a.

(** [EnhancedWebScraper._calculate_quality_score] *)
Definition _calculate_quality_score (content : content) (html_length : Z)
  : float :=
  let score := 0.0 in
  (* Title quality *)
  let score :=
    if Py.nonempty content.(title) && (10 <? Py.len content.(title))%Z
    then score + 0.2 else score in
  (* Content length *)
  let text_length := Py.len content.(main_content) in
  let score :=
    if (500 <? text_length)%Z then score + 0.3
    else if (200 <? text_length)%Z then score + 0.2
    else if (100 <? text_length)%Z then score + 0.1
    else score in
  (* Structure *)
  let score :=
    match content.(headings) with [] => score | _ => score + 0.2 end in
  let score :=
    match content.(paragraphs) with [] => score | _ => score + 0.2 end in
  let score :=
    if (3 <? Z.of_nat (length content.(paragraphs)))%Z
    then score + 0.1 else score in
  (* Text to HTML ratio (content density) *)
  let score :=
    if (0 <? html_length)%Z then
      let ratio := truediv text_length html_length in
      if 0.1 <? ratio then score + 0.1
      else if 0.05 <? ratio then score + 0.05
      else score
    else score in
  py_min 1.0 score.

#[local] Close Scope float_scope.

Section with_world.
Context `{UrlLib} `{Web}.

(** The loop of [extract_links]; [acc] is [(links, seen_urls)]. *)
Definition extract_links_loop (doc : soup) (base_url : string)
  : exn (list link * gset string) :=
  foldl (fun (acc : exn (list link * gset string)) a =>
    '(links, seen_urls) ← acc;
    let href := Py.strip (get_or_empty "href" a) in
    if negb (Py.nonempty href) || Py.startswith href "#"
    then Ret (links, seen_urls)
    else
      match urljoin base_url href with
      | Raise _ => Ret (links, seen_urls)
      | Ret full_url =>
          let full_url := URLProcessor.normalize_url full_url in
          if bool_decide (full_url ∈ seen_urls) then Ret (links, seen_urls)
          else
            let seen_urls := seen_urls ∪ {[full_url]} in
            let link_text := clean_text (get_text a) in
            parsed ← urlparse full_url;
            base_parsed ← urlparse base_url;
            let kind :=
              if bool_decide (parsed.(netloc) = base_parsed.(netloc))
              then Internal
              else if negb (Py.nonempty parsed.(netloc)) then Relative
              else External in
            Ret (links ++ [mkLink full_url link_text
                                  (get_or_empty "title" a) kind],
                 seen_urls)
      end)
    (Ret ([], ∅))
    (List.filter (fun a => bool_decide (is_Some (get "href" a)))
                 (find_all ["a"] doc)).

(** [ContentExtractor.extract_links] *)
Definition extract_links (doc : soup) (base_url : string)
  : exn (list link) :=
  fst <$> extract_links_loop doc base_url.

(** The message for a status other than 200. *)
Definition status_message (status : Z) : string :=
  if bool_decide (status = 404) then "Page not found"
  else if bool_decide (status = 403) then "Access forbidden"
  else if bool_decide (status = 500) then "Server error"
  else "HTTP " +:+ Py.str_of_int status.

(** The part of [scrape_url] that runs once a 200 response is there.
    [extract_main_content] has edited the tree when the links are read
    from it. *)
Definition build_page (url normalized_url : string) (r : response)
  : exn page :=
  let html := r.(body) in
  let doc := BeautifulSoup html in
  let '(doc, content) := extract_main_content doc in
  links ← extract_links doc normalized_url;
  let quality_score := _calculate_quality_score content (Py.len html) in
  parsed_url ← urlparse normalized_url;
  Ret {|
    url := normalized_url;
    original_url := url;
    domain := parsed_url.(netloc);
    page_path := parsed_url.(path);
    page_title := content.(title);
    page_headings := content.(headings);
    page_paragraphs := content.(paragraphs);
    page_lists := content.(lists);
    page_tables := content.(tables);
    page_main_content := Py.take 1000 content.(main_content);
    links := links;
    content_length := Py.len html;
    text_length := Py.len content.(main_content);
    quality_score := quality_score;
    headings_count := Z.of_nat (length content.(headings));
    paragraphs_count := Z.of_nat (length content.(paragraphs));
    links_count := Z.of_nat (length links);
    lists_count := Z.of_nat (length content.(lists));
    tables_count := Z.of_nat (length content.(tables));
    status_code := r.(status);
    page_content_type := r.(content_type);
    page_last_modified := r.(last_modified)
  |}.

(** [EnhancedWebScraper.scrape_url].  The recursion of the retry is on
    [fuel]; [None] is "out of fuel". *)
Fixpoint scrape_url_fuel (fuel : nat) (config : ScrapingConfig.t)
    (url : string) (retry_count : Z) (st : state)
  : option (result * state) :=
  match fuel with
  | O => None
  | S fuel' =>
      let normalized_url := URLProcessor.normalize_url url in
      (* Check if already visited or should be excluded *)
      if bool_decide (normalized_url ∈ st.(visited_urls))
      then Some (Failure "Already visited" url None, st)
      else if URLProcessor.should_exclude_url normalized_url
                config.(ScrapingConfig.exclude_patterns)
      then Some (Failure "URL excluded by pattern" url None, st)
      else
        let st := mkState (st.(visited_urls) ∪ {[normalized_url]})
                          st.(requests) st.(sleeps) in
        let outcome := session_get (length st.(requests)) normalized_url in
        let st := mkState st.(visited_urls)
                          (st.(requests) ++ [normalized_url])
                          st.(sleeps) in
        match outcome with
        | NetResponse r =>
            (* Handle redirects *)
            let normalized_url :=
              match r.(redirected_to) with
              | Some final_url => URLProcessor.normalize_url final_url
              | None => normalized_url
              end in
            (* Check status *)
            if negb (bool_decide (r.(status) = 200))
            then Some (Failure (status_message r.(status)) normalized_url
                               (Some r.(status)), st)
            else
              match build_page url normalized_url r with
              | Ret p => Some (Success p, st)
              | Raise e =>
                  Some (Failure ("Unexpected error: " +:+ e) url None, st)
              end
        | NetTimeout =>
            if retry_count <? config.(ScrapingConfig.max_retries)
            then
              let st := mkState st.(visited_urls) st.(requests)
                                (st.(sleeps) ++ [2 ^ retry_count]) in
              scrape_url_fuel fuel' config url (retry_count + 1) st
            else Some (Failure "Timeout" url None, st)
        | NetClientError e =>
            if retry_count <? config.(ScrapingConfig.max_retries)
            then
              let st := mkState st.(visited_urls) st.(requests)
                                (st.(sleeps) ++ [2 ^ retry_count]) in
              scrape_url_fuel fuel' config url (retry_count + 1) st
            else Some (Failure ("Client error: " +:+ e) url None, st)
        | NetError e =>
            Some (Failure ("Unexpected error: " +:+ e) url None, st)
        end
  end.

(** One call [scraper.scrape_url(url, retry_count)]: the retries left
    bound the depth of the recursion. *)
Definition scrape_url (config : ScrapingConfig.t) (url : string)
    (retry_count : Z) (st : state) : option (result * state) :=
  scrape_url_fuel
    (S (Z.to_nat (config.(ScrapingConfig.max_retries) - retry_count)))
    config url retry_count st.

(** The calls of [scrape_multiple_urls], one URL after the other.  The
    tasks are started in the order of [urls] and the semaphore wakes its
    waiters first come, first served, and no task is suspended between the
    look at [visited_urls] and its GET: so the looks and the GETs happen in
    the order of [urls], whatever [max_concurrent] is.  (The entries of
    [sleeps] stand in the order of [urls] too, not in the order in which
    the time-outs arrive.) *)
Fixpoint scrape_in_turn (config : ScrapingConfig.t) (urls : list string)
    (st : state) : option (list result * state) :=
  match urls with
  | [] => Some ([], st)
  | url :: urls' =>
      '(result, st) ← scrape_url config url 0 st;
      '(results, st) ← scrape_in_turn config urls' st;
      Some (result :: results, st)
  end.

(** [EnhancedWebScraper.scrape_multiple_urls].  [None] is a call that does
    not return: with a semaphore of value 0 every task waits forever.  No
    task raises, so [gather] returns no exception object.  The pause of
    [delay_between_requests] after each call is not logged. *)
Definition scrape_multiple_urls (config : ScrapingConfig.t)
    (urls : list string) (max_concurrent : Z) (st : state)
  : option (exn (list result * state)) :=
  if max_concurrent <? 0
  then Some (Raise "Semaphore initial value must be >= 0")
  else if (max_concurrent =? 0) && negb (bool_decide (urls = []))
  then None
  else Ret <$> scrape_in_turn config urls st.

End with_world.
End EnhancedWebScraper.

(** ** The round-based crawl (simple_scraper.py, src/test_api.py) *)

Module SimpleScraper.
Import Html.

Record link : Type := mkLink { link_url : string; link_text : string }.

Record image : Type := mkImage {
  src : string; alt : string; image_title : string
}.

(** The page dictionary of [scrape_single_page]. *)
Record page : Type := mkPage {
  url : string;
  title : string;
  headings : list string;
  paragraphs : list string;
  links : list link;
  images : list image;
  meta : gmap string string;
  content_length : Z;
  headings_count : Z;
  paragraphs_count : Z;
  links_count : Z;
  images_count : Z
}.

(** What [asyncio.gather(..., return_exceptions=True)] holds for a task. *)
Inductive result : Type :=
| Page (p : page)                          (* no key ["error"] *)
| Error (error : string) (err_url : string)
| Exception (msg : string).

Record summary : Type := mkSummary {
  total_headings : Z;
  total_paragraphs : Z;
  total_links : Z;
  total_images : Z;
  total_content_length : Z
}.

(** The dictionary that a job returns (clock readings left out). *)
Record job_result : Type := mkJob {
  base_url : string;
  pages_scraped : Z;
  job_depth : Z;
  job_max_pages : Z;
  pages : list page;
  job_summary : summary
}.

(** The variables of the crawl loop; [dispatched] lists, in order, the
    URLs for which a task was created. *)
Record state : Type := mkState {
  scraped_pages : list page;
  visited_urls : gset string;
  urls_to_visit : list string;
  dispatched : list string
}.

Definition has_attr (key : string) (n : node) : bool :=
  bool_decide (is_Some (get key n)).

Definition sum_of {A} (f : A -> Z) (l : list A) : Z :=
  foldl (fun acc x => acc + f x) 0 l.

Section with_world.
Context `{UrlLib} `{Web}.

Definition extract_headings (doc : soup) : list string :=
  foldl (fun headings tag =>
    foldl (fun headings heading =>
             headings ++ [Py.strip (get_text heading)])
          headings (find_all [tag] doc))
    [] ["h1"; "h2"; "h3"; "h4"; "h5"; "h6"].

Definition extract_paragraphs (doc : soup) : list string :=
  foldl (fun paragraphs p =>
    let text := Py.strip (get_text p) in
    if Py.nonempty text && (20 <? Py.len text)
    then paragraphs ++ [text] else paragraphs)
    [] (find_all ["p"] doc).

Definition extract_links (doc : soup) : list link :=
  foldl (fun links a =>
    let href := get_or_empty "href" a in
    if Py.nonempty href
       && (Py.startswith href "http" || Py.startswith href "https")
    then links ++ [mkLink href (Py.take 100 (Py.strip (get_text a)))]
    else links)
    [] (List.filter (has_attr "href") (find_all ["a"] doc)).

Definition extract_images (doc : soup) (url : string) : exn (list image) :=
  foldl (fun (acc : exn (list image)) img =>
    images ← acc;
    let src := get_or_empty "src" img in
    if Py.nonempty src then
      full_url ← urljoin url src;
      Ret (images ++ [mkImage full_url (get_or_empty "alt" img)
                              (get_or_empty "title" img)])
    else Ret images)
    (Ret []) (List.filter (has_attr "src") (find_all ["img"] doc)).

Definition extract_meta (doc : soup) : gmap string string :=
  foldl (fun (meta_data : gmap string string) m =>
    let name :=
      match get "name" m with
      | Some n => if Py.nonempty n then Some n else get "property" m
      | None => get "property" m
      end in
    match name, get "content" m with
    | Some name, Some content =>
        if Py.nonempty name && Py.nonempty content
        then <[name := content]> meta_data else meta_data
    | _, _ => meta_data
    end)
    ∅ (find_all ["meta"] doc).

(** [scrape_single_page]: every exception becomes an error dictionary. *)
Definition scrape_single_page (url : string) : result :=
  match http_get url with
  | NetTimeout => Error "" url
  | NetClientError e | NetError e => Error e url
  | NetResponse r =>
      if negb (bool_decide (r.(status) = 200))
      then Error ("HTTP " +:+ Py.str_of_int r.(status)) url
      else
        let html := r.(body) in
        let doc := BeautifulSoup html in
        let title_text :=
          match find "title" doc with
          | Some title => Py.strip (get_text title)
          | None => "No title"
          end in
        let headings := extract_headings doc in
        let paragraphs := extract_paragraphs doc in
        let links := extract_links doc in
        match extract_images doc url with
        | Raise e => Error e url
        | Ret images =>
            Page {|
              url := url;
              title := title_text;
              headings := take 20 headings;
              paragraphs := take 50 paragraphs;
              links := take 100 links;
              images := take 50 images;
              meta := extract_meta doc;
              content_length := Py.len html;
              headings_count := Z.of_nat (length headings);
              paragraphs_count := Z.of_nat (length paragraphs);
              links_count := Z.of_nat (length links);
              images_count := Z.of_nat (length images)
            |}
        end
  end.

(** The loop that creates the tasks of a round: the test reads
    [len(scraped_pages)], which no task has changed yet. *)
Definition dispatch (max_pages : Z) (scraped_pages : list page)
    (current_urls : list string) (visited_urls : gset string)
  : gset string * list string :=
  foldl (fun '(visited_urls, tasks) url_to_scrape =>
    if negb (bool_decide (url_to_scrape ∈ visited_urls))
       && (Z.of_nat (length scraped_pages) <? max_pages)
    then (visited_urls ∪ {[url_to_scrape]}, tasks ++ [url_to_scrape])
    else (visited_urls, tasks))
    (visited_urls, []) current_urls.

(** The loop over the links of one page. *)
Definition collect_links (base_url : string) (visited_urls : gset string)
    (urls_to_visit : list string) (p : page) : list string :=
  foldl (fun urls_to_visit l =>
    let link_url := l.(link_url) in
    if Py.nonempty link_url && Py.startswith link_url base_url
       && negb (bool_decide (link_url ∈ visited_urls))
    then urls_to_visit ++ [link_url] else urls_to_visit)
    urls_to_visit p.(links).

(** The loop over the results of a round; [follow] is the test that
    guards the link collection. *)
Definition collect (base_url : string) (follow : bool)
    (visited_urls : gset string) (results : list result)
    (scraped_pages : list page) (urls_to_visit : list string)
  : list page * list string :=
  foldl (fun '(scraped_pages, urls_to_visit) result =>
    match result with
    | Page p =>
        (scraped_pages ++ [p],
         if follow
         then collect_links base_url visited_urls urls_to_visit p
         else urls_to_visit)
    | Error _ _ => (scraped_pages, urls_to_visit)
    | Exception _ => (scraped_pages, urls_to_visit)   (* printed *)
    end)
    (scraped_pages, urls_to_visit) results.

(** The body of [for current_depth in range(depth)], after the [break]
    test. *)
Definition round (base_url : string) (depth max_pages : Z)
    (include_images : bool) (current_depth : nat) (st : state) : state :=
  let current_urls := st.(urls_to_visit) in
  let '(visited_urls, tasks) :=
    dispatch max_pages st.(scraped_pages) current_urls
             st.(visited_urls) in
  let results := map scrape_single_page tasks in
  let '(scraped_pages, urls_to_visit) :=
    collect base_url
      ((Z.of_nat current_depth <? depth - 1) && include_images)
      visited_urls results st.(scraped_pages) [] in
  mkState scraped_pages visited_urls urls_to_visit
          (st.(dispatched) ++ tasks).

(** The [for] loop over the rounds that are left, with its [break]. *)
Fixpoint rounds (base_url : string) (depth max_pages : Z)
    (include_images : bool) (range : list nat) (st : state) : state :=
  match range with
  | [] => st
  | current_depth :: range' =>
      if bool_decide (st.(urls_to_visit) = [])
         || (max_pages <=? Z.of_nat (length st.(scraped_pages)))
      then st
      else rounds base_url depth max_pages include_images range'
             (round base_url depth max_pages include_images
                    current_depth st)
  end.

Definition crawl (url : string) (depth max_pages : Z)
    (include_images : bool) : state :=
  rounds url depth max_pages include_images
         (seq 0 (Z.to_nat depth))
         (mkState [] ∅ [url] []).

(** [scrape_website_async] of src/test_api.py *)
Definition scrape_website_async (url : string) (depth max_pages : Z)
    (include_images : bool) : job_result :=
  let scraped_pages :=
    (crawl url depth max_pages include_images).(scraped_pages) in
  {| base_url := url;
     pages_scraped := Z.of_nat (length scraped_pages);
     job_depth := depth;
     job_max_pages := max_pages;
     pages := scraped_pages;
     job_summary := {|
       total_headings :=
         sum_of (fun p => Z.of_nat (length p.(headings))) scraped_pages;
       total_paragraphs :=
         sum_of (fun p => Z.of_nat (length p.(paragraphs))) scraped_pages;
       total_links :=
         sum_of (fun p => Z.of_nat (length p.(links))) scraped_pages;
       total_images :=
         sum_of (fun p => Z.of_nat (length p.(images))) scraped_pages;
       total_content_length := sum_of content_length scraped_pages
     |}
  |}.

(** [scrape_website] of simple_scraper.py: the same loop, whose link
    collection is guarded by [current_depth < depth - 1] alone. *)
Definition scrape_website (url : string) (depth max_pages : Z)
  : job_result :=
  scrape_website_async url depth max_pages true.

End with_world.
End SimpleScraper.

(** ** The queue-based crawl of [scrape_enhanced] (src/main.py) *)

Module MainApi.
Import Html.

Record link : Type := mkLink { link_url : string; link_text : string }.
Record image : Type := mkImage { src : string; alt : string }.

(** [page_data] (the [meta] entry is left out). *)
Record page_data : Type := mkPage {
  url : string;
  title : string;
  headings : list string;
  paragraphs : list string;
  links : list link;
  images : list image;
  content_length : Z;
  headings_count : Z;
  paragraphs_count : Z;
  links_count : Z;
  images_count : Z
}.

Record summary : Type := mkSummary {
  total_pages : Z;
  total_headings : Z;
  total_paragraphs : Z;
  total_links : Z;
  total_images : Z;
  total_content_length : Z
}.

(** The variables of the [while] loop. *)
Record state : Type := mkState {
  scraped_pages : list page_data;
  urls_to_scrape : list string;
  visited_urls : gset string
}.

(** The answer of the endpoint in [DEV_MODE]. *)
Inductive outcome : Type :=
| Completed (pages : list page_data) (s : summary)
| Failed (error : string).

Section with_world.
Context `{UrlLib} `{Web}.

Definition extract_headings (doc : soup) : list string :=
  foldl (fun headings h_tag =>
    let text := Py.strip (get_text h_tag) in
    if Py.nonempty text && (2 <? Py.len text)
    then headings ++ [text] else headings)
    [] (find_all ["h1"; "h2"; "h3"; "h4"; "h5"; "h6"] doc).

Definition extract_paragraphs (doc : soup) : list string :=
  foldl (fun paragraphs p_tag =>
    let text := Py.strip (get_text p_tag) in
    if Py.nonempty text && (20 <? Py.len text)
    then paragraphs ++ [text] else paragraphs)
    [] (find_all ["p"] doc).

(** The test that lets a link into the queue; the two [urlparse] calls
    are reached only when the tests before them hold. *)
Definition wants_link (depth : Z) (scraped_pages : list page_data)
    (visited_urls : gset string) (urls_to_scrape : list string)
    (current_url href : string) : exn bool :=
  if (1 <? depth)
     && bool_decide (length scraped_pages = 0%nat)  (* Only from main page *)
     && negb (bool_decide (href ∈ visited_urls))
     && negb (bool_decide (href ∈ urls_to_scrape))
  then
    parsed ← urlparse href;
    current ← urlparse current_url;
    Ret (bool_decide (parsed.(netloc) = current.(netloc)))
  else Ret false.

(** The loop over the anchors; [acc] is [(links, urls_to_scrape)]. *)
Definition extract_links (depth : Z) (scraped_pages : list page_data)
    (visited_urls : gset string) (urls_to_scrape : list string)
    (current_url : string) (doc : soup)
  : exn (list link * list string) :=
  foldl (fun (acc : exn (list link * list string)) a_tag =>
    '(links, urls_to_scrape) ← acc;
    let href := Py.strip (get_or_empty "href" a_tag) in
    let link_text := Py.strip (get_text a_tag) in
    if Py.nonempty href && Py.nonempty link_text then
      href' ←
        (if Py.startswith href "/" then Some <$> urljoin current_url href
         else if negb (Py.startswith href "http://"
                       || Py.startswith href "https://")
         then Ret None
         else Ret (Some href));
      match href' with
      | None => Ret (links, urls_to_scrape)          (* continue *)
      | Some href =>
          let links := links ++ [mkLink href link_text] in
          (* Add internal links for deeper scraping *)
          add ← wants_link depth scraped_pages visited_urls
                           urls_to_scrape current_url href;
          Ret (links,
               if add : bool then urls_to_scrape ++ [href]
               else urls_to_scrape)
      end
    else Ret (links, urls_to_scrape))
    (Ret ([], urls_to_scrape))
    (List.filter (SimpleScraper.has_attr "href") (find_all ["a"] doc)).

Definition extract_images (current_url : string) (doc : soup)
  : exn (list image) :=
  foldl (fun (acc : exn (list image)) img_tag =>
    images ← acc;
    let src := Py.strip (get_or_empty "src" img_tag) in
    let alt := Py.strip (get_or_empty "alt" img_tag) in
    if Py.nonempty src then
      src ← (if Py.startswith src "/" then urljoin current_url src
             else Ret src);
      Ret (images ++ [mkImage src alt])
    else Ret images)
    (Ret [])
    (List.filter (SimpleScraper.has_attr "src") (find_all ["img"] doc)).

(** One turn of the [while] loop, entered with a non-empty queue. *)
Definition iteration (depth : Z) (st : state) : exn state :=
  match st.(urls_to_scrape) with
  | [] => Ret st
  | current_url :: urls_to_scrape =>               (* pop(0) *)
      if bool_decide (current_url ∈ st.(visited_urls))
      then Ret (mkState st.(scraped_pages) urls_to_scrape
                        st.(visited_urls))          (* continue *)
      else
        let visited_urls := st.(visited_urls) ∪ {[current_url]} in
        html_content ← urlopen current_url;
        let doc := BeautifulSoup html_content in
        let title :=
          match find "title" doc with
          | Some title_tag => Py.strip (get_text title_tag)
          | None => "No title found"
          end in
        let headings := extract_headings doc in
        let paragraphs := extract_paragraphs doc in
        '(links, urls_to_scrape) ←
          extract_links depth st.(scraped_pages) visited_urls
                        urls_to_scrape current_url doc;
        images ← extract_images current_url doc;
        let page := {|
          url := current_url;
          title := title;
          headings := take 15 headings;
          paragraphs := take 15 paragraphs;
          links := take 30 links;
          images := take 15 images;
          content_length := Py.len html_content;
          headings_count := Z.of_nat (length headings);
          paragraphs_count := Z.of_nat (length paragraphs);
          links_count := Z.of_nat (length links);
          images_count := Z.of_nat (length images)
        |} in
        Ret (mkState (st.(scraped_pages) ++ [page]) urls_to_scrape
                     visited_urls)
  end.

(** [while urls_to_scrape and len(scraped_pages) < request.max_pages];
    [None] is "out of fuel". *)
Fixpoint loop (fuel : nat) (depth max_pages : Z) (st : state)
  : option (exn state) :=
  match fuel with
  | O => None
  | S fuel' =>
      if bool_decide (st.(urls_to_scrape) = [])
         || (max_pages <=? Z.of_nat (length st.(scraped_pages)))
      then Some (Ret st)
      else
        match iteration depth st with
        | Raise e => Some (Raise e)
        | Ret st' => loop fuel' depth max_pages st'
        end
  end.

Definition summarize (scraped_pages : list page_data) : summary :=
  {| total_pages := Z.of_nat (length scraped_pages);
     total_headings := SimpleScraper.sum_of headings_count scraped_pages;
     total_paragraphs :=
       SimpleScraper.sum_of paragraphs_count scraped_pages;
     total_links := SimpleScraper.sum_of links_count scraped_pages;
     total_images := SimpleScraper.sum_of images_count scraped_pages;
     total_content_length :=
       SimpleScraper.sum_of content_length scraped_pages |}.

(** The crawl of [scrape_enhanced] for [request.url], [request.depth] and
    [request.max_pages]. *)
Definition scrape_enhanced (fuel : nat) (url : string)
    (depth max_pages : Z) : option outcome :=
  match loop fuel depth max_pages (mkState [] [url] ∅) with
  | None => None
  | Some (Ret st) =>
      Some (Completed st.(scraped_pages) (summarize st.(scraped_pages)))
  | Some (Raise e) => Some (Failed ("Enhanced scraping failed: " +:+ e))
  end.

End with_world.
End MainApi.

(** ** Structured data ([ContentExtractor.extract_structured_data]) *)

(** What [json.loads] does with a string. *)
Inductive loaded (J : Type) : Type :=
| Loaded (data : J)
| JSONDecodeError
| LoadError (msg : string).          (* any other exception *)
Arguments Loaded {J} data.
Arguments JSONDecodeError {J}.
Arguments LoadError {J} msg.

Class Json : Type := {
  json_value : Type;
  json_loads : string -> loaded json_value
}.

Module StructuredData.
Import Html.

(** [tag.string]: the single string below the tag, if there is one. *)
Fixpoint string_of (n : node) : option string :=
  match n with
  | Text s | Comment s => Some s
  | Element _ _ [child] => string_of child
  | Element _ _ _ => None
  end.

Section with_json.
Context `{Json}.

(** The dictionary [structured_data]; a key is set only when its value is
    not empty. *)
Record t : Type := mk {
  json_ld : list json_value;
  open_graph : gmap string string;
  twitter : gmap string string
}.

(** [soup.find_all('script', type='application/ld+json')] *)
Definition json_ld_scripts (doc : soup) : list node :=
  List.filter (fun n => bool_decide (get "type" n = Some "application/ld+json"))
              (find_all ["script"] doc).

(** [json.loads(None)] raises a [TypeError], which the [except] clause
    does not name. *)
Definition extract_json_ld (doc : soup) : exn (list json_value) :=
  foldl (fun (acc : exn (list json_value)) script =>
    json_ld_data ← acc;
    match string_of script with
    | None =>
        Raise "the JSON object must be str, bytes or bytearray, not NoneType"
    | Some s =>
        match json_loads s with
        | Loaded data => Ret (json_ld_data ++ [data])
        | JSONDecodeError => Ret json_ld_data            (* continue *)
        | LoadError e => Raise e
        end
    end)
    (Ret []) (json_ld_scripts doc).

(** The loops over the [<meta>] elements whose attribute [key] starts with
    [prefix]; [n] is the length of [prefix]. *)
Definition extract_prefixed (key prefix : string) (n : nat) (doc : soup)
  : gmap string string :=
  foldl (fun (data : gmap string string) m =>
    let prop := Py.drop n (get_or_empty key m) in
    let content := get_or_empty "content" m in
    if Py.nonempty prop && Py.nonempty content
    then <[prop := content]> data else data)
    ∅
    (List.filter
       (fun m => match get key m with
                 | Some x => Py.nonempty x && Py.startswith x prefix
                 | None => false
                 end)
       (find_all ["meta"] doc)).

(** [ContentExtractor.extract_structured_data] *)
Definition extract_structured_data (doc : soup) : exn t :=
  json_ld_data ← extract_json_ld doc;
  Ret (mk json_ld_data
          (extract_prefixed "property" "og:" 3 doc)
          (extract_prefixed "name" "twitter:" 8 doc)).

(** The entry [structured_data] of a result of [scrape_url]: the tree is
    the one that [extract_main_content] has left. *)
Definition structured_data_of_page (doc : soup) : exn t :=
  extract_structured_data (ContentExtractor.extract_main_content doc).1.

End with_json.
End StructuredData.

(** ** The task store of src/test_api.py *)

Module TaskApi.

(** What a task stores: the job of [scrape_website_async] or the page of
    [scrape_url]. *)
Inductive stored_result : Type :=
| JobResult (job : SimpleScraper.job_result)
| PageResult (p : EnhancedWebScraper.page).

(** An entry of [task_status] (the request and the clock readings are
    left out). *)
Record task : Type := mkTask {
  task_id : string;
  status : string;
  progress : Z;
  result : option stored_result;
  error : option string
}.

(** The two dictionaries of the module. *)
Record store : Type := mkStore {
  task_status : gmap string task;
  scraping_results : gmap string stored_result
}.

Definition empty : store := mkStore ∅ ∅.

(** The answer of an endpoint. *)
Inductive answer (A : Type) : Type :=
| Reply (a : A)
| HTTPException (status_code : Z) (detail : string).
Arguments Reply {A} a.
Arguments HTTPException {A} status_code detail.

(** The [EnhancedScrapingRequest] fields that the task reads. *)
Record enhanced_request : Type := mkRequest {
  request_url : string;
  request_timeout : Z;
  request_max_retries : Z;
  request_delay : float
}.

(** [task_status[task_id] = {..., "status": "pending", "progress": 0}] of
    [start_scraping] and [start_enhanced_scraping]. *)
Definition register (id : string) (st : store) : store :=
  mkStore (<[id := mkTask id "pending" 0 None None]> st.(task_status))
          st.(scraping_results).

(** [task_status[task_id].update(...)]; [None] is the [KeyError] of an
    unknown id, which ends the task. *)
Definition update_task (id : string) (f : task -> task) (st : store)
  : option store :=
  t ← st.(task_status) !! id;
  Some (mkStore (<[id := f t]> st.(task_status)) st.(scraping_results)).

Definition processing (t : task) : task :=
  mkTask t.(task_id) "processing" 10 t.(result) t.(error).

Definition completed (r : stored_result) (t : task) : task :=
  mkTask t.(task_id) "completed" 100 (Some r) t.(error).

Definition failed (e : string) (t : task) : task :=
  mkTask t.(task_id) "failed" 0 t.(result) (Some e).

Definition store_result (id : string) (r : stored_result) (st : store)
  : store :=
  mkStore st.(task_status) (<[id := r]> st.(scraping_results)).

Section with_world.
Context `{UrlLib} `{Web}.

(** [run_scraping_task] *)
Definition run_scraping_task (id : string) (url : string)
    (depth max_pages : Z) (include_images : bool) (st : store)
  : option store :=
  st ← update_task id processing st;
  let result :=
    JobResult (SimpleScraper.scrape_website_async url depth max_pages
                 include_images) in
  update_task id (completed result) (store_result id result st).

(** [ScrapingConfig(timeout=..., max_retries=..., delay_between_requests=...)] *)
Definition config_of (request : enhanced_request) : ScrapingConfig.t :=
  ScrapingConfig.mk request.(request_max_retries) request.(request_timeout)
    request.(request_delay) "Enhanced Web Scraper 1.0" 10
    ScrapingConfig.default_exclude_patterns.

(** [run_enhanced_scraping_task]; [available] is
    [ENHANCED_SCRAPER_AVAILABLE].  The scraper is a new one. *)
Definition run_enhanced_scraping_task (available : bool) (id : string)
    (request : enhanced_request) (st : store) : option store :=
  if negb available
  then update_task id (failed "Enhanced scraper module not available") st
  else
    st ← update_task id processing st;
    '(result, _) ←
      EnhancedWebScraper.scrape_url (config_of request)
        request.(request_url) 0 EnhancedWebScraper.initial;
    match result with
    | EnhancedWebScraper.Failure e _ _ => update_task id (failed e) st
    | EnhancedWebScraper.Success p =>
        update_task id (completed (PageResult p))
                    (store_result id (PageResult p) st)
    end.

End with_world.

(** [get_task_status] *)
Definition get_task_status (id : string) (st : store) : answer task :=
  match st.(task_status) !! id with
  | None => HTTPException 404 "Task not found"
  | Some t => Reply t
  end.

(** [get_scraping_result] *)
Definition get_scraping_result (id : string) (st : store)
  : answer stored_result :=
  match st.(task_status) !! id with
  | None => HTTPException 404 "Task not found"
  | Some t =>
      if negb (bool_decide (t.(status) = "completed"))
      then HTTPException 400 "Task not completed yet"
      else
        match st.(scraping_results) !! id with
        | None => HTTPException 404 "Result not found"
        | Some r => Reply r
        end
  end.

End TaskApi.

(** ** An instance of [UrlLib]: CPython's [urllib.parse]

    [urlsplit], [urlparse], [urlunparse] and [urljoin] of CPython 3.11 on
    strings of code points below 256, without the validation of bracketed
    IPv6 hosts and the NFKC check of the host. *)

Module PyUrl.

Definition uses_relative : list string :=
  [""; "ftp"; "http"; "gopher"; "nntp"; "imap"; "wais"; "file"; "https";
   "shttp"; "mms"; "prospero"; "rtsp"; "rtspu"; "sftp"; "svn"; "svn+ssh";
   "ws"; "wss"].

Definition uses_netloc : list string :=
  [""; "ftp"; "http"; "gopher"; "nntp"; "telnet"; "imap"; "wais"; "file";
   "mms"; "https"; "shttp"; "snews"; "prospero"; "rtsp"; "rtspu"; "rsync";
   "svn"; "svn+ssh"; "sftp"; "nfs"; "git"; "git+ssh"; "ws"; "wss"].

Definition uses_params : list string :=
  [""; "ftp"; "hdl"; "prospero"; "http"; "imap"; "https"; "shttp"; "rtsp";
   "rtspu"; "sip"; "sips"; "mms"; "sftp"; "tel"].

Definition is_ascii_alpha (c : ascii) : bool :=
  let n := N_of_ascii c in
  ((65 <=? n) && (n <=? 90) || (97 <=? n) && (n <=? 122))%N.

Definition is_scheme_char (c : ascii) : bool :=
  let n := N_of_ascii c in
  (is_ascii_alpha c || (48 <=? n) && (n <=? 57)
   || (n =? 43) || (n =? 45) || (n =? 46))%N.

Definition is_c0_or_space (c : ascii) : bool := (N_of_ascii c <=? 32)%N.

Definition is_unsafe (c : ascii) : bool :=
  let n := N_of_ascii c in ((n =? 9) || (n =? 10) || (n =? 13))%N.

Fixpoint forallb_str (p : ascii -> bool) (s : string) : bool :=
  match s with
  | EmptyString => true
  | String c s' => p c && forallb_str p s'
  end.

Fixpoint remove_chars (p : ascii -> bool) (s : string) : string :=
  match s with
  | EmptyString => EmptyString
  | String c s' =>
      if p c then remove_chars p s' else String c (remove_chars p s')
  end.

(** [s.partition]-like split at the first character in the class [p]:
    the part before it and, if there is one, the rest from it on. *)
Fixpoint break (p : ascii -> bool) (s : string) : string * string :=
  match s with
  | EmptyString => (EmptyString, EmptyString)
  | String c s' =>
      if p c then (EmptyString, s)
      else let '(a, b) := break p s' in (String c a, b)
  end.

Definition is_char (a : ascii) (c : ascii) : bool := bool_decide (c = a).

(** [s.split(sep, 1)] when [sep] occurs: the parts around the first. *)
Definition split1 (sep : ascii) (s : string) : string * string :=
  let '(a, b) := break (is_char sep) s in (a, Py.drop 1 b).

Fixpoint contains (a : ascii) (s : string) : bool :=
  match s with
  | EmptyString => false
  | String c s' => is_char a c || contains a s'
  end.

(** [s.split('/')] *)
Fixpoint split_slash (s : string) : list string :=
  match s with
  | EmptyString => [EmptyString]
  | String c s' =>
      if is_char "/" c then EmptyString :: split_slash s'
      else match split_slash s' with
           | w :: ws => String c w :: ws
           | [] => [String c EmptyString]
           end
  end.

(** The five-tuple of [urlsplit]. *)
Definition urlsplit (url : string)
  : exn (string * string * string * string * string) :=
  let url := Py.lstrip_by is_c0_or_space url in
  let url := remove_chars is_unsafe url in
  let '(scheme, url) :=
    let '(head, rest) := break (is_char ":") url in
    match head, rest with
    | String c0 _, String _ after =>
        if is_ascii_alpha c0 && forallb_str is_scheme_char head
        then (Py.lower head, after) else (EmptyString, url)
    | _, _ => (EmptyString, url)
    end in
  let split_netloc :=
    if Py.startswith url "//" then
      let '(netloc, rest) :=
        break (fun c => is_char "/" c || is_char "?" c || is_char "#" c)
              (Py.drop 2 url) in
      if contains "[" netloc && negb (contains "]" netloc)
         || contains "]" netloc && negb (contains "[" netloc)
      then Raise "Invalid IPv6 URL"
      else Ret (netloc, rest)
    else Ret (EmptyString, url) in
  '(netloc, url) ← split_netloc;
  let '(url, fragment) :=
    if contains "#" url then split1 "#" url else (url, EmptyString) in
  let '(url, query) :=
    if contains "?" url then split1 "?" url else (url, EmptyString) in
  Ret (scheme, netloc, url, query, fragment).

(** [_splitparams]: the parameters of the last path segment. *)
Fixpoint splitparams (url : string) : string * string :=
  match url with
  | EmptyString => (EmptyString, EmptyString)
  | String c s' =>
      if contains "/" s' then
        let '(a, b) := splitparams s' in (String c a, b)
      else if is_char "/" c then
        let '(a, b) := split1 ";" s' in (String c a, b)
      else split1 ";" url
  end.

Definition urlparse (url : string) : exn ParseResult :=
  '(scheme, netloc, url, query, fragment) ← urlsplit url;
  let '(url, params) :=
    if bool_decide (scheme ∈ uses_params) && contains ";" url
    then splitparams url else (url, EmptyString) in
  Ret (mkParse scheme netloc url params query fragment).

Definition urlunsplit (scheme netloc url query fragment : string)
  : string :=
  let url :=
    if Py.nonempty netloc
       || (Py.nonempty scheme && bool_decide (scheme ∈ uses_netloc)
           && negb (Py.startswith url "//"))
    then
      let url :=
        if Py.nonempty url && negb (Py.startswith url "/")
        then "/" +:+ url else url in
      "//" +:+ netloc +:+ url
    else url in
  let url := if Py.nonempty scheme then scheme +:+ ":" +:+ url else url in
  let url := if Py.nonempty query then url +:+ "?" +:+ query else url in
  if Py.nonempty fragment then url +:+ "#" +:+ fragment else url.

Definition urlunparse (p : ParseResult) : string :=
  let url :=
    if Py.nonempty p.(params) then p.(path) +:+ ";" +:+ p.(params)
    else p.(path) in
  urlunsplit p.(scheme) p.(netloc) url p.(query) p.(fragment).

(** The loop of [urljoin] that resolves the dot segments. *)
Definition resolve (segments : list string) : list string :=
  foldl (fun resolved_path seg =>
    if bool_decide (seg = "..")
    then take (length resolved_path - 1) resolved_path
    else if bool_decide (seg = ".") then resolved_path
    else resolved_path ++ [seg])
    [] segments.

(** [segments[1:-1] = filter(None, segments[1:-1])] *)
Definition drop_empty_inner (segments : list string) : list string :=
  match segments with
  | [] => []
  | first :: rest =>
      match reverse rest with
      | [] => [first]
      | last :: inner_rev =>
          first :: List.filter Py.nonempty (reverse inner_rev) ++ [last]
      end
  end.

Definition urljoin (base url : string) : exn string :=
  if negb (Py.nonempty base) then Ret url
  else if negb (Py.nonempty url) then Ret base
  else
    '(mkParse bscheme bnetloc bpath bparams bquery _) ← urlparse base;
    '(scheme0, netloc0, path0, query0, fragment0) ← urlsplit url;
    let scheme0 := if Py.nonempty scheme0 then scheme0 else bscheme in
    let '(path0, params0) :=
      if bool_decide (scheme0 ∈ uses_params) && contains ";" path0
      then splitparams path0 else (path0, EmptyString) in
    if negb (bool_decide (scheme0 = bscheme))
       || negb (bool_decide (scheme0 ∈ uses_relative))
    then Ret url
    else if bool_decide (scheme0 ∈ uses_netloc) && Py.nonempty netloc0
    then Ret (urlunparse
                (mkParse scheme0 netloc0 path0 params0 query0 fragment0))
    else
      let netloc0 :=
        if bool_decide (scheme0 ∈ uses_netloc) then bnetloc
        else netloc0 in
      if negb (Py.nonempty path0) && negb (Py.nonempty params0) then
        Ret (urlunparse
               (mkParse scheme0 netloc0 bpath bparams
                  (if Py.nonempty query0 then query0 else bquery)
                  fragment0))
      else
        let base_parts := split_slash bpath in
        let base_parts :=
          match last base_parts with
          | Some "" => base_parts
          | _ => take (length base_parts - 1) base_parts
          end in
        let segments :=
          if Py.startswith path0 "/" then split_slash path0
          else drop_empty_inner (base_parts ++ split_slash path0) in
        let resolved_path := resolve segments in
        let resolved_path :=
          match last segments with
          | Some seg =>
              if bool_decide (seg = ".") || bool_decide (seg = "..")
              then resolved_path ++ [""] else resolved_path
          | None => resolved_path
          end in
        let joined := Py.join "/" resolved_path in
        Ret (urlunparse
               (mkParse scheme0 netloc0
                  (if Py.nonempty joined then joined else "/")
                  params0 query0 fragment0)).

#[export] Instance lib : UrlLib :=
  Build_UrlLib urlparse urlunparse urljoin.

End PyUrl.

(** ** What it means for a pattern to match

    [matches r s rest]: the pattern [r] matches exactly the characters [s]
    at a place of the subject where [rest] follows them. *)

Module ReSpec.
Import Re.

Inductive matches : regex -> string -> string -> Prop :=
| m_eps rest : matches Eps "" rest
| m_eos rest : at_eos rest = true -> matches Eos "" rest
| m_chr p c rest : p c = true -> matches (Chr p) (String c "") rest
| m_seq r1 r2 s1 s2 rest :
    matches r1 s1 (s2 +:+ rest) -> matches r2 s2 rest ->
    matches (Seq r1 r2) (s1 +:+ s2) rest
| m_alt_l r1 r2 s rest : matches r1 s rest -> matches (Alt r1 r2) s rest
| m_alt_r r1 r2 s rest : matches r2 s rest -> matches (Alt r1 r2) s rest
| m_star_nil r rest : matches (Star r) "" rest
| m_star_cons r s1 s2 rest :
    matches r s1 (s2 +:+ rest) -> matches (Star r) s2 rest ->
    matches (Star r) (s1 +:+ s2) rest.

(** [re.match(r, subject)] finds a match: a prefix of the subject matches. *)
Definition matches_prefix (r : regex) (subject : string) : Prop :=
  exists s rest, subject = s +:+ rest /\ matches r s rest.

(** Two strings that differ in case only. *)
Definition same_letters (s t : string) : Prop := Py.lower s = Py.lower t.

End ReSpec.

(** ** The words of the specification about extracted text *)

Module ContentSpec.
Import ContentExtractor.

(** "Cleaned (whitespace-collapsed, trimmed)". *)
Definition normalized (text : string) : string := Py.sub_ws (Py.strip text).

(** The text matches one of the built-in boilerplate patterns. *)
Definition boilerplate (text : string) : bool :=
  existsb (fun pattern => Re.match_ pattern text) skip_patterns.

(** "Exceeds 30 characters and has at least 5 words". *)
Definition paragraph_ok (text : string) : bool :=
  (30 <? Py.len text) && (5 <=? Z.of_nat (length (Py.split text))).

(** "At least 2 words". *)
Definition heading_ok (text : string) : bool :=
  2 <=? Z.of_nat (length (Py.split text)).

End ContentSpec.

(** ** The quality score as the specification words it

    "+0.2 if title length > 10; +0.3/+0.2/+0.1 for main-content length >
    500/200/100 (highest tier wins); +0.2 if any heading; +0.2 if any
    paragraph; +0.1 if paragraph count > 3; +0.1 if (main-content length /
    raw HTML length) > 0.1, else +0.05 if > 0.05; min(1.0, sum)".  The
    quotient exceeds a bound only where it exists (a non-empty document). *)

Module QualitySpec.
Import ContentExtractor EnhancedWebScraper.
#[local] Open Scope float_scope.

Definition bonus (b : bool) (w : float) : float := if b then w else 0.

Definition density_exceeds (text_length html_length : Z) (bound : float)
  : bool :=
  (0 <? html_length)%Z && (bound <? truediv text_length html_length).

Definition quality_formula (c : content) (html_length : Z) : float :=
  let title_length := Py.len c.(title) in
  let text_length := Py.len c.(main_content) in
  let n_headings := Z.of_nat (length c.(headings)) in
  let n_paragraphs := Z.of_nat (length c.(paragraphs)) in
  let sum :=
    bonus (10 <? title_length)%Z 0.2
    + (if (500 <? text_length)%Z then 0.3
       else if (200 <? text_length)%Z then 0.2
       else if (100 <? text_length)%Z then 0.1 else 0)
    + bonus (1 <=? n_headings)%Z 0.2
    + bonus (1 <=? n_paragraphs)%Z 0.2
    + bonus (3 <? n_paragraphs)%Z 0.1
    + (if density_exceeds text_length html_length 0.1 then 0.1
       else if density_exceeds text_length html_length 0.05 then 0.05
       else 0) in
  py_min 1.0 sum.

End QualitySpec.

(** ** The words of the specification about canonical URLs *)

Module UrlSpec.

(** The host still carries a leading "www." that [normalize_url] strips. *)
Definition www_prefixed (host : string) : bool :=
  Py.startswith host "www." && (4 <? Py.len host).

(** "Fragment stripped, scheme defaulted to https, host lower-cased,
    leading www. label stripped, trailing / stripped from the path with
    empty path becoming /", said of the parts of a URL. *)
Definition is_canonical (q : ParseResult) : Prop :=
  q.(fragment) = ""
  /\ Py.nonempty q.(scheme) = true
  /\ Py.lower q.(netloc) = q.(netloc)
  /\ www_prefixed q.(netloc) = false
  /\ (q.(path) = "/"
      \/ (Py.nonempty q.(path) = true
          /\ Py.rstrip_slash q.(path) = q.(path))).

End UrlSpec.

(** ** The words of the specification about the crawl *)

Module CrawlSpec.

(** The page of a result that is a success. *)
Definition page_of (r : SimpleScraper.result) : option SimpleScraper.page :=
  match r with SimpleScraper.Page p => Some p | _ => None end.

(** The links of a page that the round-based crawl puts on the frontier:
    those that start with the seed URL and are not visited. *)
Definition wanted_links (base_url : string) (visited_urls : gset string)
    (p : SimpleScraper.page) : list string :=
  List.filter
    (fun u => Py.nonempty u && Py.startswith u base_url
              && negb (bool_decide (u ∈ visited_urls)))
    (map SimpleScraper.link_url p.(SimpleScraper.links)).

(** Two URLs with the same host, as [urlparse] reads them. *)
Definition same_host `{UrlLib} (u v : string) : Prop :=
  exists pu pv, urlparse u = Ret pu /\ urlparse v = Ret pv
                /\ pu.(netloc) = pv.(netloc).

End CrawlSpec.

(** ** What the scraper object keeps true of its log *)

Module ScraperSpec.
Import EnhancedWebScraper.

(** No URL was requested twice, and every requested URL is marked as
    visited. *)
Definition requests_deduplicated (st : state) : Prop :=
  NoDup st.(requests) /\ forall u, u ∈ st.(requests) -> u ∈ st.(visited_urls).

(** The error message of a result; a success has none. *)
Definition error_of (r : result) : option string :=
  match r with Failure e _ _ => Some e | Success _ => None end.

End ScraperSpec.

(** ** What the default exclusion patterns stand for *)

Module ExcludeSpec.

(** The file extensions that the patterns [\.pdf$], [\.doc[x]?$], ...
    accept at the end of a URL. *)
Definition excluded_extensions : list string :=
  [".pdf"; ".doc"; ".docx"; ".xls"; ".xlsx"; ".ppt"; ".pptx";
   ".zip"; ".rar"; ".tar.gz"; ".exe"; ".dmg"; ".mp3"; ".mp4";
   ".avi"; ".mov"; ".wmv"; ".flv";
   ".jpg"; ".jpeg"; ".png"; ".gif"; ".bmp"; ".svg"].

(** The words that the patterns [mailto:], [tel:], ... accept anywhere. *)
Definition excluded_words : list string :=
  ["mailto:"; "tel:"; "ftp:"; "javascript:"].

(** [url] ends with the letters of [e], in any case; as [$] does, a final
    newline after them is let through. *)
Definition ends_with_letters (url e : string) : Prop :=
  exists before ending rest,
    url = before +:+ ending +:+ rest
    /\ Py.lower ending = Py.lower e
    /\ (rest = "" \/ rest = String "010" "").

(** [url] contains the letters of [w], in any case. *)
Definition contains_letters (url w : string) : Prop :=
  exists before word rest,
    url = before +:+ word +:+ rest /\ Py.lower word = Py.lower w.

End ExcludeSpec.

(** ** What the round-based crawl keeps true of its variables *)

Module RoundSpec.
Import SimpleScraper.

Section with_world.
Context `{UrlLib} `{Web}.

(** The dispatched URLs are pairwise distinct and are the visited ones,
    they and the frontier start with the seed URL, and the pages are the
    successes among the dispatched URLs. *)
Definition crawl_invariant (base_url : string) (st : state) : Prop :=
  NoDup st.(dispatched)
  /\ (forall u, u ∈ st.(visited_urls) <-> u ∈ st.(dispatched))
  /\ Forall (fun u => Py.startswith u base_url = true) st.(dispatched)
  /\ Forall (fun u => Py.startswith u base_url = true) st.(urls_to_visit)
  /\ st.(scraped_pages)
     = omap CrawlSpec.page_of (map scrape_single_page st.(dispatched)).

End with_world.
End RoundSpec.

(** ** What the queue-based crawl keeps true of its variables *)

Module QueueSpec.
Import MainApi.

Section with_world.
Context `{UrlLib} `{Web}.

(** The seed, or a URL on the host of the seed. *)
Definition on_seed_host (seed u : string) : Prop :=
  u = seed \/ CrawlSpec.same_host u seed.

(** Before the first page is collected the queue holds the seed alone;
    the pages have pairwise distinct URLs, which are visited; the pages and
    the queue are on the host of the seed. *)
Definition queue_invariant (seed : string) (st : state) : Prop :=
  (st.(scraped_pages) = [] ->
   st.(urls_to_scrape) = [seed] /\ st.(visited_urls) = ∅)
  /\ NoDup (map url st.(scraped_pages))
  /\ (forall u, u ∈ map url st.(scraped_pages) -> u ∈ st.(visited_urls))
  /\ Forall (on_seed_host seed) (map url st.(scraped_pages))
  /\ Forall (on_seed_host seed) st.(urls_to_scrape).

End with_world.
End QueueSpec.

(** ** What the task store keeps true *)

Module TaskSpec.
Import TaskApi.

(** Every task that is marked completed has its result in both
    dictionaries. *)
Definition results_kept (st : store) : Prop :=
  forall id t,
    st.(task_status) !! id = Some t -> t.(status) = "completed" ->
    exists r, t.(result) = Some r /\ st.(scraping_results) !! id = Some r.

End TaskSpec.

(** ** Documents and sites for the examples *)

Module Demo.
Import Html.

(** The tree of
    [<html><body><p>Too short text.</p>
     <p>This paragraph is exactly forty-five chars ok</p></body></html>]. *)
Definition two_paragraphs : soup :=
  [Element "html" []
     [Element "body" []
        [Element "p" [] [Text "Too short text."];
         Element "p" []
           [Text "This paragraph is exactly forty-five chars ok"]]]].

(** The markup of a tree, attribute values in single quotes. *)
Fixpoint render (n : node) : string :=
  match n with
  | Text s => s
  | Comment s => "<!--" +:+ s +:+ "-->"
  | Element t attrs cs =>
      "<" +:+ t
      +:+ foldr (fun '(k, v) acc => " " +:+ k +:+ "='" +:+ v +:+ "'" +:+ acc)
                "" attrs
      +:+ ">"
      +:+ (fix go (l : list node) : string :=
             match l with
             | [] => ""
             | c :: l' => render c +:+ go l'
             end) cs
      +:+ "</" +:+ t +:+ ">"
  end.

Definition render_all (doc : soup) : string :=
  foldr (fun n acc => render n +:+ acc) "" doc.

Fixpoint lookup_or {A} (key : string) (table : list (string * A)) (d : A)
  : A :=
  match table with
  | [] => d
  | (k, v) :: rest => if bool_decide (k = key) then v else lookup_or key rest d
  end.

Definition ok (doc : soup) : net_outcome :=
  NetResponse (mkResponse 200 None (render_all doc) "text/html" "").

Definition not_found : net_outcome :=
  NetResponse (mkResponse 404 None "Not Found" "text/plain" "").

(** The reason phrase that the sites send with a status. *)
Definition reason_phrase (status : Z) : string :=
  if bool_decide (status = 404) then "Not Found"
  else if bool_decide (status = 403) then "Forbidden"
  else if bool_decide (status = 500) then "Internal Server Error"
  else "Error".

(** A site: what each URL answers (a URL that is not listed refuses the
    connection), and the trees of its documents.  The parser gives a
    document of the site its tree, and a body without markup one text
    node. *)
Definition site (answers : list (string * net_outcome)) (docs : list soup)
  : Web :=
  let answer url :=
    lookup_or url answers (NetClientError "Cannot connect to host") in
  {| session_get := fun _ url => answer url;
     http_get := answer;
     urlopen := fun url =>
       match answer url with
       | NetResponse r =>
           if (200 <=? r.(status)) && (r.(status) <? 300) then Ret r.(body)
           else Raise ("HTTP Error " +:+ Py.str_of_int r.(status)
                       +:+ ": " +:+ reason_phrase r.(status))
       | NetTimeout => Raise "timed out"
       | NetClientError e | NetError e => Raise e
       end;
     BeautifulSoup := fun html =>
       lookup_or html (map (fun d => (render_all d, d)) docs)
                 (match html with "" => [] | _ => [Text html] end) |}.

Definition anchor (href text : string) : node :=
  Element "a" [("href", href)] [Text text].

Definition html_page (title : string) (body : list node) : soup :=
  [Element "html" []
     [Element "head" [] [Element "title" [] [Text title]];
      Element "body" [] body]].

Fixpoint repeat_str (n : nat) (s : string) : string :=
  match n with O => "" | S n' => s +:+ repeat_str n' s end.

(** A page whose [<main>] holds 100 times "lorem ipsum ". *)
Definition long_page : soup :=
  html_page "A long page"
    [Element "main" [] [Text (repeat_str 100 "lorem ipsum ")]].

(** example.com: the seed links to /a, /b and /c; /a links to /a/deep,
    which the seed does not mention; /missing is a 404 and /slow times
    out. *)
Definition seed_page : soup :=
  html_page "Seed"
    [anchor "https://example.com/a" "A";
     anchor "https://example.com/b" "B";
     anchor "https://example.com/c" "C"].

Definition page_a : soup :=
  html_page "Page A" [anchor "https://example.com/a/deep" "Deeper"].

Definition page_b : soup := html_page "Page B" [].
Definition page_c : soup := html_page "Page C" [].
Definition page_deep : soup := html_page "Deep page" [].

Definition example_com : Web :=
  site [("https://example.com/", ok seed_page);
        ("https://example.com/a", ok page_a);
        ("https://example.com/b", ok page_b);
        ("https://example.com/c", ok page_c);
        ("https://example.com/a/deep", ok page_deep);
        ("https://example.com/long", ok long_page);
        ("https://example.com/missing", not_found);
        ("https://example.com/slow", NetTimeout)]
       [seed_page; page_a; page_b; page_c; page_deep; long_page].

(** A site whose seed is a 404. *)
Definition gone_com : Web := site [("https://gone.example/", not_found)] [].

End Demo.

(** * Properties *)

(** ** The quality score *)

Section quality.
Import ContentExtractor EnhancedWebScraper QualitySpec.

Lemma nonempty_len (s : string) : Py.nonempty s = (0 <? Py.len s).
Proof. destruct s; reflexivity. Qed.

Lemma title_test (s : string) :
  Py.nonempty s && (10 <? Py.len s) = (10 <? Py.len s).
Proof.
  rewrite nonempty_len.
  destruct (10 <? Py.len s) eqn:E; [| apply andb_false_r].
  apply Z.ltb_lt in E. rewrite andb_true_r. apply Z.ltb_lt. lia.
Qed.

Lemma one_le_length {A} (l : list A) :
  (1 <=? Z.of_nat (length l)) = match l with [] => false | _ => true end.
Proof. destruct l; [reflexivity |]. apply Z.leb_le. simpl length. lia. Qed.

Lemma three_lt_length_nil {A} (l : list A) :
  (3 <? Z.of_nat (length l)) = true -> l <> [].
Proof. intros E ->. discriminate E. Qed.

(** C7 -- the quality score of every extracted page equals the additive
    formula of the specification (+0.2 for a title longer than 10; one of
    +0.3/+0.2/+0.1 for main content longer than 500/200/100; +0.2 for a
    heading; +0.2 for a paragraph; +0.1 for more than 3 paragraphs; +0.1 or
    +0.05 for a text-to-HTML ratio above 0.1 or 0.05; capped by min(1.0, .)),
    and it lies between 0.0 and 1.0 for all inputs. *)
Theorem quality_score_formula_and_bounds (c : content) (html_length : Z) :
  _calculate_quality_score c html_length = quality_formula c html_length
  /\ (0 <=? _calculate_quality_score c html_length)%float = true
  /\ (_calculate_quality_score c html_length <=? 1)%float = true.
Proof.
  unfold _calculate_quality_score, quality_formula, density_exceeds, bonus.
  rewrite title_test, !one_le_length.
  destruct (10 <? Py.len (title c));
    destruct (500 <? Py.len (main_content c));
    destruct (200 <? Py.len (main_content c));
    destruct (100 <? Py.len (main_content c));
    destruct (headings c);
    (destruct (3 <? Z.of_nat (length (paragraphs c))) eqn:E3;
     [ apply three_lt_length_nil in E3 | ]);
    destruct (paragraphs c); try congruence;
    destruct (0 <? html_length); cbn [andb];
    try destruct (PrimFloat.ltb 0.1 (truediv _ _));
    try destruct (PrimFloat.ltb 0.05 (truediv _ _));
    repeat split; vm_compute; reflexivity.
Qed.

End quality.

(** ** Strings *)

Section strings.

Lemma str_app_cons c (s t : string) : String c s +:+ t = String c (s +:+ t).
Proof. reflexivity. Qed.

Lemma str_app_nil_l (s : string) : "" +:+ s = s.
Proof. reflexivity. Qed.

Lemma str_app_nil_r (s : string) : s +:+ "" = s.
Proof.
  induction s as [| c s IH]; [reflexivity |]. by rewrite str_app_cons, IH.
Qed.

Lemma str_app_assoc (s t u : string) : (s +:+ t) +:+ u = s +:+ (t +:+ u).
Proof.
  induction s as [| c s IH]; [reflexivity |]. by rewrite !str_app_cons, IH.
Qed.

Lemma str_app_eq_nil (s t : string) : s +:+ t = "" -> s = "" /\ t = "".
Proof. destruct s; [auto | discriminate]. Qed.

Lemma str_length_app (s t : string) :
  String.length (s +:+ t) = (String.length s + String.length t)%nat.
Proof.
  induction s as [| c s IH]; [reflexivity |].
  rewrite str_app_cons. cbn. by rewrite IH.
Qed.

Lemma lower_char_idem (c : ascii) :
  Py.lower_char (Py.lower_char c) = Py.lower_char c.
Proof. destruct c as [[] [] [] [] [] [] [] []]; reflexivity. Qed.

Lemma lower_idem (s : string) : Py.lower (Py.lower s) = Py.lower s.
Proof.
  induction s as [| c s IH]; [reflexivity |].
  cbn. by rewrite lower_char_idem, IH.
Qed.

Lemma lower_length (s : string) : String.length (Py.lower s) = String.length s.
Proof. induction s as [| c s IH]; [reflexivity |]. cbn. by rewrite IH. Qed.

Lemma lstrip_by_length p (s : string) :
  (String.length (Py.lstrip_by p s) <= String.length s)%nat.
Proof.
  induction s as [| c s IH]; [reflexivity |].
  cbn. destruct (p c); cbn; lia.
Qed.

Lemma rstrip_by_length p (s : string) :
  (String.length (Py.rstrip_by p s) <= String.length s)%nat.
Proof.
  induction s as [| c s IH]; [reflexivity |].
  cbn. destruct (Py.rstrip_by p s); [destruct (p c) |]; cbn in *; lia.
Qed.

Lemma rstrip_by_idem p (s : string) :
  Py.rstrip_by p (Py.rstrip_by p s) = Py.rstrip_by p s.
Proof.
  induction s as [| c s IH]; [reflexivity |].
  cbn. destruct (Py.rstrip_by p s) as [| d r] eqn:E.
  - destruct (p c) eqn:Ec; [reflexivity |]. cbn. by rewrite Ec.
  - cbn. cbn in IH. by rewrite IH.
Qed.

Lemma strip_length (s : string) :
  (String.length (Py.strip s) <= String.length s)%nat.
Proof.
  unfold Py.strip.
  etrans; [apply rstrip_by_length | apply lstrip_by_length].
Qed.

Lemma sub_ws_from_length b (s : string) :
  (String.length (Py.sub_ws_from b s) <= String.length s)%nat.
Proof.
  revert b. induction s as [| c s IH]; intros b; [reflexivity |].
  pose proof (IH true). pose proof (IH false).
  cbn. destruct (Py.isspace c); [destruct b |]; cbn; lia.
Qed.

End strings.

(** ** The matcher finds every match *)

Section regex_facts.
Import Re ReSpec.

Lemma matches_nothing s rest : ~ matches Nothing s rest.
Proof. intros M. inversion M. Qed.

Lemma matches_seq' r1 r2 s rest :
  matches (Seq r1 r2) s rest -> matches (seq' r1 r2) s rest.
Proof.
  intros M. destruct r1; try exact M.
  inversion M; subst. by edestruct matches_nothing.
Qed.

Lemma matches_alt'_l r1 r2 s rest :
  matches r1 s rest -> matches (alt' r1 r2) s rest.
Proof.
  intros M. destruct r1; try (by edestruct matches_nothing);
    destruct r2; try exact M; by apply m_alt_l.
Qed.

Lemma matches_alt'_r r1 r2 s rest :
  matches r2 s rest -> matches (alt' r1 r2) s rest.
Proof.
  intros M. destruct r1; try exact M;
    destruct r2; try (by edestruct matches_nothing); by apply m_alt_r.
Qed.

Lemma nullable_complete r s rest :
  matches r s rest -> s = "" -> nullable (at_eos rest) r = true.
Proof.
  induction 1 as [ | | | r1 r2 s1 s2 rest M1 IH1 M2 IH2 | | | | ];
    intros E; cbn; try done.
  - apply str_app_eq_nil in E as [-> ->]. rewrite str_app_nil_l in IH1.
    by rewrite IH1, IH2.
  - by rewrite IHmatches.
  - rewrite IHmatches by done. apply orb_true_r.
Qed.

Lemma deriv_complete r s0 rest :
  matches r s0 rest ->
  forall c s, s0 = String c s ->
  matches (deriv (at_eos (String c (s +:+ rest))) c r) s rest.
Proof.
  induction 1 as [ | | p c' rest Hp
                   | r1 r2 s1 s2 rest M1 IH1 M2 IH2
                   | r1 r2 s0 rest M IH | r1 r2 s0 rest M IH
                   | | r s1 s2 rest M1 IH1 M2 IH2 ];
    intros c s E; try discriminate.
  - injection E as -> <-. cbn. rewrite Hp. constructor.
  - cbn [deriv]. destruct s1 as [| c1 s1'].
    + rewrite str_app_nil_l in E. subst s2.
      apply nullable_complete in M1; [| done].
      rewrite str_app_cons in M1. rewrite M1.
      apply matches_alt'_r. by apply IH2.
    + rewrite str_app_cons in E. injection E as -> <-.
      apply matches_alt'_l, matches_seq'.
      rewrite str_app_assoc. by apply m_seq; [apply IH1 |].
  - cbn [deriv]. apply matches_alt'_l. by apply IH.
  - cbn [deriv]. apply matches_alt'_r. by apply IH.
  - cbn [deriv]. destruct s1 as [| c1 s1'].
    + rewrite str_app_nil_l in E. by apply IH2.
    + rewrite str_app_cons in E. injection E as -> <-.
      apply matches_seq'. rewrite str_app_assoc.
      by apply m_seq; [apply IH1 |].
Qed.

(** Whenever a prefix of the subject matches, [match_] says so. *)
Lemma match_complete r s rest :
  matches r s rest -> match_ r (s +:+ rest) = true.
Proof.
  revert r. induction s as [| c s IH]; intros r M.
  - rewrite str_app_nil_l. apply nullable_complete in M; [| done].
    destruct rest; cbn [match_]; by rewrite M.
  - rewrite str_app_cons. cbn [match_].
    rewrite (IH _ (deriv_complete _ _ _ M c s eq_refl)).
    apply orb_true_r.
Qed.

Lemma match_prefix_complete r subject :
  matches_prefix r subject -> match_ r subject = true.
Proof. intros (s & rest & -> & M). by apply match_complete. Qed.

(** ** The matcher finds matches only *)

Lemma matches_seq'_inv r1 r2 s rest :
  matches (seq' r1 r2) s rest -> matches (Seq r1 r2) s rest.
Proof. destruct r1; try done. intros M. by apply matches_nothing in M. Qed.

Lemma matches_alt'_inv r1 r2 s rest :
  matches (alt' r1 r2) s rest -> matches (Alt r1 r2) s rest.
Proof.
  intros M. destruct r1; try (by apply m_alt_r);
    destruct r2; try exact M; by apply m_alt_l.
Qed.

Lemma nullable_sound r rest :
  nullable (at_eos rest) r = true -> matches r "" rest.
Proof.
  induction r as [ | | | p | r1 IH1 r2 IH2 | r1 IH1 r2 IH2 | r IH ]; cbn;
    intros E; try done; try (by constructor).
  - apply andb_prop in E as [E1 E2].
    change "" with ("" +:+ ""). apply m_seq; [apply IH1 | apply IH2]; done.
  - apply orb_prop in E as [E | E];
      [apply m_alt_l, IH1 | apply m_alt_r, IH2]; done.
Qed.

Lemma deriv_sound r c s rest :
  matches (deriv (at_eos (String c (s +:+ rest))) c r) s rest ->
  matches r (String c s) rest.
Proof.
  revert s rest.
  induction r as [ | | | p | r1 IH1 r2 IH2 | r1 IH1 r2 IH2 | r IH ];
    intros s rest; cbn [deriv]; intros M;
    try (by apply matches_nothing in M).
  - destruct (p c) eqn:Hp; [| by apply matches_nothing in M].
    inversion M; subst. by constructor.
  - apply matches_alt'_inv in M.
    inversion M as [ | | | | ? ? ? ? M' | ? ? ? ? M' | | ]; subst.
    + apply matches_seq'_inv in M'.
      inversion M' as [ | | | ? ? s1 s2 ? M1 M2 | | | | ]; subst.
      rewrite <- str_app_cons. apply m_seq; [| done].
      apply IH1. by rewrite <- str_app_assoc.
    + destruct (nullable _ r1) eqn:Hn; [| by apply matches_nothing in M'].
      change (String c s) with ("" +:+ String c s).
      apply m_seq; [by apply nullable_sound | by apply IH2].
  - apply matches_alt'_inv in M. inversion M; subst;
      [apply m_alt_l, IH1 | apply m_alt_r, IH2]; done.
  - apply matches_seq'_inv in M.
    inversion M as [ | | | ? ? s1 s2 ? M1 M2 | | | | ]; subst.
    rewrite <- str_app_cons. apply m_star_cons; [| done].
    apply IH. by rewrite <- str_app_assoc.
Qed.

(** Whenever [match_] says so, a prefix of the subject matches. *)
Lemma match_sound r subject :
  match_ r subject = true -> matches_prefix r subject.
Proof.
  revert r. induction subject as [| c s IH]; intros r; cbn [match_];
    intros E.
  - rewrite orb_false_r in E. exists "", "".
    split; [done | by apply nullable_sound].
  - apply orb_prop in E as [E | E].
    + exists "", (String c s). split; [done | by apply nullable_sound].
    + apply IH in E as (s1 & rest & -> & M).
      exists (String c s1), rest. split; [done | by apply deriv_sound].
Qed.

Lemma match_iff r subject :
  match_ r subject = true <-> matches_prefix r subject.
Proof. split; [apply match_sound | apply match_prefix_complete]. Qed.

(** A literal matches every string with the same letters. *)
Lemma matches_lit_i (p s rest : string) :
  same_letters s p -> matches (lit_i p) s rest.
Proof.
  unfold same_letters. revert s.
  induction p as [| a p IH]; intros [| c s] E; try discriminate.
  - constructor.
  - cbn in E. injection E as Ec Es.
    change (String c s) with (String c "" +:+ s). cbn [lit_i].
    apply m_seq; [| by apply IH].
    constructor. by apply bool_decide_eq_true.
Qed.

Lemma matches_alts (l : list regex) r s rest :
  r ∈ l -> matches r s rest -> matches (alts l) s rest.
Proof.
  induction 1 as [r l | r r' l Hin IH]; intros M; cbn.
  - by apply m_alt_l.
  - by apply m_alt_r, IH.
Qed.

End regex_facts.

(** ** Loops that append *)

Section loops.
Context {A B : Type}.

Lemma foldl_append_filter (f : A -> B) (keep : B -> bool) (l : list A)
    (acc : list B) :
  foldl (fun acc x => if keep (f x) then acc ++ [f x] else acc) acc l
  = acc ++ List.filter keep (map f l).
Proof.
  revert acc. induction l as [| x l IH]; intros acc; cbn.
  - by rewrite List.app_nil_r.
  - rewrite IH. destruct (keep (f x)); [| done].
    by rewrite <- List.app_assoc.
Qed.

Lemma foldl_ext (f g : B -> A -> B) (l : list A) (acc : B) :
  (forall acc x, f acc x = g acc x) -> foldl f acc l = foldl g acc l.
Proof.
  intros E. revert acc. induction l as [| x l IH]; intros acc; cbn; [done |].
  by rewrite E, IH.
Qed.

Lemma foldl_invariant (P : B -> Prop) (f : B -> A -> B) (l : list A)
    (acc : B) :
  P acc -> (forall acc x, P acc -> x ∈ l -> P (f acc x)) -> P (foldl f acc l).
Proof.
  revert acc. induction l as [| x l IH]; intros acc H0 Hstep; cbn; [done |].
  apply IH.
  - apply Hstep; [done | left].
  - intros acc' y Hacc Hy. apply Hstep; [done | by right].
Qed.

End loops.

(** ** [clean_text] *)

Section clean_text_facts.
Import Re ReSpec ContentExtractor ContentSpec.

Lemma clean_text_cases (text : string) :
  clean_text text
  = if boilerplate (normalized text) then "" else normalized text.
Proof.
  unfold clean_text. destruct text; [reflexivity |]. reflexivity.
Qed.

Lemma normalized_length (text : string) :
  (String.length (normalized text) <= String.length text)%nat.
Proof.
  unfold normalized, Py.sub_ws.
  etrans; [apply sub_ws_from_length | apply strip_length].
Qed.

Lemma clean_text_length (text : string) :
  (String.length (clean_text text) <= String.length text)%nat.
Proof.
  rewrite clean_text_cases. pose proof (normalized_length text).
  destruct (boilerplate _); cbn; lia.
Qed.

(** Nothing that [clean_text] returns is boilerplate. *)
Lemma clean_text_not_boilerplate (text : string) :
  boilerplate (clean_text text) = false.
Proof.
  rewrite clean_text_cases.
  destruct (boilerplate (normalized text)) eqn:E; [reflexivity | exact E].
Qed.

(** The test of [clean_text] holds exactly when a pattern matches. *)
Lemma boilerplate_iff (text : string) :
  boilerplate text = true
  <-> exists r, r ∈ skip_patterns /\ matches_prefix r text.
Proof.
  unfold boilerplate. rewrite existsb_exists.
  split; intros (r & Hin & M); exists r.
  - split; [by apply list_elem_of_In | by apply match_iff].
  - split; [by apply list_elem_of_In | by apply match_iff].
Qed.

Lemma boilerplate_of_match (r : regex) (text : string) :
  r ∈ skip_patterns -> matches_prefix r text -> boilerplate text = true.
Proof. intros Hin M. apply boilerplate_iff. eauto. Qed.

(** [clean_text] returns the empty string exactly for the texts that are
    blank or boilerplate. *)
Lemma clean_text_empty_iff (text : string) :
  clean_text text = ""
  <-> normalized text = ""
      \/ exists r, r ∈ skip_patterns /\ matches_prefix r (normalized text).
Proof.
  rewrite clean_text_cases, <- boilerplate_iff.
  destruct (boilerplate (normalized text)).
  - split; [by right | done].
  - split; [by left | by intros [? | ?]].
Qed.

Lemma paragraph_test (text : string) :
  Py.nonempty text && (30 <? Py.len text)
  && (5 <=? Z.of_nat (length (Py.split text)))
  = paragraph_ok text.
Proof.
  unfold paragraph_ok. rewrite nonempty_len.
  destruct (30 <? Py.len text) eqn:E; [| by rewrite andb_false_r].
  apply Z.ltb_lt in E.
  replace (0 <? Py.len text) with true; [done |].
  symmetry. apply Z.ltb_lt. lia.
Qed.

Lemma extract_paragraphs_filter (doc : Html.soup) :
  extract_paragraphs doc
  = List.filter paragraph_ok
      (map (fun p => clean_text (Html.get_text p)) (Html.find_all ["p"] doc)).
Proof.
  unfold extract_paragraphs.
  etrans; [| exact (foldl_append_filter
                      (fun p => clean_text (Html.get_text p)) paragraph_ok
                      (Html.find_all ["p"] doc) [])].
  apply foldl_ext. intros acc p. cbv zeta. by rewrite paragraph_test.
Qed.

End clean_text_facts.

(** ** Paragraphs *)

Section paragraphs.
Import Html ContentExtractor ContentSpec.

(** C8 -- the extracted paragraphs are exactly the [<p>] elements (of the
    tree without script, style, nav, footer, header and comments) whose
    cleaned text exceeds 30 characters and has at least 5 words, in document
    order; in a document with one [<p>] of 15 characters and one whose
    cleaned text has 45 characters (and at least 5 words), only the second
    is in the list. *)
Theorem paragraphs_quality_floor (doc : soup) :
  let ps := find_all ["p"] (strip_chrome doc) in
  let c := (extract_main_content doc).2 in
  paragraphs c
  = List.filter paragraph_ok (map (fun p => clean_text (get_text p)) ps)
  /\ (forall p15 p45,
        ps = [p15; p45] ->
        String.length (get_text p15) = 15%nat ->
        String.length (clean_text (get_text p45)) = 45%nat ->
        5 <= Z.of_nat (length (Py.split (clean_text (get_text p45)))) ->
        paragraphs c = [clean_text (get_text p45)]).
Proof.
  cbv zeta. cbn [extract_main_content snd paragraphs].
  rewrite extract_paragraphs_filter. split; [reflexivity |].
  intros p15 p45 -> H15 H45 Hwords. cbn [map List.filter].
  assert (paragraph_ok (clean_text (get_text p15)) = false) as ->.
  { unfold paragraph_ok. apply andb_false_intro1, Z.ltb_ge.
    pose proof (clean_text_length (get_text p15)). unfold Py.len. lia. }
  assert (paragraph_ok (clean_text (get_text p45)) = true) as ->; [| done].
  unfold paragraph_ok, Py.len. rewrite H45.
  apply andb_true_intro. split; [done | by apply Z.leb_le].
Qed.

Lemma paragraphs_quality_floor_witness :
  paragraphs (extract_main_content Demo.two_paragraphs).2
  = ["This paragraph is exactly forty-five chars ok"].
Proof.
  apply (proj2 (paragraphs_quality_floor Demo.two_paragraphs)
               (Element "p" [] [Text "Too short text."])
               (Element "p" []
                  [Text "This paragraph is exactly forty-five chars ok"]));
    vm_compute; congruence.
Defined.

End paragraphs.

(** ** What the four boilerplate patterns cover *)

Section boilerplate_patterns.
Import Re ReSpec ContentExtractor ContentSpec.

Lemma matches_chr_i (a : ascii) (s rest : string) :
  same_letters s (String a "") -> matches (chr_i a) s rest.
Proof.
  unfold same_letters. destruct s as [| c [| c' s]]; try discriminate.
  cbn. intros [= E]. constructor. by apply bool_decide_eq_true.
Qed.

Lemma matches_lits (l : list string) (p s rest : string) :
  p ∈ l -> same_letters s p -> matches (alts (map lit_i l)) s rest.
Proof.
  intros Hin E. apply (matches_alts _ (lit_i p)).
  - by apply list_elem_of_fmap_2.
  - by apply matches_lit_i.
Qed.

Lemma matches_plus_one (p : ascii -> bool) (c : ascii) (rest : string) :
  p c = true -> matches (plus (Chr p)) (String c "") rest.
Proof.
  intros Hp. change (String c "") with (String c "" +:+ "").
  apply m_seq; [by constructor | constructor].
Qed.

Lemma matches_star_space (sp rest : string) :
  sp ∈ [""; " "] -> matches (Star ws) sp rest.
Proof.
  intros Hin. apply list_elem_of_In in Hin as [<- | [<- | []]].
  - constructor.
  - change " " with (" " +:+ ""). apply m_star_cons; by constructor.
Qed.

Lemma matches_four_digits (d1 d2 d3 d4 : ascii) (rest : string) :
  Py.isdecimal d1 = true -> Py.isdecimal d2 = true ->
  Py.isdecimal d3 = true -> Py.isdecimal d4 = true ->
  matches (Seq digit (Seq digit (Seq digit digit)))
          (String d1 (String d2 (String d3 (String d4 "")))) rest.
Proof.
  intros H1 H2 H3 H4.
  apply (m_seq _ _ (String d1 "") (String d2 (String d3 (String d4 ""))));
    [by constructor |].
  apply (m_seq _ _ (String d2 "") (String d3 (String d4 "")));
    [by constructor |].
  apply (m_seq _ _ (String d3 "") (String d4 "")); by constructor.
Qed.

(** "skip to", "jump to", "go to", then whitespace and a word. *)
Lemma boilerplate_skip_to (p s : string) (c : ascii) (rest : string) :
  p ∈ ["skip to"; "jump to"; "go to"] -> same_letters s p ->
  Py.isword c = true ->
  boilerplate (s +:+ " " +:+ String c rest) = true.
Proof.
  intros Hin E Hc.
  eapply boilerplate_of_match; [apply list_elem_of_here |].
  exists (s +:+ (" " +:+ String c "")), rest.
  split; [by rewrite str_app_assoc |].
  apply m_seq; [by apply (matches_lits ["skip to"; "jump to"; "go to"] p) |].
  apply (m_seq _ _ " " (String c "")); by apply matches_plus_one.
Qed.

(** "home", "about", "contact", "privacy", "terms" and nothing else. *)
Lemma boilerplate_nav_word (p s : string) :
  p ∈ ["home"; "about"; "contact"; "privacy"; "terms"] ->
  same_letters s p -> boilerplate s = true.
Proof.
  intros Hin E.
  eapply boilerplate_of_match;
    [apply list_elem_of_further, list_elem_of_here |].
  exists s, "". split; [by rewrite str_app_nil_r |].
  rewrite <- (str_app_nil_r s).
  apply m_seq;
    [by apply (matches_lits
                 ["home"; "about"; "contact"; "privacy"; "terms"] p) |].
  apply (m_seq _ _ "" ""); by constructor.
Qed.

(** The copyright sign or "copyright", then a year. *)
Lemma boilerplate_copyright (p s sp : string) (d1 d2 d3 d4 : ascii)
    (rest : string) :
  p ∈ [String "169" ""; "copyright"] -> same_letters s p ->
  sp ∈ [""; " "] ->
  Py.isdecimal d1 = true -> Py.isdecimal d2 = true ->
  Py.isdecimal d3 = true -> Py.isdecimal d4 = true ->
  boilerplate
    (s +:+ sp +:+ String d1 (String d2 (String d3 (String d4 rest)))) = true.
Proof.
  intros Hin E Hsp H1 H2 H3 H4.
  eapply boilerplate_of_match;
    [do 2 apply list_elem_of_further; apply list_elem_of_here |].
  exists
    (s +:+ (sp +:+ String d1 (String d2 (String d3 (String d4 ""))))), rest.
  split.
  { rewrite !str_app_assoc. do 2 f_equal. }
  apply (m_seq _ _ ""); [constructor |].
  apply m_seq.
  - apply list_elem_of_In in Hin as [<- | [<- | []]].
    + apply m_alt_l. by apply matches_chr_i.
    + apply m_alt_r, m_alt_l. by apply matches_lit_i.
  - apply m_seq; [by apply matches_star_space |].
    by apply matches_four_digits.
Qed.

(** "follow us" and "connect with us", whatever follows. *)
Lemma boilerplate_follow_us (p s rest : string) :
  p ∈ ["follow us"; "connect with us"] -> same_letters s p ->
  boilerplate (s +:+ rest) = true.
Proof.
  intros Hin E.
  eapply boilerplate_of_match;
    [do 3 apply list_elem_of_further; apply list_elem_of_here |].
  exists s, rest. split; [done |].
  by apply (matches_lits ["follow us"; "connect with us"] p).
Qed.

End boilerplate_patterns.

(** ** Boilerplate never reaches the extracted fields *)

Section boilerplate_dropped.
Import Html ContentExtractor ContentSpec EnhancedWebScraper.
Context `{UrlLib}.

Lemma extract_title_not_boilerplate (doc : soup) :
  boilerplate (extract_title doc) = false.
Proof.
  unfold extract_title.
  destruct (Html.find "title" doc) as [title_tag |].
  - destruct (Py.nonempty (clean_text (get_text title_tag))); cbn [negb].
    + apply clean_text_not_boilerplate.
    + destruct (Html.find "h1" doc); apply clean_text_not_boilerplate.
  - cbn. destruct (Html.find "h1" doc); [| reflexivity].
    apply clean_text_not_boilerplate.
Qed.

Lemma extract_title_fallback (doc : soup) (title_tag : node) :
  Html.find "title" doc = Some title_tag ->
  boilerplate (normalized (get_text title_tag)) = true ->
  extract_title doc
  = match Html.find "h1" doc with
    | Some h1 => clean_text (get_text h1)
    | None => ""
    end.
Proof.
  intros Ht Hb. unfold extract_title. rewrite Ht.
  rewrite (clean_text_cases (get_text title_tag)), Hb. reflexivity.
Qed.

Lemma extract_headings_not_boilerplate (doc : soup) :
  Forall (fun h => boilerplate (text h) = false) (extract_headings doc).
Proof.
  unfold extract_headings.
  apply (foldl_invariant
           (Forall (fun h => boilerplate (text h) = false)));
    [constructor |].
  intros acc level Hacc _.
  apply (foldl_invariant
           (Forall (fun h => boilerplate (text h) = false)));
    [exact Hacc |].
  intros acc' h Hacc' _. cbv zeta.
  destruct (_ && _); [| exact Hacc'].
  apply Forall_app. split; [exact Hacc' |].
  constructor; [| constructor]. apply clean_text_not_boilerplate.
Qed.

Lemma filter_clean_text (l : list string) :
  List.filter paragraph_ok (map clean_text l)
  = List.filter paragraph_ok
      (map normalized
         (List.filter (fun t => negb (boilerplate (normalized t))) l)).
Proof.
  induction l as [| t l IH]; [reflexivity |].
  cbn [map List.filter]. rewrite clean_text_cases.
  destruct (boilerplate (normalized t)); cbn [negb map List.filter].
  - exact IH.
  - by rewrite IH.
Qed.

Lemma extract_paragraphs_drop_boilerplate (doc : soup) :
  extract_paragraphs doc
  = List.filter paragraph_ok
      (map normalized
         (List.filter (fun t => negb (boilerplate (normalized t)))
                      (map get_text (find_all ["p"] doc)))).
Proof.
  rewrite extract_paragraphs_filter, <- filter_clean_text.
  by rewrite List.map_map.
Qed.

Lemma extract_links_not_boilerplate (doc : soup) (base_url : string)
    (links : list link) :
  extract_links doc base_url = Ret links ->
  Forall (fun l => boilerplate (link_text l) = false) links.
Proof.
  unfold extract_links.
  set (P := fun acc : exn (list link * gset string) =>
              match acc with
              | Ret (links, _) =>
                  Forall (fun l => boilerplate (link_text l) = false) links
              | Raise _ => True
              end).
  assert (P (extract_links_loop doc base_url)) as HP.
  { unfold extract_links_loop. apply (foldl_invariant P); [constructor |].
    intros [[ls seen] | e] a Hacc _; [| exact I]. cbn [mbind exn_bind].
    destruct (_ || _); [exact Hacc |].
    destruct (urljoin _ _) as [full_url | e]; [| exact Hacc].
    destruct (bool_decide _); [exact Hacc |].
    destruct (urlparse (URLProcessor.normalize_url full_url)); [| exact I].
    cbn [mbind exn_bind].
    destruct (urlparse base_url); [| exact I]. cbn [mbind exn_bind P].
    apply Forall_app. split; [exact Hacc |].
    constructor; [| constructor]. apply clean_text_not_boilerplate. }
  destruct (extract_links_loop doc base_url) as [[ls seen] | e];
    intros [= <-]. exact HP.
Qed.

End boilerplate_dropped.

Section boilerplate_claim.
Import Html Re ReSpec ContentExtractor ContentSpec EnhancedWebScraper.
Context `{UrlLib}.

(** C10 -- [clean_text] returns the empty string for every text that, once
    trimmed and whitespace-collapsed, matches one of the built-in patterns
    without regard to case (and, besides these, for blank text only):
    "skip to"/"jump to"/"go to" followed by whitespace and a word, exactly
    "home"/"about"/"contact"/"privacy"/"terms", the copyright sign or
    "copyright" followed by a year, and
    anything that starts with "follow us"/"connect with us".  Hence no
    title, heading, paragraph or link text of the extractor is such a text:
    a boilerplate [<title>] gives way to the first [<h1>] (or to the empty
    title), a boilerplate [<p>] is left out whatever its length and word
    count, and a boilerplate heading or link text is dropped or emptied. *)
Theorem boilerplate_text_is_emptied (doc : soup) (base_url : string) :
  (forall text,
     clean_text text = ""
     <-> normalized text = ""
         \/ exists r, r ∈ skip_patterns
                      /\ matches_prefix r (normalized text))
  /\ (forall text,
        boilerplate text = true
        <-> exists r, r ∈ skip_patterns /\ matches_prefix r text)
  /\ (forall text p s c rest,
        p ∈ ["skip to"; "jump to"; "go to"] -> same_letters s p ->
        Py.isword c = true ->
        normalized text = s +:+ " " +:+ String c rest ->
        clean_text text = "")
  /\ (forall text p,
        p ∈ ["home"; "about"; "contact"; "privacy"; "terms"] ->
        same_letters (normalized text) p -> clean_text text = "")
  /\ (forall text p s sp d1 d2 d3 d4 rest,
        p ∈ [String "169" ""; "copyright"] -> same_letters s p ->
        sp ∈ [""; " "] ->
        Py.isdecimal d1 = true -> Py.isdecimal d2 = true ->
        Py.isdecimal d3 = true -> Py.isdecimal d4 = true ->
        normalized text
        = s +:+ sp +:+ String d1 (String d2 (String d3 (String d4 rest))) ->
        clean_text text = "")
  /\ (forall text p s rest,
        p ∈ ["follow us"; "connect with us"] -> same_letters s p ->
        normalized text = s +:+ rest -> clean_text text = "")
  /\ (let c := (extract_main_content doc).2 in
      boilerplate (title c) = false
      /\ (forall title_tag,
            Html.find "title" doc = Some title_tag ->
            boilerplate (normalized (get_text title_tag)) = true ->
            title c = match Html.find "h1" doc with
                      | Some h1 => clean_text (get_text h1)
                      | None => ""
                      end)
      /\ Forall (fun h => boilerplate (text h) = false) (headings c)
      /\ paragraphs c
         = List.filter paragraph_ok
             (map normalized
                (List.filter (fun t => negb (boilerplate (normalized t)))
                   (map get_text (find_all ["p"] (strip_chrome doc)))))
      /\ (forall links,
            extract_links (extract_main_content doc).1 base_url = Ret links ->
            Forall (fun l => boilerplate (link_text l) = false) links)).
Proof.
  assert (forall text, boilerplate (normalized text) = true ->
                       clean_text text = "") as Hclean.
  { intros text Hb. by rewrite clean_text_cases, Hb. }
  repeat apply conj.
  - apply clean_text_empty_iff.
  - apply boilerplate_iff.
  - intros text p s c rest Hin E Hc Heq. apply Hclean. rewrite Heq.
    by eapply boilerplate_skip_to.
  - intros text p Hin E. by eapply Hclean, boilerplate_nav_word.
  - intros text p s sp d1 d2 d3 d4 rest Hin E Hsp H1 H2 H3 H4 Heq.
    apply Hclean. rewrite Heq. by eapply boilerplate_copyright.
  - intros text p s rest Hin E Heq. apply Hclean. rewrite Heq.
    by eapply boilerplate_follow_us.
  - apply extract_title_not_boilerplate.
  - apply extract_title_fallback.
  - apply extract_headings_not_boilerplate.
  - apply extract_paragraphs_drop_boilerplate.
  - apply extract_links_not_boilerplate.
Qed.

(** A paragraph of 9 words and 50 characters that starts with "Follow us"
    is left out; the one after it stays. *)
Example follow_us_paragraph_dropped :
  paragraphs
    (extract_main_content
       [Element "p" []
          [Text "Follow  us on Twitter for the daily product updates"];
        Element "p" []
          [Text "Please follow the daily product updates on our site"]]).2
  = ["Please follow the daily product updates on our site"].
Proof. vm_compute. reflexivity. Qed.

End boilerplate_claim.

Section boilerplate_examples.
Import ContentExtractor.

Lemma boilerplate_text_is_emptied_witness :
  clean_text "  Follow   us on Twitter " = ""
  /\ clean_text "HOME" = ""
  /\ clean_text "Skip to main content" = ""
  /\ clean_text "Copyright 2024 Example Corp. All rights reserved." = "".
Proof.
  pose proof (boilerplate_text_is_emptied (H := PyUrl.lib) [] "")
    as (_ & _ & Hskip & Hnav & Hcopy & Hfollow & _).
  repeat apply conj.
  - apply (Hfollow _ "follow us" "Follow us" " on Twitter");
      [set_solver | reflexivity | reflexivity].
  - apply (Hnav _ "home"); [set_solver | reflexivity].
  - apply (Hskip _ "skip to" "Skip to" "m"%char "ain content");
      [set_solver | reflexivity | reflexivity | reflexivity].
  - apply (Hcopy _ "copyright" "Copyright" " " "2"%char "0"%char "2"%char
                 "4"%char " Example Corp. All rights reserved.");
      [set_solver | reflexivity | set_solver | reflexivity..].
Defined.

End boilerplate_examples.

(** ** [scrape_url]: statuses, retries and the truncated main content *)

Section scrape_url_facts.
Import Html ContentExtractor EnhancedWebScraper.
Context `{UrlLib} `{Web}.

Lemma take_length (n : nat) (s : string) :
  String.length (Py.take n s) = (n `min` String.length s)%nat.
Proof.
  revert s. induction n as [| n IH]; intros [| c s]; cbn; try done.
  by rewrite IH.
Qed.




(** What [scrape_url] does when the request times out and a retry is
    left: the second call finds the URL in [visited_urls]. *)
Lemma retry_finds_url_visited (config : ScrapingConfig.t) (url : string)
    (retry_count : Z) (st : state) :
  let normalized_url := URLProcessor.normalize_url url in
  normalized_url ∉ st.(visited_urls) ->
  URLProcessor.should_exclude_url normalized_url
    config.(ScrapingConfig.exclude_patterns) = false ->
  session_get (length st.(requests)) normalized_url = NetTimeout ->
  retry_count < config.(ScrapingConfig.max_retries) ->
  scrape_url config url retry_count st
  = Some (Failure "Already visited" url None,
          mkState (st.(visited_urls) ∪ {[normalized_url]})
                  (st.(requests) ++ [normalized_url])
                  (st.(sleeps) ++ [2 ^ retry_count])).
Proof.
  intros normalized_url Hnew Hincl Hget Hretry. unfold scrape_url.
  destruct (Z.to_nat (ScrapingConfig.max_retries config - retry_count))
    as [| k] eqn:Ek; [lia |].
  cbn [scrape_url_fuel]. fold normalized_url.
  rewrite bool_decide_eq_false_2 by done. rewrite Hincl.
  cbn [requests visited_urls sleeps]. rewrite Hget.
  apply Z.ltb_lt in Hretry. rewrite Hretry.
  cbn [requests visited_urls sleeps].
  rewrite bool_decide_eq_true_2 by set_solver. reflexivity.
Qed.

(** C4 -- a response whose status is not 200 makes [scrape_url] return a
    failure with the status code and the message of the status ("Page not
    found" for 404, "Access forbidden" for 403, "Server error" for 500,
    "HTTP <status>" otherwise), after one GET and without any sleep or
    retry. *)
Theorem non_200_fails_without_retry (config : ScrapingConfig.t)
    (url : string) (retry_count : Z) (st : state) (r : response) :
  let normalized_url := URLProcessor.normalize_url url in
  normalized_url ∉ st.(visited_urls) ->
  URLProcessor.should_exclude_url normalized_url
    config.(ScrapingConfig.exclude_patterns) = false ->
  session_get (length st.(requests)) normalized_url = NetResponse r ->
  r.(status) <> 200 ->
  scrape_url config url retry_count st
  = Some (Failure (status_message r.(status))
            (match r.(redirected_to) with
             | Some final_url => URLProcessor.normalize_url final_url
             | None => normalized_url
             end)
            (Some r.(status)),
          mkState (st.(visited_urls) ∪ {[normalized_url]})
                  (st.(requests) ++ [normalized_url])
                  st.(sleeps))
  /\ status_message 404 = "Page not found"
  /\ status_message 403 = "Access forbidden"
  /\ status_message 500 = "Server error"
  /\ (r.(status) ∉ [404; 403; 500] ->
      status_message r.(status) = "HTTP " +:+ Py.str_of_int r.(status)).
Proof.
  intros normalized_url Hnew Hincl Hget Hstatus.
  repeat apply conj; try reflexivity.
  - unfold scrape_url. cbn [scrape_url_fuel]. fold normalized_url.
    rewrite bool_decide_eq_false_2 by done. rewrite Hincl.
    cbn [requests visited_urls sleeps]. rewrite Hget.
    by rewrite bool_decide_eq_false_2 by done.
  - intros Hother. unfold status_message.
    rewrite !bool_decide_eq_false_2; [done | set_solver..].
Qed.

End scrape_url_facts.

Section scrape_url_examples.
Import Html ContentExtractor EnhancedWebScraper.

Lemma non_200_fails_without_retry_witness :
  @scrape_url PyUrl.lib Demo.example_com ScrapingConfig.default
    "https://example.com/missing" 0 initial
  = Some (Failure "Page not found" "https://example.com/missing" (Some 404),
          mkState (∅ ∪ {["https://example.com/missing"]})
                  ["https://example.com/missing"] []).
Proof.
  apply (non_200_fails_without_retry (H := PyUrl.lib)
           (H0 := Demo.example_com) ScrapingConfig.default
           "https://example.com/missing" 0 initial
           (mkResponse 404 None "Not Found" "text/plain" "")).
  - apply not_elem_of_empty.
  - vm_compute. reflexivity.
  - vm_compute. reflexivity.
  - vm_compute. congruence.
Defined.

(** C5 -- (a defect of the code) with the default configuration
    ([max_retries = 3]) and a URL whose every GET times out, [scrape_url]
    sends one GET, sleeps [2 ** 0] seconds, calls itself, finds the URL in
    [visited_urls] and answers "Already visited": neither the four attempts
    nor the "Timeout" failure of the specification. *)
Theorem timeout_retry_finds_url_visited :
  (forall n, session_get (Web := Demo.example_com) n
               "https://example.com/slow" = NetTimeout)
  /\ exists st',
       @scrape_url PyUrl.lib Demo.example_com ScrapingConfig.default
         "https://example.com/slow" 0 initial
       = Some (Failure "Already visited" "https://example.com/slow" None,
               st')
       /\ st'.(requests) = ["https://example.com/slow"]
       /\ st'.(sleeps) = [1].
Proof.
  split; [reflexivity |].
  eexists. split.
  - apply (retry_finds_url_visited (H := PyUrl.lib)
             (H0 := Demo.example_com)).
    + apply not_elem_of_empty.
    + vm_compute. reflexivity.
    + vm_compute. reflexivity.
    + vm_compute. reflexivity.
  - split; vm_compute; reflexivity.
Qed.



End scrape_url_examples.

(** ** The round-based crawl *)

Section round_crawl.
Import SimpleScraper CrawlSpec.
Context `{UrlLib} `{Web}.

Lemma collect_links_wanted (base_url : string) (visited_urls : gset string)
    (urls_to_visit : list string) (p : page) :
  collect_links base_url visited_urls urls_to_visit p
  = urls_to_visit ++ wanted_links base_url visited_urls p.
Proof.
  unfold collect_links, wanted_links.
  exact (foldl_append_filter link_url
           (fun u => Py.nonempty u && Py.startswith u base_url
                     && negb (bool_decide (u ∈ visited_urls)))
           (links p) urls_to_visit).
Qed.

Lemma collect_spec (base_url : string) (follow : bool)
    (visited_urls : gset string) (results : list result)
    (scraped_pages : list page) (urls_to_visit : list string) :
  collect base_url follow visited_urls results scraped_pages urls_to_visit
  = (scraped_pages ++ omap page_of results,
     urls_to_visit ++
     if follow
     then flat_map (wanted_links base_url visited_urls)
                   (omap page_of results)
     else []).
Proof.
  unfold collect. revert scraped_pages urls_to_visit.
  induction results as [| r results IH]; intros scraped_pages urls_to_visit.
  - cbn. destruct follow; by rewrite !List.app_nil_r.
  - cbn [foldl]. destruct r as [p | e u | e]; rewrite IH; cbn [omap page_of].
    + rewrite <- List.app_assoc. f_equal. destruct follow.
      * rewrite collect_links_wanted, <- List.app_assoc. done.
      * done.
    + done.
    + done.
Qed.

(** What a round leaves in the variables of the loop. *)
Lemma round_spec (base_url : string) (depth max_pages : Z)
    (include_images : bool) (current_depth : nat) (st : state) :
  let tasks :=
    (dispatch max_pages st.(scraped_pages) st.(urls_to_visit)
              st.(visited_urls)).2 in
  let fetched := omap page_of (map scrape_single_page tasks) in
  let st' :=
    round base_url depth max_pages include_images current_depth st in
  st'.(scraped_pages) = st.(scraped_pages) ++ fetched
  /\ st'.(dispatched) = st.(dispatched) ++ tasks
  /\ st'.(urls_to_visit)
     = if (Z.of_nat current_depth <? depth - 1) && include_images
       then flat_map (wanted_links base_url st'.(visited_urls)) fetched
       else [].
Proof.
  cbv zeta. unfold round.
  destruct (dispatch _ _ _ _) as [visited_urls tasks]. cbn [snd].
  rewrite collect_spec. cbn. done.
Qed.

(** The pages collected are the successes among the dispatched URLs, in
    the order of dispatch. *)
Lemma rounds_pages (base_url : string) (depth max_pages : Z)
    (include_images : bool) (range : list nat) (st : state) :
  st.(scraped_pages)
  = omap page_of (map scrape_single_page st.(dispatched)) ->
  let st' := rounds base_url depth max_pages include_images range st in
  st'.(scraped_pages)
  = omap page_of (map scrape_single_page st'.(dispatched)).
Proof.
  cbv zeta. revert st.
  induction range as [| current_depth range IH]; intros st Hinv; [done |].
  cbn [rounds]. destruct (_ || _); [done |].
  apply IH.
  destruct (round_spec base_url depth max_pages include_images
              current_depth st) as (-> & -> & _).
  by rewrite map_app, omap_app, Hinv.
Qed.

(** A job whose seed answers with a status other than 200. *)
Lemma crawl_seed_error (url : string) (depth max_pages : Z)
    (include_images : bool) (r : response) :
  0 < depth -> 0 < max_pages ->
  http_get url = NetResponse r -> r.(status) <> 200 ->
  scrape_single_page url
  = Error ("HTTP " +:+ Py.str_of_int r.(status)) url
  /\ let st := crawl url depth max_pages include_images in
     st.(scraped_pages) = [] /\ st.(dispatched) = [url].
Proof.
  intros Hdepth Hmax Hget Hstatus.
  assert (scrape_single_page url
          = Error ("HTTP " +:+ Py.str_of_int r.(status)) url) as Hpage.
  { unfold scrape_single_page. rewrite Hget.
    by rewrite bool_decide_eq_false_2 by done. }
  split; [exact Hpage |]. cbv zeta. unfold crawl.
  destruct (Z.to_nat depth) as [| n] eqn:En; [lia |].
  cbn [seq rounds urls_to_visit scraped_pages length].
  replace (max_pages <=? Z.of_nat 0) with false
    by (symmetry; apply Z.leb_gt; lia).
  cbn [bool_decide decide_rel orb].
  rewrite bool_decide_eq_false_2 by done. cbn [orb].
  unfold round, dispatch.
  cbn [foldl urls_to_visit scraped_pages visited_urls dispatched length].
  rewrite bool_decide_eq_false_2 by set_solver.
  replace (Z.of_nat 0 <? max_pages) with true
    by (symmetry; apply Z.ltb_lt; lia).
  cbn [negb andb map app]. rewrite Hpage, collect_spec.
  rewrite (eq_refl : omap page_of
                       [Error ("HTTP " +:+ Py.str_of_int (status r)) url]
                     = []).
  cbn [flat_map app].
  replace (if (Z.of_nat 0 <? depth - 1) && include_images then [] else [])
    with (@nil string) by (by destruct (_ && _)).
  destruct (seq 1 n); cbn [rounds urls_to_visit scraped_pages dispatched];
    [done |].
  rewrite bool_decide_eq_true_2 by done. done.
Qed.

End round_crawl.

Section round_crawl_claims.
Import SimpleScraper CrawlSpec.

(** C3 (as amended) -- in the round-based crawl every dispatched URL whose
    fetch succeeds yields exactly one page of the job result, in the order
    of dispatch, and a dispatched URL whose fetch fails yields none: error
    results are left out of the page list.  A 404 answer for the seed gives
    the error "HTTP 404" after one GET, and a job result without pages. *)
Theorem pages_are_the_successful_dispatches `{UrlLib} `{Web}
    (url : string) (depth max_pages : Z) (include_images : bool) :
  let st := crawl url depth max_pages include_images in
  let job := scrape_website_async url depth max_pages include_images in
  job.(pages) = omap page_of (map scrape_single_page st.(dispatched))
  /\ job.(pages_scraped) = Z.of_nat (length job.(pages))
  /\ (forall r,
        0 < depth -> 0 < max_pages ->
        http_get url = NetResponse r -> r.(status) = 404 ->
        scrape_single_page url = Error "HTTP 404" url
        /\ st.(dispatched) = [url]
        /\ job.(pages) = []).
Proof.
  cbv zeta. cbn [pages pages_scraped scrape_website_async].
  repeat apply conj; [| done |].
  - unfold crawl. by apply rounds_pages.
  - intros r Hdepth Hmax Hget Hstatus.
    destruct (crawl_seed_error url depth max_pages include_images r)
      as (Hpage & Hpages & Hdisp); [done | done | done | lia |].
    rewrite Hstatus in Hpage. done.
Qed.

Lemma pages_are_the_successful_dispatches_witness :
  @scrape_single_page PyUrl.lib Demo.gone_com "https://gone.example/"
  = Error "HTTP 404" "https://gone.example/"
  /\ (@crawl PyUrl.lib Demo.gone_com "https://gone.example/" 1 5 true)
       .(dispatched) = ["https://gone.example/"]
  /\ (@scrape_website_async PyUrl.lib Demo.gone_com
        "https://gone.example/" 1 5 true).(pages) = [].
Proof.
  apply (proj2 (proj2 (pages_are_the_successful_dispatches
                         (H := PyUrl.lib) (H0 := Demo.gone_com)
                         "https://gone.example/" 1 5 true))
           (mkResponse 404 None "Not Found" "text/plain" ""));
    [lia | lia | reflexivity | reflexivity].
Defined.

(** The claim C3 as it was stated fails: the seed is dispatched and answers
    404, and the job result holds no page result for it at all (and the
    message of the dropped error is "HTTP 404"). *)
Lemma seed_404_leaves_no_page_result :
  let st := @crawl PyUrl.lib Demo.gone_com "https://gone.example/" 1 5 true in
  let job :=
    @scrape_website PyUrl.lib Demo.gone_com "https://gone.example/" 1 5 in
  st.(dispatched) = ["https://gone.example/"]
  /\ @scrape_single_page PyUrl.lib Demo.gone_com "https://gone.example/"
     = Error "HTTP 404" "https://gone.example/"
  /\ job.(pages) = []
  /\ length job.(pages) <> length st.(dispatched).
Proof. vm_compute. repeat split; congruence. Qed.

(** C1 -- (a defect of the code) seed https://example.com/ whose page links
    to /a, /b and /c, [depth = 2], [max_pages = 2]: the second round tests
    [len(scraped_pages) < max_pages] with the one page of the first round
    for each of the three URLs, dispatches all three, and the job ends with
    4 pages collected. *)
Theorem page_cap_exceeded :
  let job :=
    @scrape_website PyUrl.lib Demo.example_com "https://example.com/" 2 2 in
  job.(job_max_pages) = 2
  /\ job.(pages_scraped) = 4
  /\ map url job.(pages)
     = ["https://example.com/"; "https://example.com/a";
        "https://example.com/b"; "https://example.com/c"]
  /\ forall one_page : page,
       (@dispatch 2 [one_page]
          ["https://example.com/a"; "https://example.com/b";
           "https://example.com/c"] {["https://example.com/"]}).2
       = ["https://example.com/a"; "https://example.com/b";
          "https://example.com/c"].
Proof. vm_compute. repeat split; reflexivity. Qed.

End round_crawl_claims.

(** ** The queue-based crawl *)

Section queue_crawl.
Import MainApi CrawlSpec.
Context `{UrlLib} `{Web}.

(** What it takes for a link to enter the queue. *)
Lemma wants_link_true (depth : Z) (scraped_pages : list page_data)
    (visited_urls : gset string) (urls_to_scrape : list string)
    (current_url href : string) :
  wants_link depth scraped_pages visited_urls urls_to_scrape
             current_url href = Ret true ->
  scraped_pages = [] /\ 1 < depth /\ same_host href current_url.
Proof.
  unfold wants_link.
  destruct (1 <? depth) eqn:Hd; [| done].
  destruct (bool_decide (length scraped_pages = 0%nat)) eqn:Hs; [| done].
  destruct (bool_decide (href ∈ visited_urls));
    destruct (bool_decide (href ∈ urls_to_scrape));
    cbn [negb andb]; try done.
  destruct (urlparse href) as [parsed |] eqn:Hp; [| done].
  destruct (urlparse current_url) as [current |] eqn:Hc; [| done].
  cbn [mbind exn_bind]. intros [= Hn%bool_decide_eq_true].
  apply bool_decide_eq_true in Hs. apply Z.ltb_lt in Hd.
  repeat split; [by destruct scraped_pages | done |].
  by exists parsed, current.
Qed.

Lemma extract_links_queue (depth : Z) (scraped_pages : list page_data)
    (visited_urls : gset string) (urls_to_scrape : list string)
    (current_url : string) (doc : Html.soup) (links : list link)
    (queue : list string) :
  extract_links depth scraped_pages visited_urls urls_to_scrape
                current_url doc = Ret (links, queue) ->
  exists added,
    queue = urls_to_scrape ++ added
    /\ Forall (fun u => scraped_pages = [] /\ 1 < depth
                        /\ same_host u current_url) added.
Proof.
  unfold extract_links.
  set (P := fun acc : exn (list link * list string) =>
              match acc with
              | Ret (_, queue) =>
                  exists added,
                    queue = urls_to_scrape ++ added
                    /\ Forall (fun u => scraped_pages = [] /\ 1 < depth
                                        /\ same_host u current_url) added
              | Raise _ => True
              end).
  intros Hrun.
  match type of Hrun with ?loop = _ => assert (P loop) as HP end.
  { apply (foldl_invariant P).
    { exists []. by rewrite List.app_nil_r. }
    intros [[ls q] | e] a Hacc _; [| exact I]. cbn [mbind exn_bind].
    destruct (_ && _); [| exact Hacc].
    match goal with |- P (mbind _ ?m) => destruct m as [[href |] |] end;
      cbn [mbind exn_bind]; [| exact Hacc | exact I].
    destruct (wants_link _ _ _ _ _ _) as [[|] |] eqn:Hw;
      cbn [mbind exn_bind]; [| exact Hacc | exact I].
    apply wants_link_true in Hw. destruct Hacc as (added & -> & Hall).
    exists (added ++ [href]). split; [by rewrite List.app_assoc |].
    apply Forall_app. split; [done | by constructor]. }
  rewrite Hrun in HP. exact HP.
Qed.

(** One turn of the loop takes the head off the queue and adds links only
    while no page is collected yet, only for [depth > 1], and only links to
    the host of the page that is being read. *)
Lemma iteration_queue (depth : Z) (st st' : state) :
  iteration depth st = Ret st' ->
  exists added,
    st'.(urls_to_scrape) = tail st.(urls_to_scrape) ++ added
    /\ Forall (fun u => st.(scraped_pages) = [] /\ 1 < depth
                        /\ exists current_url,
                             head st.(urls_to_scrape) = Some current_url
                             /\ same_host u current_url) added.
Proof.
  unfold iteration.
  destruct (urls_to_scrape st) as [| current_url queue] eqn:Hq.
  { intros [= <-]. exists []. by rewrite Hq. }
  destruct (bool_decide _).
  { intros [= <-]. exists []. cbn. by rewrite List.app_nil_r. }
  destruct (urlopen current_url) as [html |]; [| done].
  cbn [mbind exn_bind].
  destruct (extract_links _ _ _ _ _ _) as [[links queue'] |] eqn:Hl;
    [| done].
  cbn [mbind exn_bind].
  destruct (extract_images _ _); [| done]. cbn [mbind exn_bind].
  intros [= <-]. cbn [urls_to_scrape tail head].
  apply extract_links_queue in Hl as (added & -> & Hall).
  exists added. split; [done |].
  eapply Forall_impl; [exact Hall |]. cbn. intros u (? & ? & ?). eauto.
Qed.

(** One turn of the loop collects at most one page. *)
Lemma iteration_pages (depth : Z) (st st' : state) :
  iteration depth st = Ret st' ->
  st'.(scraped_pages) = st.(scraped_pages)
  \/ exists page, st'.(scraped_pages) = st.(scraped_pages) ++ [page].
Proof.
  unfold iteration.
  destruct (urls_to_scrape st) as [| current_url queue].
  { intros [= <-]. by left. }
  destruct (bool_decide _).
  { intros [= <-]. by left. }
  destruct (urlopen current_url) as [html |]; [| done].
  cbn [mbind exn_bind].
  destruct (extract_links _ _ _ _ _ _) as [[links queue'] |]; [| done].
  cbn [mbind exn_bind].
  destruct (extract_images _ _); [| done]. cbn [mbind exn_bind].
  intros [= <-]. right. by eexists.
Qed.

(** Once a page is collected the queue only shrinks, so the loop ends
    within as many turns as the queue is long. *)
Lemma loop_drains (depth max_pages : Z) (n : nat) (st : state) :
  st.(scraped_pages) <> [] ->
  (length st.(urls_to_scrape) <= n)%nat ->
  is_Some (loop (S n) depth max_pages st).
Proof.
  revert st. induction n as [| n IH]; intros st Hpages Hlen; cbn [loop].
  - destruct (urls_to_scrape st); [| cbn in Hlen; lia].
    rewrite bool_decide_eq_true_2 by done. by eexists.
  - destruct (_ || _); [by eexists |].
    destruct (iteration depth st) as [st' | e] eqn:Hit; [| by eexists].
    apply IH.
    + apply iteration_pages in Hit as [-> | [page ->]]; [done |].
      by destruct (scraped_pages st).
    + apply iteration_queue in Hit as (added & -> & Hall).
      destruct added as [| u added].
      * rewrite List.app_nil_r. destruct (urls_to_scrape st); cbn in *; lia.
      * by apply Forall_cons in Hall as ((? & _) & _).
Qed.

(** The loop of [scrape_enhanced] ends: some fuel is enough. *)
Lemma loop_terminates (url : string) (depth max_pages : Z) :
  exists fuel, is_Some (loop fuel depth max_pages (mkState [] [url] ∅)).
Proof.
  destruct (iteration depth (mkState [] [url] ∅)) as [st' | e] eqn:Hit.
  - exists (S (S (length st'.(urls_to_scrape)))).
    cbn [loop]. destruct (_ || _); [by eexists |]. rewrite Hit.
    apply loop_drains; [| done].
    apply iteration_pages in Hit as Hpages. revert Hit.
    unfold iteration. cbn [urls_to_scrape visited_urls scraped_pages].
    rewrite bool_decide_eq_false_2 by set_solver.
    destruct Hpages as [Hsame | [page ->]]; [| by destruct page].
    destruct (urlopen url); [| done]. cbn [mbind exn_bind].
    destruct (extract_links _ _ _ _ _ _) as [[links queue'] |]; [| done].
    cbn [mbind exn_bind].
    destruct (extract_images _ _); [| done]. cbn [mbind exn_bind].
    intros [= <-]. cbn in Hsame. done.
  - exists 1%nat. cbn [loop]. destruct (_ || _); [by eexists |].
    rewrite Hit. by eexists.
Qed.

(** The loop of [scrape_enhanced] keeps to its page limit. *)
Lemma loop_page_cap (fuel : nat) (depth max_pages : Z) (st st' : state) :
  loop fuel depth max_pages st = Some (Ret st') ->
  Z.of_nat (length st.(scraped_pages)) <= max_pages ->
  Z.of_nat (length st'.(scraped_pages)) <= max_pages.
Proof.
  revert st. induction fuel as [| fuel IH]; intros st; [done |].
  cbn [loop].
  destruct (bool_decide _ || (max_pages <=? _)) eqn:Hguard.
  { by intros [= <-]. }
  apply orb_false_elim in Hguard as [_ Hlt%Z.leb_gt].
  destruct (iteration depth st) as [st1 | e] eqn:Hit; [| done].
  intros Hrun _. apply (IH st1 Hrun).
  apply iteration_pages in Hit as [-> | [page ->]]; [lia |].
  rewrite length_app. cbn. lia.
Qed.

End queue_crawl.

Section frontier_claims.
Import CrawlSpec.

(** C6 (as amended) -- in the queue-based crawl of [scrape_enhanced] a turn
    of the loop adds links to the queue only while the first page of the job
    is being read (no page collected yet), only for a depth above 1, and
    only links to the host of that page: a link found on a later page is
    never added.  In the round-based crawl of [scrape_website] and
    [scrape_website_async] the next frontier is made of the links, starting
    with the seed URL and not yet visited, of every page fetched in the
    round, and it is empty unless [current_depth < depth - 1] (and
    [include_images], for [scrape_website_async]). *)
Theorem frontier_sources `{UrlLib} `{Web} :
  (forall depth st st',
     MainApi.iteration depth st = Ret st' ->
     exists added,
       st'.(MainApi.urls_to_scrape)
       = tail st.(MainApi.urls_to_scrape) ++ added
       /\ (st.(MainApi.scraped_pages) <> [] \/ depth <= 1 -> added = [])
       /\ Forall (fun u => exists current_url,
                    head st.(MainApi.urls_to_scrape) = Some current_url
                    /\ same_host u current_url) added)
  /\ (forall base_url depth max_pages include_images current_depth st,
        let tasks :=
          (SimpleScraper.dispatch max_pages st.(SimpleScraper.scraped_pages)
             st.(SimpleScraper.urls_to_visit)
             st.(SimpleScraper.visited_urls)).2 in
        let fetched :=
          omap page_of (map SimpleScraper.scrape_single_page tasks) in
        let st' :=
          SimpleScraper.round base_url depth max_pages include_images
                              current_depth st in
        st'.(SimpleScraper.urls_to_visit)
        = if (Z.of_nat current_depth <? depth - 1) && include_images
          then flat_map
                 (wanted_links base_url st'.(SimpleScraper.visited_urls))
                 fetched
          else []).
Proof.
  split.
  - intros depth st st' Hrun.
    apply iteration_queue in Hrun as (added & Hq & Hall).
    exists added. repeat split; [done | |].
    + intros Hlater. destruct added as [| u added]; [done |].
      apply Forall_cons in Hall as ((Hnil & Hdepth & _) & _).
      destruct Hlater; [done | lia].
    + eapply Forall_impl; [exact Hall |]. cbn. by intros u (_ & _ & ?).
  - intros. by apply round_spec.
Qed.

Lemma frontier_sources_witness :
  exists st',
    @MainApi.iteration PyUrl.lib Demo.example_com 2
      (MainApi.mkState [] ["https://example.com/"] ∅) = Ret st'
    /\ st'.(MainApi.urls_to_scrape)
       = ["https://example.com/a"; "https://example.com/b";
          "https://example.com/c"]
    /\ exists added,
         st'.(MainApi.urls_to_scrape) = [] ++ added
         /\ Forall (fun u => exists current_url,
                      Some "https://example.com/" = Some current_url
                      /\ same_host (H := PyUrl.lib) u current_url) added.
Proof.
  destruct (@MainApi.iteration PyUrl.lib Demo.example_com 2
              (MainApi.mkState [] ["https://example.com/"] ∅))
    as [st' |] eqn:E; [| by vm_compute in E].
  exists st'. split; [reflexivity |]. split.
  - vm_compute in E. injection E as <-. reflexivity.
  - destruct (proj1 (frontier_sources (H := PyUrl.lib)
                       (H0 := Demo.example_com)) _ _ _ E)
      as (added & Hq & _ & Hall).
    exists added. split; [exact Hq | exact Hall].
Defined.

(** The claim C6 as it was stated fails on the round-based crawl: with
    [depth = 3] the page https://example.com/a/deep is fetched, and its
    link stands on the page /a of the second round and not on the first
    page of the job. *)
Lemma later_page_links_are_followed :
  let st :=
    @SimpleScraper.crawl PyUrl.lib Demo.example_com
      "https://example.com/" 3 10 true in
  st.(SimpleScraper.dispatched)
  = ["https://example.com/"; "https://example.com/a";
     "https://example.com/b"; "https://example.com/c";
     "https://example.com/a/deep"]
  /\ (exists first_page,
        head st.(SimpleScraper.scraped_pages) = Some first_page
        /\ map SimpleScraper.link_url first_page.(SimpleScraper.links)
           = ["https://example.com/a"; "https://example.com/b";
              "https://example.com/c"])
  /\ exists later_page,
       st.(SimpleScraper.scraped_pages) !! 1%nat = Some later_page
       /\ map SimpleScraper.link_url later_page.(SimpleScraper.links)
          = ["https://example.com/a/deep"].
Proof.
  vm_compute. repeat split; try reflexivity; eexists; split; reflexivity.
Qed.

End frontier_claims.

(** ** Canonical URLs *)

Section canonical_urls.
Import URLProcessor UrlSpec.
Context `{UrlLib}.

Lemma lower_drop (n : nat) (s : string) :
  Py.lower (Py.drop n s) = Py.drop n (Py.lower s).
Proof. revert s. induction n as [| n IH]; intros [| c s]; cbn; auto. Qed.

Lemma canonical_path (p : string) :
  let p1 := if negb (Py.nonempty (Py.rstrip_slash p)) then "/"
            else Py.rstrip_slash p in
  p1 = "/" \/ (Py.nonempty p1 = true /\ Py.rstrip_slash p1 = p1).
Proof.
  cbv zeta.
  destruct (Py.rstrip_slash p) as [| c r] eqn:E; cbn [Py.nonempty negb].
  - by left.
  - right. split; [done |]. rewrite <- E. apply rstrip_by_idem.
Qed.

(** [normalize_parts], field by field. *)
Lemma normalize_parts_fields (p : ParseResult) :
  normalize_parts p
  = mkParse
      (if Py.nonempty p.(scheme) then p.(scheme) else "https")
      (if www_prefixed (Py.lower p.(netloc))
       then Py.drop 4 (Py.lower p.(netloc)) else Py.lower p.(netloc))
      (if negb (Py.nonempty (Py.rstrip_slash p.(path))) then "/"
       else Py.rstrip_slash p.(path))
      p.(params) p.(query) "".
Proof. unfold normalize_parts. by destruct (scheme p). Qed.

(** The parts that [normalize_parts] returns are canonical, but for a host
    that starts with "www." again. *)
Lemma normalize_parts_canonical (p : ParseResult) :
  www_prefixed (normalize_parts p).(netloc) = false ->
  is_canonical (normalize_parts p).
Proof.
  rewrite normalize_parts_fields. cbn [netloc]. intros Hwww.
  unfold is_canonical. cbn [fragment scheme netloc path].
  repeat apply conj.
  - reflexivity.
  - by destruct (scheme p).
  - destruct (www_prefixed (Py.lower (netloc p)));
      [by rewrite lower_drop, lower_idem | by rewrite lower_idem].
  - exact Hwww.
  - apply canonical_path.
Qed.

(** Canonical parts are left as they are. *)
Lemma normalize_parts_fixed (q : ParseResult) :
  is_canonical q -> normalize_parts q = q.
Proof.
  rewrite normalize_parts_fields. destruct q as [sch net pth prm qry frg].
  intros (Hf & Hs & Hl & Hw & Hp). cbn in *. subst frg.
  rewrite Hs, Hl, Hw.
  destruct Hp as [-> | [Hne ->]]; [reflexivity |].
  by rewrite Hne.
Qed.

End canonical_urls.

Section canonical_claims.
Import URLProcessor UrlSpec.

(** C2 (as amended) -- write [c] for the canonical form of a URL [u].
    Canonicalization is idempotent on [u] when the parser rejects [u] ([u]
    is then returned unchanged) or rejects [c]; otherwise exactly if the
    parts that the parser reads from [c], canonicalized once more, are
    written as [c] again; and so, when the parser reads [c] back as
    canonical parts (no fragment, a scheme, a lower-case host without a
    leading "www.", a path without trailing "/" or the path "/"), exactly
    if [c] is the written form of those parts.  A URL that is the written form of its canonical parts yields
    itself, and a URL with canonical parts yields itself only if it is
    their written form.  The parts of a canonical form are canonical
    unless the host starts with "www." again. *)
Theorem normalize_url_idempotent_on_stable_urls `{UrlLib} (u : string) :
  (forall e, urlparse (Py.strip u) = Raise e ->
             normalize_url u = u
             /\ normalize_url (normalize_url u) = normalize_url u)
  /\ (forall e, urlparse (Py.strip (normalize_url u)) = Raise e ->
                normalize_url (normalize_url u) = normalize_url u)
  /\ (forall p2,
        urlparse (Py.strip (normalize_url u)) = Ret p2 ->
        (normalize_url (normalize_url u) = normalize_url u
         <-> urlunparse (normalize_parts p2) = normalize_url u)
        /\ (is_canonical p2 ->
            (normalize_url (normalize_url u) = normalize_url u
             <-> urlunparse p2 = normalize_url u)))
  /\ (forall q,
        urlparse (Py.strip u) = Ret q -> is_canonical q ->
        (normalize_url u = u <-> urlunparse q = u))
  /\ (forall p, is_canonical (normalize_parts p)
                <-> www_prefixed (normalize_parts p).(netloc) = false).
Proof.
  split; [| split; [| split; [| split]]].
  - intros e He.
    assert (Hu : normalize_url u = u) by (unfold normalize_url; by rewrite He).
    split; [done |]. by rewrite !Hu.
  - intros e He. unfold normalize_url at 1. by rewrite He.
  - intros p2 Hp.
    assert (Hagain : normalize_url (normalize_url u)
                     = urlunparse (normalize_parts p2)).
    { unfold normalize_url at 1. by rewrite Hp. }
    rewrite Hagain. split; [done |].
    intros Hc. by rewrite normalize_parts_fixed.
  - intros q Hp Hc. unfold normalize_url. rewrite Hp.
    by rewrite normalize_parts_fixed.
  - intros p. split; [by intros (_ & _ & _ & ? & _) |].
    apply normalize_parts_canonical.
Qed.

Lemma normalize_url_idempotent_on_stable_urls_witness :
  @normalize_url PyUrl.lib "example.com" = "https:///example.com"
  /\ @normalize_url PyUrl.lib (@normalize_url PyUrl.lib "example.com")
     = @normalize_url PyUrl.lib "example.com"
  /\ @normalize_url PyUrl.lib
       (@normalize_url PyUrl.lib "HTTP://WWW.Example.com/a/b/;p?q=1#frag")
     = @normalize_url PyUrl.lib "HTTP://WWW.Example.com/a/b/;p?q=1#frag".
Proof.
  split; [reflexivity |]. split.
  - apply (proj2 (proj1 (proj2 (proj2
                    (normalize_url_idempotent_on_stable_urls
                       (H := PyUrl.lib) "example.com")))
                   (mkParse "https" "" "/example.com" "" "" "")
                   eq_refl));
      [| reflexivity].
    repeat split; try reflexivity. by right.
  - apply (proj2 (proj1 (proj2 (proj2
                    (normalize_url_idempotent_on_stable_urls
                       (H := PyUrl.lib)
                       "HTTP://WWW.Example.com/a/b/;p?q=1#frag")))
                   (mkParse "http" "example.com" "/a/b" "p" "q=1" "")
                   eq_refl));
      [| reflexivity].
    repeat split; try reflexivity. by right.
Defined.

(** The claim C2 as it was stated fails: only one leading "www." is
    stripped, so a second pass changes http://www.example.com/ again.
    (A path that ends in a space and "/" is another instance: the first
    pass leaves a trailing space, which the second pass strips.) *)
Lemma normalize_url_not_idempotent :
  @normalize_url PyUrl.lib "http://www.www.example.com/"
  = "http://www.example.com/"
  /\ @normalize_url PyUrl.lib
       (@normalize_url PyUrl.lib "http://www.www.example.com/")
     = "http://example.com/"
  /\ @normalize_url PyUrl.lib
       (@normalize_url PyUrl.lib "http://www.www.example.com/")
     <> @normalize_url PyUrl.lib "http://www.www.example.com/".
Proof. vm_compute. repeat split; congruence. Qed.

Example normalize_url_trailing_space :
  @normalize_url PyUrl.lib "http://a.com/ /" = "http://a.com/ "
  /\ @normalize_url PyUrl.lib "http://a.com/ " = "http://a.com/".
Proof. vm_compute. split; reflexivity. Qed.

(** A URL whose parts are canonical but which is not their written form
    does not yield itself: the empty query of http://example.com/a? is not
    written back. *)
Example normalize_url_empty_query :
  urlparse (UrlLib := PyUrl.lib) "http://example.com/a?"
  = Ret (mkParse "http" "example.com" "/a" "" "" "")
  /\ @normalize_url PyUrl.lib "http://example.com/a?"
     = "http://example.com/a".
Proof. vm_compute. split; reflexivity. Qed.

End canonical_claims.

(** ** What one call of [scrape_url] does to the scraper *)

Section scrape_url_invariants.
Import Html ContentExtractor EnhancedWebScraper ScraperSpec.
Context `{UrlLib} `{Web}.

(** [scrape_url] without its recursion: the second call of a retry stops at
    the test of [visited_urls]. *)
Lemma scrape_url_unfold (config : ScrapingConfig.t) (url : string)
    (retry_count : Z) (st : state) :
  let normalized_url := URLProcessor.normalize_url url in
  let sent := mkState (st.(visited_urls) ∪ {[normalized_url]})
                      (st.(requests) ++ [normalized_url]) st.(sleeps) in
  let slept := mkState (st.(visited_urls) ∪ {[normalized_url]})
                       (st.(requests) ++ [normalized_url])
                       (st.(sleeps) ++ [2 ^ retry_count]) in
  scrape_url config url retry_count st
  = if bool_decide (normalized_url ∈ st.(visited_urls))
    then Some (Failure "Already visited" url None, st)
    else if URLProcessor.should_exclude_url normalized_url
              config.(ScrapingConfig.exclude_patterns)
    then Some (Failure "URL excluded by pattern" url None, st)
    else
      match session_get (length st.(requests)) normalized_url with
      | NetResponse r =>
          let final_url :=
            match r.(redirected_to) with
            | Some final_url => URLProcessor.normalize_url final_url
            | None => normalized_url
            end in
          if negb (bool_decide (r.(status) = 200))
          then Some (Failure (status_message r.(status)) final_url
                             (Some r.(status)), sent)
          else
            match build_page url final_url r with
            | Ret p => Some (Success p, sent)
            | Raise e =>
                Some (Failure ("Unexpected error: " +:+ e) url None, sent)
            end
      | NetTimeout =>
          if retry_count <? config.(ScrapingConfig.max_retries)
          then Some (Failure "Already visited" url None, slept)
          else Some (Failure "Timeout" url None, sent)
      | NetClientError e =>
          if retry_count <? config.(ScrapingConfig.max_retries)
          then Some (Failure "Already visited" url None, slept)
          else Some (Failure ("Client error: " +:+ e) url None, sent)
      | NetError e =>
          Some (Failure ("Unexpected error: " +:+ e) url None, sent)
      end.
Proof.
  intros normalized_url sent slept. unfold scrape_url.
  cbn [scrape_url_fuel]. fold normalized_url.
  destruct (bool_decide (normalized_url ∈ visited_urls st)); [done |].
  destruct (URLProcessor.should_exclude_url _ _); [done |].
  cbn [requests visited_urls sleeps].
  assert (Hretry : (retry_count <? ScrapingConfig.max_retries config) = true ->
            scrape_url_fuel
              (Z.to_nat (ScrapingConfig.max_retries config - retry_count))
              config url (retry_count + 1) slept
            = Some (Failure "Already visited" url None, slept)).
  { intros Hlt%Z.ltb_lt.
    destruct (Z.to_nat (ScrapingConfig.max_retries config - retry_count))
      as [| k] eqn:Ek; [lia |].
    cbn [scrape_url_fuel]. fold normalized_url. unfold slept at 1.
    cbn [visited_urls]. by rewrite bool_decide_eq_true_2 by set_solver. }
  destruct (session_get _ _) as [| e | e | r]; try done.
  - destruct (retry_count <? _); [by apply Hretry | done].
  - destruct (retry_count <? _); [by apply Hretry | done].
Qed.

(** How the scraper object changes in one call. *)
Lemma scrape_url_state (config : ScrapingConfig.t) (url : string)
    (retry_count : Z) (st : state) :
  let normalized_url := URLProcessor.normalize_url url in
  exists r st',
    scrape_url config url retry_count st = Some (r, st')
    /\ ((st' = st
         /\ (error_of r = Some "Already visited"
             \/ error_of r = Some "URL excluded by pattern"))
        \/ ((normalized_url ∉ st.(visited_urls))
            /\ st'.(visited_urls) = st.(visited_urls) ∪ {[normalized_url]}
            /\ st'.(requests) = st.(requests) ++ [normalized_url]
            /\ (st'.(sleeps) = st.(sleeps)
                \/ st'.(sleeps) = st.(sleeps) ++ [2 ^ retry_count]))).
Proof.
  intros normalized_url. rewrite scrape_url_unfold. cbv zeta.
  fold normalized_url.
  destruct (bool_decide (normalized_url ∈ visited_urls st)) eqn:Hv.
  { eexists _, _. split; [done |]. left. cbn. auto. }
  apply bool_decide_eq_false in Hv.
  destruct (URLProcessor.should_exclude_url _ _).
  { eexists _, _. split; [done |]. left. cbn. auto. }
  destruct (session_get _ _) as [| e | e | r].
  - destruct (retry_count <? _); eexists _, _; (split; [done |]);
      right; cbn; auto.
  - destruct (retry_count <? _); eexists _, _; (split; [done |]);
      right; cbn; auto.
  - eexists _, _; (split; [done |]); right; cbn; auto.
  - destruct (negb _).
    + eexists _, _; (split; [done |]); right; cbn; auto.
    + destruct (build_page _ _ _);
        eexists _, _; (split; [done |]); right; cbn; auto.
Qed.

(** X1 -- [scrape_url] returns for every input, and one call sends at most
    one GET whatever [max_retries] is: either the scraper object is left as
    it was and the answer is "Already visited" or "URL excluded by
    pattern", or the canonical URL was not visited before, is now marked as
    visited, is the one request added to the log, and at most one sleep (of
    [2 ** retry_count] seconds) was made. *)
Theorem scrape_url_sends_at_most_one_request (config : ScrapingConfig.t)
    (url : string) (retry_count : Z) (st : state) :
  exists r st',
    scrape_url config url retry_count st = Some (r, st')
    /\ ((st' = st
         /\ (error_of r = Some "Already visited"
             \/ error_of r = Some "URL excluded by pattern"))
        \/ ((URLProcessor.normalize_url url ∉ st.(visited_urls))
            /\ st'.(visited_urls)
               = st.(visited_urls) ∪ {[URLProcessor.normalize_url url]}
            /\ st'.(requests)
               = st.(requests) ++ [URLProcessor.normalize_url url]
            /\ (st'.(sleeps) = st.(sleeps)
                \/ st'.(sleeps) = st.(sleeps) ++ [2 ^ retry_count]))).
Proof. exact (scrape_url_state config url retry_count st). Qed.

Lemma scrape_url_deduplicated (config : ScrapingConfig.t) (url : string)
    (retry_count : Z) (st : state) (r : result) (st' : state) :
  requests_deduplicated st ->
  scrape_url config url retry_count st = Some (r, st') ->
  requests_deduplicated st'.
Proof.
  intros [Hnd Hin] Hrun.
  destruct (scrape_url_state config url retry_count st)
    as (r0 & st0 & Hrun0 & Hcases).
  rewrite Hrun in Hrun0. injection Hrun0 as <- <-.
  destruct Hcases as [[-> _] | (Hnew & Hv & Hr & _)]; [by split |].
  split.
  - rewrite Hr. apply NoDup_app. repeat split; [done | | apply NoDup_singleton].
    intros u Hu ->%list_elem_of_singleton. apply Hnew. by apply Hin.
  - intros u Hu. rewrite Hr in Hu. rewrite Hv.
    apply elem_of_app in Hu as [Hu | Hu%list_elem_of_singleton].
    + apply elem_of_union_l. by apply Hin.
    + subst u. apply elem_of_union_r. by apply elem_of_singleton.
Qed.

(** X2 -- a scraper whose request log holds no URL twice, and only URLs
    that are marked as visited, is still such a scraper after any call of
    [scrape_url]: no canonical URL is ever requested a second time. *)
Theorem scrape_url_never_requests_a_url_twice (config : ScrapingConfig.t)
    (url : string) (retry_count : Z) (st : state) (r : result)
    (st' : state) :
  requests_deduplicated st ->
  scrape_url config url retry_count st = Some (r, st') ->
  requests_deduplicated st'.
Proof. apply scrape_url_deduplicated. Qed.

Lemma status_message_cases (status : Z) :
  status_message status = "Page not found"
  \/ status_message status = "Access forbidden"
  \/ status_message status = "Server error"
  \/ status_message status = "HTTP " +:+ Py.str_of_int status.
Proof.
  unfold status_message. repeat case_bool_decide; auto.
Qed.

(** X3 -- while a retry is left ([retry_count < max_retries]) no call of
    [scrape_url] answers "Timeout" or "Client error: ...": a GET that timed
    out or failed in the client ends as "Already visited", after the one
    sleep, because the second call finds the URL marked. *)
Theorem no_timeout_failure_while_a_retry_is_left (config : ScrapingConfig.t)
    (url : string) (retry_count : Z) (st : state) (r : result)
    (st' : state) :
  retry_count < config.(ScrapingConfig.max_retries) ->
  scrape_url config url retry_count st = Some (r, st') ->
  (forall e, error_of r = Some e ->
     e <> "Timeout" /\ Py.startswith e "Client error: " = false)
  /\ (session_get (length st.(requests)) (URLProcessor.normalize_url url)
      = NetTimeout
      \/ (exists e,
            session_get (length st.(requests)) (URLProcessor.normalize_url url)
            = NetClientError e) ->
      URLProcessor.normalize_url url ∉ st.(visited_urls) ->
      URLProcessor.should_exclude_url (URLProcessor.normalize_url url)
        config.(ScrapingConfig.exclude_patterns) = false ->
      error_of r = Some "Already visited"
      /\ st'.(requests) = st.(requests) ++ [URLProcessor.normalize_url url]
      /\ st'.(sleeps) = st.(sleeps) ++ [2 ^ retry_count]).
Proof.
  intros Hlt%Z.ltb_lt. rewrite scrape_url_unfold. cbv zeta. rewrite Hlt.
  intros Hrun. split.
  - intros e He.
    destruct (bool_decide _); [injection Hrun as <- <-; by injection He as <- |].
    destruct (URLProcessor.should_exclude_url _ _);
      [injection Hrun as <- <-; by injection He as <- |].
    destruct (session_get _ _) as [| e0 | e0 | r0].
    + injection Hrun as <- <-. by injection He as <-.
    + injection Hrun as <- <-. by injection He as <-.
    + injection Hrun as <- <-. by injection He as <-.
    + destruct (negb _).
      * injection Hrun as <- <-. injection He as <-.
        destruct (status_message_cases (status r0))
          as [-> | [-> | [-> | ->]]]; done.
      * destruct (build_page _ _ _); injection Hrun as <- <-; [done |].
        by injection He as <-.
  - intros Hget Hnew Hincl.
    rewrite bool_decide_eq_false_2, Hincl in Hrun by done.
    destruct Hget as [Hget | [e Hget]];
      rewrite Hget in Hrun; by injection Hrun as <- <-.
Qed.

Lemma build_page_record (target normalized_url : string) (r : response)
    (p : page) :
  build_page target normalized_url r = Ret p ->
  url p = normalized_url /\ original_url p = target
  /\ status_code p = r.(status)
  /\ content_length p = Py.len r.(body)
  /\ (exists parsed,
        urlparse normalized_url = Ret parsed
        /\ domain p = parsed.(netloc) /\ page_path p = parsed.(path))
  /\ extract_links (extract_main_content (BeautifulSoup r.(body))).1
                   normalized_url = Ret (links p)
  /\ headings_count p = Z.of_nat (length (page_headings p))
  /\ paragraphs_count p = Z.of_nat (length (page_paragraphs p))
  /\ links_count p = Z.of_nat (length (links p))
  /\ lists_count p = Z.of_nat (length (page_lists p))
  /\ tables_count p = Z.of_nat (length (page_tables p)).
Proof.
  unfold build_page.
  destruct (extract_main_content (BeautifulSoup (body r))) as [doc content].
  cbn [fst].
  destruct (extract_links doc normalized_url) as [ls |]; [| done].
  cbn [mbind exn_bind].
  destruct (urlparse normalized_url) as [parsed |]; [| done].
  cbn [mbind exn_bind]. intros [= <-]. cbn. eauto 15.
Qed.

(** X4 -- every success record of [scrape_url] is consistent: its status
    code is 200, [original_url] is the URL as given while [url] is the
    canonical URL (of the redirect target when the request was redirected),
    [domain] and [path] are the host and path of that [url], the length of
    the body is its [content_length], each [..._count] is the length of its
    list, and the canonical form of the given URL is marked as visited. *)
Theorem success_record_is_consistent (config : ScrapingConfig.t)
    (target : string) (retry_count : Z) (st : state) (p : page)
    (st' : state) :
  scrape_url config target retry_count st = Some (Success p, st') ->
  status_code p = 200
  /\ original_url p = target
  /\ URLProcessor.normalize_url target ∈ st'.(visited_urls)
  /\ (exists r,
        session_get (length st.(requests)) (URLProcessor.normalize_url target)
        = NetResponse r
        /\ url p = match r.(redirected_to) with
                   | Some final_url => URLProcessor.normalize_url final_url
                   | None => URLProcessor.normalize_url target
                   end
        /\ content_length p = Py.len r.(body))
  /\ (exists parsed,
        urlparse (url p) = Ret parsed
        /\ domain p = parsed.(netloc) /\ page_path p = parsed.(path))
  /\ headings_count p = Z.of_nat (length (page_headings p))
  /\ paragraphs_count p = Z.of_nat (length (page_paragraphs p))
  /\ links_count p = Z.of_nat (length (links p))
  /\ lists_count p = Z.of_nat (length (page_lists p))
  /\ tables_count p = Z.of_nat (length (page_tables p)).
Proof.
  rewrite scrape_url_unfold. cbv zeta.
  destruct (bool_decide _); [done |].
  destruct (URLProcessor.should_exclude_url _ _); [done |].
  destruct (session_get _ _) as [| e | e | r] eqn:Hget;
    try (by destruct (retry_count <? _)); [done |].
  destruct (bool_decide (status r = 200)) eqn:Hs; cbn [negb]; [| done].
  apply bool_decide_eq_true in Hs.
  destruct (build_page _ _ r) as [p' |] eqn:Hb; [| done].
  intros [= <- <-]. cbn [visited_urls].
  apply build_page_record in Hb
    as (Hu & Ho & Hc & Hl & Hp & _ & Hcounts).
  repeat apply conj; try tauto.
  - congruence.
  - apply elem_of_union_r. by apply elem_of_singleton.
  - exists r. by rewrite Hu.
  - by rewrite Hu.
Qed.

Lemma scrape_url_skips (config : ScrapingConfig.t) (url : string)
    (retry_count : Z) (st : state) (r : result) (st' : state) :
  scrape_url config url retry_count st = Some (r, st') ->
  URLProcessor.normalize_url url ∈ st.(visited_urls)
  \/ URLProcessor.should_exclude_url (URLProcessor.normalize_url url)
       config.(ScrapingConfig.exclude_patterns) = true ->
  st' = st
  /\ (error_of r = Some "Already visited"
      \/ error_of r = Some "URL excluded by pattern").
Proof.
  rewrite scrape_url_unfold. cbv zeta. intros Hrun Hskip.
  destruct (bool_decide _) eqn:Hv.
  { injection Hrun as <- <-. cbn. auto. }
  apply bool_decide_eq_false in Hv. destruct Hskip as [? | Hex]; [done |].
  rewrite Hex in Hrun. injection Hrun as <- <-. cbn. auto.
Qed.

Lemma scrape_url_visited_mono (config : ScrapingConfig.t) (url : string)
    (retry_count : Z) (st : state) (r : result) (st' : state) :
  scrape_url config url retry_count st = Some (r, st') ->
  st.(visited_urls) ⊆ st'.(visited_urls)
  /\ exists sent, st'.(requests) = st.(requests) ++ sent
                  /\ sent `sublist_of` [URLProcessor.normalize_url url].
Proof.
  intros Hrun.
  destruct (scrape_url_state config url retry_count st)
    as (r0 & st0 & Hrun0 & Hcases).
  rewrite Hrun in Hrun0. injection Hrun0 as <- <-.
  destruct Hcases as [[-> _] | (_ & Hv & Hr & _)].
  - split; [done |]. exists []. split; [by rewrite app_nil_r |].
    apply sublist_nil_l.
  - split; [rewrite Hv; apply union_subseteq_l |].
    eexists. split; [exact Hr | done].
Qed.

Lemma scrape_url_marks (config : ScrapingConfig.t) (url : string)
    (retry_count : Z) (st : state) (r : result) (st' : state) :
  scrape_url config url retry_count st = Some (r, st') ->
  URLProcessor.normalize_url url ∈ st'.(visited_urls)
  \/ URLProcessor.should_exclude_url (URLProcessor.normalize_url url)
       config.(ScrapingConfig.exclude_patterns) = true.
Proof.
  intros Hrun.
  destruct (scrape_url_state config url retry_count st)
    as (r0 & st0 & Hrun0 & Hcases).
  rewrite Hrun in Hrun0. injection Hrun0 as <- <-.
  destruct Hcases as [[-> _] | (_ & Hv & _)].
  - rewrite scrape_url_unfold in Hrun. cbv zeta in Hrun.
    destruct (bool_decide _) eqn:Hb;
      [left; by apply bool_decide_eq_true in Hb |].
    destruct (URLProcessor.should_exclude_url _ _) eqn:He; [by right |].
    exfalso.
    assert (Hlen : forall x (s1 : state),
              Some (x, mkState (visited_urls st ∪ {[URLProcessor.normalize_url url]})
                         (requests st ++ [URLProcessor.normalize_url url])
                         s1.(sleeps)) = Some (r, st) -> False).
    { intros x s1 [= _ Hst]. apply (f_equal requests) in Hst.
      apply (f_equal length) in Hst. cbn in Hst.
      rewrite length_app in Hst. cbn in Hst. lia. }
    destruct (session_get _ _) as [| e | e | r0].
    + destruct (retry_count <? _);
        [apply (Hlen _ (mkState ∅ [] (sleeps st ++ [2 ^ retry_count])) Hrun)
        | apply (Hlen _ st Hrun)].
    + destruct (retry_count <? _);
        [apply (Hlen _ (mkState ∅ [] (sleeps st ++ [2 ^ retry_count])) Hrun)
        | apply (Hlen _ st Hrun)].
    + apply (Hlen _ st Hrun).
    + destruct (negb _); [apply (Hlen _ st Hrun) |].
      destruct (build_page _ _ _); apply (Hlen _ st Hrun).
  - left. rewrite Hv. apply elem_of_union_r. by apply elem_of_singleton.
Qed.

(** What the calls of [scrape_multiple_urls] come to, one after the
    other. *)
Lemma scrape_in_turn_spec (config : ScrapingConfig.t) (urls : list string)
    (st : state) :
  exists results st',
    scrape_in_turn config urls st = Some (results, st')
    /\ length results = length urls
    /\ st.(visited_urls) ⊆ st'.(visited_urls)
    /\ (requests_deduplicated st -> requests_deduplicated st')
    /\ (exists sent,
          st'.(requests) = st.(requests) ++ sent
          /\ sent `sublist_of` map URLProcessor.normalize_url urls)
    /\ (forall j v,
          urls !! j = Some v ->
          URLProcessor.normalize_url v ∈ st.(visited_urls)
          \/ URLProcessor.should_exclude_url (URLProcessor.normalize_url v)
               config.(ScrapingConfig.exclude_patterns) = true ->
          exists r, results !! j = Some r
                    /\ (error_of r = Some "Already visited"
                        \/ error_of r = Some "URL excluded by pattern"))
    /\ (forall i j u v,
          (i < j)%nat -> urls !! i = Some u -> urls !! j = Some v ->
          URLProcessor.normalize_url u = URLProcessor.normalize_url v ->
          exists r, results !! j = Some r
                    /\ (error_of r = Some "Already visited"
                        \/ error_of r = Some "URL excluded by pattern")).
Proof.
  revert st. induction urls as [| u urls IH]; intros st.
  { exists [], st. cbn [scrape_in_turn map].
    repeat apply conj; try done.
    exists []. by rewrite app_nil_r. }
  cbn [scrape_in_turn].
  destruct (scrape_url_state config u 0 st) as (r1 & st1 & Hrun & Hcases).
  rewrite Hrun. cbn [mbind option_bind].
  destruct (scrape_url_visited_mono _ _ _ _ _ _ Hrun)
    as (Hmono1 & sent1 & Hreq1 & Hsub1).
  destruct (IH st1) as (rs & st2 & Hrest & Hlen & Hmono & Hdd & Hsent & Hskip
                        & Hdup).
  rewrite Hrest. cbn [mbind option_bind].
  exists (r1 :: rs), st2. repeat apply conj.
  - done.
  - cbn. by rewrite Hlen.
  - by etrans.
  - intros Hd. apply Hdd. by eapply scrape_url_deduplicated.
  - destruct Hsent as (sent & Hreq2 & Hsub2). exists (sent1 ++ sent). split.
    + by rewrite Hreq2, Hreq1, <- (assoc_L (++)).
    + cbn [map]. by apply (sublist_app _ [_]).
  - intros [| j] v Hj Hv.
    + injection Hj as ->. exists r1. split; [done |].
      by apply (scrape_url_skips _ _ _ _ _ _ Hrun).
    + apply (Hskip j v Hj). destruct Hv as [Hv | Hv]; [left | by right].
      by apply Hmono1.
  - intros i [| j] u0 v Hij Hi Hj Heq; [lia |].
    destruct i as [| i].
    + injection Hi as ->. apply (Hskip j v Hj). rewrite <- Heq.
      by apply (scrape_url_marks _ _ _ _ _ _ Hrun).
    + apply (Hdup i j u0 v); [lia | done..].
Qed.

(** X5 -- with a semaphore of at least one slot, [scrape_multiple_urls]
    returns one result per URL of its list; a scraper whose log held no
    URL twice still has such a log afterwards, and the GETs it added are,
    in order, canonical forms of URLs of the list, each at most once per
    place: at most one request per URL given. *)
Theorem scrape_multiple_urls_sends_one_request_per_url
    (config : ScrapingConfig.t) (urls : list string) (max_concurrent : Z)
    (st : state) :
  0 < max_concurrent ->
  exists results st',
    scrape_multiple_urls config urls max_concurrent st
    = Some (Ret (results, st'))
    /\ length results = length urls
    /\ st.(visited_urls) ⊆ st'.(visited_urls)
    /\ (requests_deduplicated st -> requests_deduplicated st')
    /\ (exists sent,
          st'.(requests) = st.(requests) ++ sent
          /\ sent `sublist_of` map URLProcessor.normalize_url urls).
Proof.
  intros Hpos. unfold scrape_multiple_urls.
  destruct (max_concurrent <? 0) eqn:Hneg; [lia |].
  destruct (max_concurrent =? 0) eqn:Hzero; [lia |]. cbn [andb].
  destruct (scrape_in_turn_spec config urls st)
    as (rs & st' & -> & Hlen & Hmono & Hdd & Hsent & _).
  exists rs, st'. by repeat apply conj.
Qed.

(** X6 -- in a call of [scrape_multiple_urls], a URL whose canonical form
    is that of a URL earlier in the list is not fetched: its result is the
    failure "Already visited" (or "URL excluded by pattern", when the first
    one was refused by the exclusion patterns). *)
Theorem scrape_multiple_urls_skips_repeated_urls
    (config : ScrapingConfig.t) (urls : list string) (max_concurrent : Z)
    (st : state) (results : list result) (st' : state) (i j : nat)
    (u v : string) :
  0 < max_concurrent ->
  scrape_multiple_urls config urls max_concurrent st
  = Some (Ret (results, st')) ->
  (i < j)%nat -> urls !! i = Some u -> urls !! j = Some v ->
  URLProcessor.normalize_url u = URLProcessor.normalize_url v ->
  exists r, results !! j = Some r
            /\ (error_of r = Some "Already visited"
                \/ error_of r = Some "URL excluded by pattern").
Proof.
  intros Hpos. unfold scrape_multiple_urls.
  destruct (max_concurrent <? 0) eqn:Hneg; [lia |].
  destruct (max_concurrent =? 0) eqn:Hzero; [lia |]. cbn [andb].
  destruct (scrape_in_turn_spec config urls st)
    as (rs & st2 & -> & _ & _ & _ & _ & _ & Hdup).
  intros [= <- <-]. apply Hdup.
Qed.

End scrape_url_invariants.

Section scrape_url_invariant_examples.
Import Html ContentExtractor EnhancedWebScraper ScraperSpec.

Lemma scrape_url_never_requests_a_url_twice_witness :
  requests_deduplicated
    (mkState (∅ ∪ {["https://example.com/missing"]})
             ["https://example.com/missing"] []).
Proof.
  apply (scrape_url_never_requests_a_url_twice (H := PyUrl.lib)
           (H0 := Demo.example_com) ScrapingConfig.default
           "https://example.com/missing" 0 initial
           (Failure "Page not found" "https://example.com/missing"
                    (Some 404))).
  - split; [apply NoDup_nil_2 | intros u Hu; by apply elem_of_nil in Hu].
  - vm_compute. reflexivity.
Defined.

Lemma no_timeout_failure_while_a_retry_is_left_witness :
  exists r st',
    @scrape_url PyUrl.lib Demo.example_com ScrapingConfig.default
      "https://example.com/slow" 0 initial = Some (r, st')
    /\ error_of r = Some "Already visited"
    /\ st'.(requests) = initial.(requests) ++ ["https://example.com/slow"]
    /\ st'.(sleeps) = initial.(sleeps) ++ [2 ^ 0].
Proof.
  destruct (@scrape_url PyUrl.lib Demo.example_com ScrapingConfig.default
              "https://example.com/slow" 0 initial)
    as [[r st'] |] eqn:E; [| by vm_compute in E].
  exists r, st'. split; [reflexivity |].
  refine (proj2 (no_timeout_failure_while_a_retry_is_left
                   (H := PyUrl.lib) (H0 := Demo.example_com)
                   ScrapingConfig.default "https://example.com/slow" 0
                   initial r st' _ E) _ _ _).
  - vm_compute. reflexivity.
  - left. vm_compute. reflexivity.
  - apply not_elem_of_empty.
  - vm_compute. reflexivity.
Defined.

Lemma success_record_is_consistent_witness :
  exists p st',
    @scrape_url PyUrl.lib Demo.example_com ScrapingConfig.default
      "https://WWW.Example.com/a/#top" 0 initial = Some (Success p, st')
    /\ status_code p = 200
    /\ original_url p = "https://WWW.Example.com/a/#top"
    /\ url p = "https://example.com/a"
    /\ links_count p = Z.of_nat (length (links p)).
Proof.
  destruct (@scrape_url PyUrl.lib Demo.example_com ScrapingConfig.default
              "https://WWW.Example.com/a/#top" 0 initial)
    as [[[p |] st'] |] eqn:E; try (by vm_compute in E).
  exists p, st'. split; [reflexivity |].
  destruct (success_record_is_consistent (H := PyUrl.lib)
              (H0 := Demo.example_com) _ _ _ _ _ _ E)
    as (Hs & Ho & _ & _ & _ & _ & _ & Hl & _).
  split; [exact Hs |]. split; [exact Ho |]. split; [| exact Hl].
  clear Hs Ho Hl. vm_compute in E. injection E as <- _. reflexivity.
Defined.

Lemma scrape_multiple_urls_sends_one_request_per_url_witness :
  exists results st',
    @scrape_multiple_urls PyUrl.lib Demo.example_com ScrapingConfig.default
      ["https://example.com/a"; "https://EXAMPLE.com/a/";
       "https://example.com/b"] 5 initial
    = Some (Ret (results, st'))
    /\ length results = 3%nat
    /\ initial.(visited_urls) ⊆ st'.(visited_urls)
    /\ (requests_deduplicated initial -> requests_deduplicated st')
    /\ (exists sent,
          st'.(requests) = initial.(requests) ++ sent
          /\ sent `sublist_of`
               map (URLProcessor.normalize_url (H := PyUrl.lib))
                   ["https://example.com/a"; "https://EXAMPLE.com/a/";
                    "https://example.com/b"]).
Proof.
  apply (scrape_multiple_urls_sends_one_request_per_url (H := PyUrl.lib)
           (H0 := Demo.example_com)).
  lia.
Defined.

Lemma scrape_multiple_urls_skips_repeated_urls_witness :
  exists results st',
    @scrape_multiple_urls PyUrl.lib Demo.example_com ScrapingConfig.default
      ["https://example.com/a"; "https://EXAMPLE.com/a/";
       "https://example.com/b"] 5 initial
    = Some (Ret (results, st'))
    /\ exists r, results !! 1%nat = Some r
                 /\ (error_of r = Some "Already visited"
                     \/ error_of r = Some "URL excluded by pattern").
Proof.
  destruct (@scrape_multiple_urls PyUrl.lib Demo.example_com
              ScrapingConfig.default
              ["https://example.com/a"; "https://EXAMPLE.com/a/";
               "https://example.com/b"] 5 initial)
    as [[[results st'] |] |] eqn:E; try (by vm_compute in E).
  exists results, st'. split; [reflexivity |].
  apply (scrape_multiple_urls_skips_repeated_urls (H := PyUrl.lib)
           (H0 := Demo.example_com) _ _ 5 _ _ _ 0%nat 1%nat
           "https://example.com/a" "https://EXAMPLE.com/a/" eq_refl E).
  - lia.
  - reflexivity.
  - reflexivity.
  - vm_compute. reflexivity.
Defined.

End scrape_url_invariant_examples.

(** ** The links of a page ([ContentExtractor.extract_links]) *)

Section enhanced_links.
Import Html ContentExtractor EnhancedWebScraper.
Context `{UrlLib}.

(** What the loop of [extract_links] has built when it has read the
    anchors [anchors]. *)
Lemma extract_links_loop_invariant (base_url : string)
    (anchors : list node) (step : exn (list link * gset string) -> node ->
                                  exn (list link * gset string))
    (links : list link) (seen_urls : gset string) :
  step = (fun (acc : exn (list link * gset string)) a =>
    '(links, seen_urls) ← acc;
    let href := Py.strip (get_or_empty "href" a) in
    if negb (Py.nonempty href) || Py.startswith href "#"
    then Ret (links, seen_urls)
    else
      match urljoin base_url href with
      | Raise _ => Ret (links, seen_urls)
      | Ret full_url =>
          let full_url := URLProcessor.normalize_url full_url in
          if bool_decide (full_url ∈ seen_urls) then Ret (links, seen_urls)
          else
            let seen_urls := seen_urls ∪ {[full_url]} in
            let link_text := clean_text (get_text a) in
            parsed ← urlparse full_url;
            base_parsed ← urlparse base_url;
            let kind :=
              if bool_decide (parsed.(netloc) = base_parsed.(netloc))
              then Internal
              else if negb (Py.nonempty parsed.(netloc)) then Relative
              else External in
            Ret (links ++ [mkLink full_url link_text
                                  (get_or_empty "title" a) kind],
                 seen_urls)
      end) ->
  foldl step (Ret ([], ∅)) anchors = Ret (links, seen_urls) ->
  NoDup (map link_url links)
  /\ (forall u, u ∈ seen_urls <-> u ∈ map link_url links)
  /\ (length links <= length anchors)%nat
  /\ Forall (fun l =>
       exists a full_url parsed base_parsed,
         a ∈ anchors
         /\ Py.strip (get_or_empty "href" a) <> ""
         /\ Py.startswith (Py.strip (get_or_empty "href" a)) "#" = false
         /\ urljoin base_url (Py.strip (get_or_empty "href" a))
            = Ret full_url
         /\ link_url l = URLProcessor.normalize_url full_url
         /\ link_text l = clean_text (get_text a)
         /\ link_title l = get_or_empty "title" a
         /\ urlparse (link_url l) = Ret parsed
         /\ urlparse base_url = Ret base_parsed
         /\ link_kind l
            = if bool_decide (parsed.(netloc) = base_parsed.(netloc))
              then Internal
              else if negb (Py.nonempty parsed.(netloc)) then Relative
              else External) links.
Proof.
  intros Hstep. revert links seen_urls.
  induction anchors as [| a anchors IH] using rev_ind;
    intros links seen_urls.
  { intros [= <- <-]. cbn [map length]. repeat split; try done;
      first [ apply NoDup_nil_2
            | by intros ?%elem_of_empty
            | by intros ?%elem_of_nil ]. }
  rewrite foldl_app. cbn [foldl].
  destruct (foldl step (Ret ([], ∅)) anchors) as [[links0 seen0] | e] eqn:Hfold;
    [| by rewrite Hstep].
  destruct (IH links0 seen0 eq_refl) as (Hnd & Hseen & Hlen & Hall).
  assert (Hkeep : NoDup (map link_url links0)
            /\ (forall u, u ∈ seen0 <-> u ∈ map link_url links0)
            /\ (length links0 <= length (anchors ++ [a]))%nat
            /\ Forall (fun l =>
                 exists a0 full_url parsed base_parsed,
                   a0 ∈ anchors ++ [a]
                   /\ Py.strip (get_or_empty "href" a0) <> ""
                   /\ Py.startswith (Py.strip (get_or_empty "href" a0)) "#"
                      = false
                   /\ urljoin base_url (Py.strip (get_or_empty "href" a0))
                      = Ret full_url
                   /\ link_url l = URLProcessor.normalize_url full_url
                   /\ link_text l = clean_text (get_text a0)
                   /\ link_title l = get_or_empty "title" a0
                   /\ urlparse (link_url l) = Ret parsed
                   /\ urlparse base_url = Ret base_parsed
                   /\ link_kind l
                      = if bool_decide (parsed.(netloc) = base_parsed.(netloc))
                        then Internal
                        else if negb (Py.nonempty parsed.(netloc))
                             then Relative else External) links0).
  { repeat split; try done; try (by apply Hseen).
    - rewrite length_app. lia.
    - eapply Forall_impl; [exact Hall |].
      intros l (a0 & f & p & b & Ha0 & Hrest).
      exists a0, f, p, b. split; [| done]. apply elem_of_app. by left. }
  rewrite Hstep. cbn [mbind exn_bind].
  destruct (Py.strip (get_or_empty "href" a)) as [| c href] eqn:Hhref.
  { cbn. by intros [= <- <-]. }
  cbn [Py.nonempty negb orb].
  destruct (Py.startswith (String c href) "#") eqn:Hhash.
  { by intros [= <- <-]. }
  destruct (urljoin base_url (String c href)) as [full_url |] eqn:Hjoin;
    [| by intros [= <- <-]].
  cbv zeta. case_bool_decide as Hnew; [by intros [= <- <-] |].
  destruct (urlparse (URLProcessor.normalize_url full_url))
    as [parsed |] eqn:Hp; [| done].
  cbn [mbind exn_bind].
  destruct (urlparse base_url) as [base_parsed |] eqn:Hb; [| done].
  cbn [mbind exn_bind]. intros [= <- <-].
  destruct Hkeep as (_ & _ & _ & Hall').
  repeat split.
  - rewrite map_app. cbn [map link_url]. apply NoDup_app.
    repeat split; [done | | apply NoDup_singleton].
    intros u Hu ->%list_elem_of_singleton. apply Hnew. by apply Hseen.
  - rewrite map_app, elem_of_app, elem_of_union, Hseen. cbn [map link_url].
    rewrite elem_of_singleton, list_elem_of_singleton. done.
  - rewrite map_app, elem_of_app, elem_of_union, Hseen. cbn [map link_url].
    rewrite elem_of_singleton, list_elem_of_singleton. done.
  - rewrite !length_app. cbn. lia.
  - apply Forall_app. split; [done |]. apply Forall_singleton.
    exists a, full_url, parsed, base_parsed. cbn [link_url link_text
      link_title link_kind]. rewrite Hhref.
    repeat split; try done. apply elem_of_app. right.
    by apply list_elem_of_singleton.
Qed.

(** X7 -- the links that [extract_links] returns have pairwise distinct
    URLs and are no more than the anchors of the document; each comes from
    an anchor [<a href=...>] whose trimmed [href] is neither empty nor a
    bare fragment ([#...]), its URL is the canonical form of that [href]
    joined to the base URL, its text is the cleaned text of the anchor, and
    its type is "internal" exactly when its host is the host of the base
    URL, "relative" exactly when it has no host while the base has one, and
    "external" otherwise. *)
Theorem extract_links_are_distinct_and_classified (doc : soup)
    (base_url : string) (links : list link) :
  extract_links doc base_url = Ret links ->
  NoDup (map link_url links)
  /\ (length links <= length (find_all ["a"] doc))%nat
  /\ Forall (fun l =>
       exists a full_url parsed base_parsed,
         a ∈ find_all ["a"] doc
         /\ is_Some (get "href" a)
         /\ Py.strip (get_or_empty "href" a) <> ""
         /\ Py.startswith (Py.strip (get_or_empty "href" a)) "#" = false
         /\ urljoin base_url (Py.strip (get_or_empty "href" a))
            = Ret full_url
         /\ link_url l = URLProcessor.normalize_url full_url
         /\ link_text l = clean_text (get_text a)
         /\ link_title l = get_or_empty "title" a
         /\ urlparse (link_url l) = Ret parsed
         /\ urlparse base_url = Ret base_parsed
         /\ (link_kind l = Internal
             <-> parsed.(netloc) = base_parsed.(netloc))
         /\ (link_kind l = Relative
             <-> parsed.(netloc) = "" /\ base_parsed.(netloc) <> "")
         /\ (link_kind l = External
             <-> parsed.(netloc) <> ""
                 /\ parsed.(netloc) <> base_parsed.(netloc))) links.
Proof.
  unfold extract_links, extract_links_loop.
  match goal with
  | |- context [foldl ?f _ ?l] => set (step := f); set (anchors := l)
  end.
  destruct (foldl step (Ret ([], ∅)) anchors) as [[links0 seen] |] eqn:Hfold;
    [| done].
  cbn [fmap exn_fmap fst]. intros [= <-].
  destruct (extract_links_loop_invariant base_url anchors step links0 seen
              eq_refl Hfold) as (Hnd & _ & Hlen & Hall).
  repeat split; [done | |].
  - etrans; [exact Hlen |]. apply List.filter_length_le.
  - eapply Forall_impl; [exact Hall |].
    intros l (a & f & p & b & Ha & Hne & Hhash & Hj & Hu & Ht & Hti & Hp
              & Hb & Hk).
    apply list_elem_of_In, filter_In in Ha as [Ha Hhref].
    apply list_elem_of_In in Ha. apply bool_decide_eq_true in Hhref.
    exists a, f, p, b. do 10 (split; [done |]). rewrite Hk.
    case_bool_decide as Heq.
    + repeat split; try done; intros [? ?]; congruence.
    + destruct (netloc p) eqn:Hn; cbn [Py.nonempty negb].
      * repeat split; try done; by intros [? ?].
      * repeat split; try done; by intros [? ?].
Qed.

End enhanced_links.

(** ** The exclusion patterns ([URLProcessor.should_exclude_url]) *)

Section exclusion.
Import Re ReSpec ExcludeSpec.

Lemma search_iff (r : regex) (subject : string) :
  search r subject = true
  <-> exists before s rest,
        subject = before +:+ s +:+ rest /\ matches r s rest.
Proof.
  induction subject as [| c subject IH]; cbn [search].
  - rewrite orb_false_r, match_iff. split.
    + intros (s & rest & -> & Hm). by exists "", s, rest.
    + intros (before & s & rest & Heq & Hm).
      symmetry in Heq. apply str_app_eq_nil in Heq as [-> Heq].
      by exists s, rest.
  - rewrite orb_true_iff, match_iff, IH. split.
    + intros [(s & rest & -> & Hm) | (before & s & rest & -> & Hm)].
      * by exists "", s, rest.
      * by exists (String c before), s, rest.
    + intros ([| c' before] & s & rest & Heq & Hm).
      * left. by exists s, rest.
      * right. rewrite str_app_cons in Heq. injection Heq as -> ->.
        by exists before, s, rest.
Qed.

Lemma matches_chr_inv (p : ascii -> bool) (s rest : string) :
  matches (Chr p) s rest -> exists c, s = String c "" /\ p c = true.
Proof. inversion 1; subst. eauto. Qed.

Lemma matches_seq_inv (r1 r2 : regex) (s rest : string) :
  matches (Seq r1 r2) s rest ->
  exists s1 s2, s = s1 +:+ s2 /\ matches r1 s1 (s2 +:+ rest)
                /\ matches r2 s2 rest.
Proof. inversion 1; subst. eauto. Qed.

Lemma matches_eos_inv (s rest : string) :
  matches Eos s rest -> s = "" /\ at_eos rest = true.
Proof. inversion 1; subst. eauto. Qed.

Lemma at_eos_inv (rest : string) :
  at_eos rest = true <-> rest = "" \/ rest = String "010" "".
Proof.
  destruct rest as [| c [| c' rest]]; cbn.
  - split; auto.
  - rewrite bool_decide_eq_true. split; [intros ->; auto |].
    intros [| [= ->]]; done.
  - split; [done | intros [|]; done].
Qed.

Lemma matches_lit_i_inv (p s rest : string) :
  matches (lit_i p) s rest -> same_letters s p.
Proof.
  revert s rest. induction p as [| a p IH]; intros s rest; cbn [lit_i].
  - inversion 1; subst. done.
  - intros (s1 & s2 & -> & (c & -> & Hc)%matches_chr_inv & Hm)%matches_seq_inv.
    apply bool_decide_eq_true in Hc. apply IH in Hm.
    unfold same_letters in *. rewrite str_app_cons, str_app_nil_l.
    cbn [Py.lower]. by rewrite Hc, Hm.
Qed.

Lemma lower_app (s t : string) :
  Py.lower (s +:+ t) = Py.lower s +:+ Py.lower t.
Proof.
  induction s as [| c s IH]; [by rewrite !str_app_nil_l |].
  rewrite str_app_cons. cbn [Py.lower]. by rewrite str_app_cons, IH.
Qed.

Lemma lower_snoc_inv (s e : string) (c : ascii) :
  Py.lower s = Py.lower (e +:+ String c "") ->
  exists s1 c', s = s1 +:+ String c' ""
                /\ Py.lower s1 = Py.lower e
                /\ Py.lower_char c' = Py.lower_char c.
Proof.
  revert e. induction s as [| a s IH]; intros [| b e] Hl.
  - by rewrite str_app_nil_l in Hl.
  - by rewrite str_app_cons in Hl.
  - rewrite str_app_nil_l in Hl. cbn [Py.lower] in Hl.
    destruct s; [| done]. injection Hl as Hl.
    exists "", a. by rewrite str_app_nil_l.
  - rewrite str_app_cons in Hl. cbn [Py.lower] in Hl.
    injection Hl as Hab Hl.
    destruct (IH e Hl) as (s1 & c' & -> & Hs1 & Hc').
    exists (String a s1), c'. rewrite str_app_cons. cbn [Py.lower].
    by rewrite Hab, Hs1.
Qed.

(** A pattern [<letters>$]. *)
Lemma search_ext (e url : string) :
  search (ScrapingConfig.ext e) url = true <-> ends_with_letters url e.
Proof.
  rewrite search_iff. unfold ends_with_letters, ScrapingConfig.ext. split.
  - intros (before & s & rest & -> & Hm).
    apply matches_seq_inv in Hm
      as (s1 & s2 & -> & Hl%matches_lit_i_inv & (-> & He%at_eos_inv)%matches_eos_inv).
    exists before, s1, rest. by rewrite str_app_nil_r.
  - intros (before & ending & rest & -> & Hl & He%at_eos_inv).
    exists before, ending, rest. split; [done |].
    rewrite <- (str_app_nil_r ending). apply m_seq; [| by apply m_eos].
    rewrite str_app_nil_l. by apply matches_lit_i.
Qed.

(** A pattern [<letters>[c]?$]. *)
Lemma search_ext_opt (e : string) (c : ascii) (url : string) :
  search (ScrapingConfig.ext_opt e c) url = true
  <-> ends_with_letters url e \/ ends_with_letters url (e +:+ String c "").
Proof.
  rewrite search_iff. unfold ends_with_letters, ScrapingConfig.ext_opt.
  split.
  - intros (before & s & rest & -> & Hm).
    apply matches_seq_inv in Hm
      as (s1 & s2 & -> & Hl%matches_lit_i_inv & Hm).
    apply matches_seq_inv in Hm
      as (s3 & s4 & -> & Ho & (-> & He%at_eos_inv)%matches_eos_inv).
    rewrite str_app_nil_r in *. rewrite str_app_nil_l in Ho.
    inversion Ho as [| | | | ? ? ? ? Hc | ? ? ? ? Heps | |]; subst.
    + right. apply matches_chr_inv in Hc as (c' & -> & Hc%bool_decide_eq_true).
      exists before, (s1 +:+ String c' ""), rest. repeat split; [| done].
      unfold same_letters in Hl. rewrite !lower_app, Hl. cbn [Py.lower].
      by rewrite Hc.
    + left. inversion Heps; subst. exists before, s1, rest.
      by rewrite str_app_nil_r.
  - intros [(before & ending & rest & -> & Hl & He%at_eos_inv)
           | (before & ending & rest & -> & Hl & He%at_eos_inv)].
    + exists before, ending, rest. split; [done |].
      rewrite <- (str_app_nil_r ending). apply m_seq.
      * rewrite str_app_nil_l. by apply matches_lit_i.
      * rewrite <- (str_app_nil_l ""). apply m_seq; [| by apply m_eos].
        rewrite str_app_nil_l. apply m_alt_r, m_eps.
    + exists before, ending, rest. split; [done |].
      assert (Hsplit := lower_snoc_inv _ _ _ Hl).
      destruct Hsplit as (s1 & c' & -> & Hs1 & Hc').
      apply m_seq; [by apply matches_lit_i |].
      rewrite <- (str_app_nil_r (String c' "")).
      apply m_seq; [| by apply m_eos].
      rewrite str_app_nil_l. apply m_alt_l, m_chr.
      by apply bool_decide_eq_true.
Qed.

(** A pattern [<letters>]. *)
Lemma search_word (w url : string) :
  search (lit_i w) url = true <-> contains_letters url w.
Proof.
  rewrite search_iff. unfold contains_letters. split.
  - intros (before & s & rest & -> & Hl%matches_lit_i_inv). by eauto.
  - intros (before & word & rest & -> & Hl).
    exists before, word, rest. split; [done |]. by apply matches_lit_i.
Qed.

(** The pattern [\.mp[34]$]. *)
Lemma search_mp (url : string) :
  search (Seq (lit_i ".mp") (Seq (Alt (chr_i "3") (chr_i "4")) Eos)) url
  = true
  <-> ends_with_letters url ".mp3" \/ ends_with_letters url ".mp4".
Proof.
  rewrite search_iff. unfold ends_with_letters. split.
  - intros (before & s & rest & -> & Hm).
    apply matches_seq_inv in Hm
      as (s1 & s2 & -> & Hl%matches_lit_i_inv & Hm).
    apply matches_seq_inv in Hm
      as (s3 & s4 & -> & Ho & (-> & He%at_eos_inv)%matches_eos_inv).
    rewrite str_app_nil_r in *. unfold same_letters in Hl.
    inversion Ho as [| | | | ? ? ? ? Hc | ? ? ? ? Hc | |]; subst;
      apply matches_chr_inv in Hc as (c' & -> & Hc%bool_decide_eq_true);
      [left | right];
      exists before, (s1 +:+ String c' ""), rest; (repeat split; [| done]);
      rewrite lower_app, Hl; cbn [Py.lower]; by rewrite Hc.
  - intros [(before & ending & rest & -> & Hl & He%at_eos_inv)
           | (before & ending & rest & -> & Hl & He%at_eos_inv)];
      exists before, ending, rest; (split; [done |]);
      destruct (lower_snoc_inv ending ".mp" _ Hl)
        as (s1 & c' & -> & Hs1 & Hc');
      (apply m_seq; [by apply matches_lit_i |]);
      rewrite <- (str_app_nil_r (String c' ""));
      (apply m_seq; [| by apply m_eos]); rewrite str_app_nil_l;
      [apply m_alt_l | apply m_alt_r]; apply m_chr;
      by apply bool_decide_eq_true.
Qed.

Ltac find_disjunct :=
  match goal with
  | H : ?P |- ?P => exact H
  | |- _ \/ _ => (left; find_disjunct) || (right; find_disjunct)
  end.

(** The default patterns, pattern by pattern. *)
Lemma default_patterns_iff (url : string) :
  URLProcessor.should_exclude_url url ScrapingConfig.default_exclude_patterns
  = true
  <-> (exists e, e ∈ excluded_extensions /\ ends_with_letters url e)
      \/ (exists w, w ∈ excluded_words /\ contains_letters url w).
Proof.
  rewrite <- !Exists_exists.
  unfold URLProcessor.should_exclude_url,
    ScrapingConfig.default_exclude_patterns, excluded_extensions,
    excluded_words.
  cbn [existsb]. rewrite !orb_true_iff, !Exists_cons, !Exists_nil.
  rewrite !search_ext, !search_ext_opt, search_mp, !search_word.
  change (".doc" +:+ "x") with ".docx".
  change (".xls" +:+ "x") with ".xlsx".
  change (".ppt" +:+ "x") with ".pptx".
  split; intros Hcase; decompose [or] Hcase; try done; find_disjunct.
Qed.

(** X8 -- with the default patterns, [should_exclude_url] refuses every
    URL that ends, in any letter case, with one of the 24 listed file
    extensions (.pdf, .doc, .docx, ... .svg), and every URL that contains,
    at any place and in any letter case, one of "mailto:", "tel:", "ftp:"
    or "javascript:". *)
Theorem default_patterns_exclude_endings_and_words (url : string) :
  (exists e, e ∈ excluded_extensions /\ ends_with_letters url e)
  \/ (exists w, w ∈ excluded_words /\ contains_letters url w) ->
  URLProcessor.should_exclude_url url ScrapingConfig.default_exclude_patterns
  = true.
Proof.
  intros [(e & He & Hend) | (w & Hw & Hin)]; apply default_patterns_iff.
  - left. by exists e.
  - right. by exists w.
Qed.

(** X25 -- a URL whose characters are code points below 256 (as all
    strings are here) and that the default patterns refuse ends with one of
    the 24 listed extensions or contains one of the four listed words, in
    some letter case: no other such URL is refused. *)
Theorem default_patterns_exclude_nothing_else (url : string) :
  URLProcessor.should_exclude_url url ScrapingConfig.default_exclude_patterns
  = true ->
  (exists e, e ∈ excluded_extensions /\ ends_with_letters url e)
  \/ (exists w, w ∈ excluded_words /\ contains_letters url w).
Proof.
  intros Hexcluded. apply default_patterns_iff in Hexcluded.
  destruct Hexcluded as [(e & He & Hend) | (w & Hw & Hin)].
  - left. by exists e.
  - right. by exists w.
Qed.

End exclusion.

Section exclusion_examples.
Import ExcludeSpec.

Lemma default_patterns_exclude_endings_and_words_witness :
  URLProcessor.should_exclude_url "https://example.com/hotel:rooms"
    ScrapingConfig.default_exclude_patterns = true.
Proof.
  apply default_patterns_exclude_endings_and_words.
  right. exists "tel:". split.
  - apply list_elem_of_In. cbn [excluded_words In]. auto.
  - by exists "https://example.com/ho", "tel:", "rooms".
Defined.

Lemma default_patterns_exclude_nothing_else_witness :
  (exists e, e ∈ excluded_extensions
             /\ ends_with_letters "https://example.com/report.PDF" e)
  \/ (exists w, w ∈ excluded_words
                /\ contains_letters "https://example.com/report.PDF" w).
Proof.
  apply default_patterns_exclude_nothing_else. vm_compute. reflexivity.
Defined.

End exclusion_examples.

(** ** Valid URLs ([URLProcessor.is_valid_url]) *)

Section valid_urls.
Import URLProcessor UrlSpec.
Context `{UrlLib}.

Lemma drop_nonempty (n : nat) (s : string) :
  Py.drop n s <> "" -> (n < String.length s)%nat.
Proof.
  revert s. induction n as [| n IH]; intros [| c s]; cbn; try done.
  - lia.
  - intros Hne%IH. lia.
Qed.

Lemma valid_url_host (url d : string) :
  is_valid_url url (Some d) = true -> d <> "" ->
  exists parsed,
    urlparse url = Ret parsed
    /\ parsed.(scheme) ∈ ["http"; "https"]
    /\ parsed.(netloc) <> ""
    /\ (normalize_parts parsed).(netloc) = d
    /\ Py.lower d = d.
Proof.
  unfold is_valid_url. intros Hvalid Hd.
  destruct (urlparse url) as [parsed |]; [| done]. exists parsed.
  destruct (Py.nonempty (scheme parsed)); [| done].
  destruct (netloc parsed) as [| c host] eqn:Hhost; [done |].
  cbn [Py.nonempty negb orb] in Hvalid.
  case_bool_decide as Hscheme; [| done]. cbn [negb] in Hvalid.
  destruct d as [| c' d']; [done |]. cbn [Py.nonempty] in Hvalid.
  apply bool_decide_eq_true in Hvalid.
  rewrite normalize_parts_fields. cbn [netloc]. rewrite Hhost.
  unfold www_prefixed.
  destruct (Py.startswith (Py.lower (String c host)) "www.") eqn:Hwww;
    cbn [andb].
  - assert (Hlen : (4 <? Py.len (Py.lower (String c host))) = true).
    { apply Z.ltb_lt. unfold Py.len.
      assert (Py.drop 4 (Py.lower (String c host)) <> "")
        as Hne%drop_nonempty by by rewrite Hvalid.
      lia. }
    rewrite Hlen. repeat split; try done.
    rewrite <- Hvalid, lower_drop. by rewrite lower_idem.
  - repeat split; try done. rewrite <- Hvalid. by rewrite lower_idem.
Qed.

(** X9 -- a URL without white space at its ends that [is_valid_url]
    accepts for a (non-empty) base domain parses, has the scheme http or
    https and a host, and [normalize_url] writes it from parts whose host
    is that base domain; the base domain is then in lower case, so a base
    domain with a capital letter accepts no URL.  (With white space at its
    ends the two functions read different strings: [normalize_url] strips
    its argument, [is_valid_url] does not.) *)
Theorem valid_url_is_on_the_base_domain (url d : string) :
  Py.strip url = url ->
  is_valid_url url (Some d) = true -> d <> "" ->
  exists parsed,
    urlparse url = Ret parsed
    /\ parsed.(scheme) ∈ ["http"; "https"]
    /\ parsed.(netloc) <> ""
    /\ normalize_url url = urlunparse (normalize_parts parsed)
    /\ (normalize_parts parsed).(netloc) = d
    /\ Py.lower d = d.
Proof.
  intros Hstrip Hvalid Hd.
  destruct (valid_url_host url d Hvalid Hd)
    as (parsed & Hp & Hs & Hn & Hhost & Hlow).
  exists parsed. repeat split; try done.
  unfold normalize_url. by rewrite Hstrip, Hp.
Qed.

End valid_urls.

Section valid_url_examples.
Import URLProcessor.

Lemma valid_url_is_on_the_base_domain_witness :
  exists parsed,
    urlparse (UrlLib := PyUrl.lib) "https://WWW.Example.com/a" = Ret parsed
    /\ parsed.(scheme) ∈ ["http"; "https"]
    /\ parsed.(netloc) <> ""
    /\ @normalize_url PyUrl.lib "https://WWW.Example.com/a"
       = urlunparse (UrlLib := PyUrl.lib) (normalize_parts parsed)
    /\ (normalize_parts parsed).(netloc) = "example.com"
    /\ Py.lower "example.com" = "example.com".
Proof.
  apply (valid_url_is_on_the_base_domain (H := PyUrl.lib)
           "https://WWW.Example.com/a" "example.com").
  - reflexivity.
  - vm_compute. reflexivity.
  - discriminate.
Defined.

(** Why the URL must have no white space at its ends: a host that ends in
    a blank is accepted for the base domain with that blank, while
    [normalize_url] strips the blank before it parses. *)
Example valid_url_with_trailing_blank :
  @is_valid_url PyUrl.lib "http://example.com " (Some "example.com ") = true
  /\ @normalize_url PyUrl.lib "http://example.com " = "http://example.com/".
Proof. vm_compute. split; reflexivity. Qed.

End valid_url_examples.

(** ** The words of a cleaned text ([ContentExtractor.clean_text]) *)

Section clean_text_words.
Import ContentExtractor ContentSpec.

Lemma split_cons_space (c : ascii) (s : string) :
  Py.isspace c = true -> Py.split (String c s) = Py.split s.
Proof.
  intros Hc. unfold Py.split. cbn [Py.split_aux].
  destruct (Py.split_aux s) as [w ws]. by rewrite Hc.
Qed.

Lemma split_aux_cons_word (c : ascii) (s : string) :
  Py.isspace c = false ->
  Py.split_aux (String c s)
  = (String c (Py.split_aux s).1, (Py.split_aux s).2).
Proof.
  intros Hc. cbn [Py.split_aux].
  destruct (Py.split_aux s) as [w ws]. by rewrite Hc.
Qed.

Lemma split_cons_word (c : ascii) (s : string) :
  Py.isspace c = false ->
  Py.split (String c s)
  = String c (Py.split_aux s).1 :: (Py.split_aux s).2.
Proof. intros Hc. unfold Py.split. by rewrite split_aux_cons_word. Qed.

Lemma split_lstrip (s : string) :
  Py.split (Py.lstrip_by Py.isspace s) = Py.split s.
Proof.
  induction s as [| c s IH]; [done |]. cbn [Py.lstrip_by].
  destruct (Py.isspace c) eqn:Hc; [| done].
  by rewrite IH, split_cons_space.
Qed.

Lemma split_aux_rstrip (s : string) :
  Py.split_aux (Py.rstrip_by Py.isspace s) = Py.split_aux s.
Proof.
  induction s as [| c s IH]; [done |]. cbn [Py.rstrip_by].
  destruct (Py.rstrip_by Py.isspace s) as [| c' r] eqn:Hr.
  - cbn [Py.split_aux] in *. rewrite <- IH.
    by destruct (Py.isspace c) eqn:Hc; [| cbn; rewrite Hc].
  - cbn [Py.split_aux] in *. by rewrite IH.
Qed.

Lemma split_strip (s : string) : Py.split (Py.strip s) = Py.split s.
Proof.
  unfold Py.strip. rewrite <- (split_lstrip s). unfold Py.split.
  by rewrite split_aux_rstrip.
Qed.

Lemma split_sub_ws_from (s : string) :
  Py.split_aux (Py.sub_ws_from false s) = Py.split_aux s
  /\ Py.split (Py.sub_ws_from true s) = Py.split s.
Proof.
  induction s as [| c s [IH1 IH2]]; [done |]. cbn [Py.sub_ws_from].
  destruct (Py.isspace c) eqn:Hc.
  - split; [| by rewrite split_cons_space]. cbn [Py.split_aux].
    unfold Py.split in IH2.
    destruct (Py.split_aux (Py.sub_ws_from true s)) as [w ws].
    destruct (Py.split_aux s) as [w' ws']. rewrite Hc. cbn.
    by rewrite IH2.
  - assert (Haux : Py.split_aux (String c (Py.sub_ws_from false s))
                   = Py.split_aux (String c s))
      by by rewrite !split_aux_cons_word, IH1.
    split; [done |]. unfold Py.split. by rewrite Haux.
Qed.

Lemma split_normalized (text : string) :
  Py.split (normalized text) = Py.split text.
Proof.
  unfold normalized, Py.sub_ws, Py.split.
  rewrite (proj1 (split_sub_ws_from _)). apply split_strip.
Qed.

Lemma rstrip_fixed_cons (c : ascii) (s : string) :
  Py.rstrip_by Py.isspace (String c s) = String c s ->
  (s = "" /\ Py.isspace c = false)
  \/ (s <> "" /\ Py.rstrip_by Py.isspace s = s).
Proof.
  cbn [Py.rstrip_by].
  destruct (Py.rstrip_by Py.isspace s) as [| c' r] eqn:Hr.
  - destruct (Py.isspace c); [done |]. intros [= <-]. by left.
  - intros [= <-]. by right.
Qed.

Lemma split_fixed_nonempty (s : string) :
  Py.rstrip_by Py.isspace s = s -> s <> "" -> Py.split s <> [].
Proof.
  induction s as [| c s IH]; [done |]. intros Hfix _.
  destruct (Py.isspace c) eqn:Hc; [| by rewrite split_cons_word].
  rewrite split_cons_space by done.
  apply rstrip_fixed_cons in Hfix as [[_ Hc'] | [Hne Hfix]]; [congruence |].
  by apply IH.
Qed.

(** On a text without trailing whitespace, [re.sub(r'\s+', ' ', s)] puts
    one space between the words (and one before them if the text starts
    with whitespace). *)
Lemma sub_ws_from_join (s : string) :
  Py.rstrip_by Py.isspace s = s ->
  Py.sub_ws_from true s = Py.join " " (Py.split s)
  /\ Py.sub_ws_from false s
     = match s with
       | String c _ => if Py.isspace c then " " else ""
       | EmptyString => ""
       end +:+ Py.join " " (Py.split s).
Proof.
  induction s as [| c s IH]; [done |]. intros Hfix.
  apply rstrip_fixed_cons in Hfix as [[-> Hc] | [Hne Hfix]].
  { cbn [Py.sub_ws_from]. rewrite Hc, split_cons_word by done. done. }
  destruct (IH Hfix) as [IHt IHf].
  pose proof (split_fixed_nonempty s Hfix Hne) as Hwords.
  cbn [Py.sub_ws_from]. destruct (Py.isspace c) eqn:Hc.
  - rewrite split_cons_space by done. rewrite IHt. done.
  - rewrite split_cons_word by done. rewrite IHf, str_app_nil_l.
    destruct s as [| c' s]; [done |].
    destruct (Py.isspace c') eqn:Hc'.
    + rewrite split_cons_space in * by done.
      unfold Py.split in *. cbn [Py.split_aux].
      destruct (Py.split_aux s) as [w ws]. rewrite Hc'. cbn [fst snd].
      destruct w; (destruct ws as [| x l]; [done |]); done.
    + rewrite split_cons_word by done. rewrite split_aux_cons_word by done.
      cbn [fst snd]. rewrite str_app_nil_l.
      by destruct (Py.split_aux s).2.
Qed.

Lemma lstrip_head (s : string) :
  match Py.lstrip_by Py.isspace s with
  | String c _ => Py.isspace c = false
  | EmptyString => True
  end.
Proof.
  induction s as [| c s IH]; [done |]. cbn [Py.lstrip_by].
  by destruct (Py.isspace c) eqn:Hc.
Qed.

Lemma strip_head (s : string) :
  match Py.strip s with
  | String c _ => Py.isspace c = false
  | EmptyString => True
  end.
Proof.
  unfold Py.strip. pose proof (lstrip_head s) as Hhead.
  destruct (Py.lstrip_by Py.isspace s) as [| c t]; [done |].
  cbn [Py.rstrip_by].
  destruct (Py.rstrip_by Py.isspace t); [| done].
  by rewrite Hhead.
Qed.

Lemma normalized_join (text : string) :
  normalized text = Py.join " " (Py.split text).
Proof.
  unfold normalized, Py.sub_ws.
  rewrite (proj2 (sub_ws_from_join (Py.strip text)
                    (rstrip_by_idem _ _))).
  rewrite split_strip. pose proof (strip_head text) as Hhead.
  destruct (Py.strip text); [done |]. by rewrite Hhead, str_app_nil_l.
Qed.

Lemma normalized_idem (text : string) :
  normalized (normalized text) = normalized text.
Proof.
  rewrite (normalized_join (normalized text)), split_normalized.
  symmetry. apply normalized_join.
Qed.

(** X10 -- [clean_text] returns either the empty string or the words of
    the text ([text.split()]) joined by single spaces; in the second case
    the cleaned text has the same words as the text; and cleaning a cleaned
    text changes nothing. *)
Theorem clean_text_joins_the_words (text : string) :
  (clean_text text = ""
   \/ (clean_text text = Py.join " " (Py.split text)
       /\ Py.split (clean_text text) = Py.split text))
  /\ clean_text (clean_text text) = clean_text text.
Proof.
  rewrite clean_text_cases. split.
  - destruct (boilerplate (normalized text)); [by left | right].
    split; [apply normalized_join | apply split_normalized].
  - destruct (boilerplate (normalized text)) eqn:Hb; [done |].
    by rewrite clean_text_cases, normalized_idem, Hb.
Qed.

End clean_text_words.

(** ** Headings, lists and tables ([extract_main_content]) *)

Section structure.
Import Html ContentExtractor ContentSpec.

(** The headings of one level, in document order. *)
Lemma headings_of_level (doc : soup) (lvl : string) (acc : list heading) :
  foldl (fun headings h =>
           let text := clean_text (get_text h) in
           if Py.nonempty text && (2 <=? Z.of_nat (length (Py.split text)))
           then headings ++ [mkHeading (level_of lvl) text lvl]
           else headings)
        acc (find_all [lvl] doc)
  = acc ++ List.filter
             (fun h => Py.nonempty (text h)
                       && (2 <=? Z.of_nat (length (Py.split (text h)))))
             (map (fun h => mkHeading (level_of lvl)
                                      (clean_text (get_text h)) lvl)
                  (find_all [lvl] doc)).
Proof.
  exact (foldl_append_filter
           (fun h => mkHeading (level_of lvl) (clean_text (get_text h)) lvl)
           (fun h => Py.nonempty (text h)
                     && (2 <=? Z.of_nat (length (Py.split (text h)))))
           (find_all [lvl] doc) acc).
Qed.

Lemma headings_block (doc : soup) (lvl : string) :
  Forall (fun h =>
            level h = level_of lvl /\ tag h = lvl
            /\ (exists e, e ∈ find_all [lvl] doc
                          /\ text h = clean_text (get_text e))
            /\ (2 <= length (Py.split (text h)))%nat)
    (List.filter
       (fun h => Py.nonempty (text h)
                 && (2 <=? Z.of_nat (length (Py.split (text h)))))
       (map (fun h => mkHeading (level_of lvl) (clean_text (get_text h)) lvl)
            (find_all [lvl] doc))).
Proof.
  apply Forall_forall. intros h Hh.
  apply list_elem_of_In, filter_In in Hh as [Hh Hok].
  apply in_map_iff in Hh as (e & <- & He). cbn [level tag text] in *.
  apply andb_true_iff in Hok as [_ Hwords%Z.leb_le].
  repeat split; [| lia]. exists e. split; [by apply list_elem_of_In | done].
Qed.

Lemma heading_test (text : string) :
  Py.nonempty text && (2 <=? Z.of_nat (length (Py.split text)))
  = heading_ok text.
Proof.
  unfold heading_ok. destruct text as [| c text]; [done |]. done.
Qed.

(** The headings, level by level: within a level they stand in the order
    of the document. *)
Lemma extract_headings_by_level (doc : soup) :
  extract_headings doc
  = flat_map
      (fun lvl =>
         map (fun t => mkHeading (level_of lvl) t lvl)
             (List.filter heading_ok
                (map (fun e => clean_text (get_text e))
                     (find_all [lvl] doc))))
      heading_tags.
Proof.
  unfold extract_headings, heading_tags. cbn [foldl flat_map].
  rewrite !headings_of_level. cbn [app]. rewrite app_nil_r, <- !app_assoc.
  assert (Hblock : forall lvl,
            List.filter
              (fun h => Py.nonempty (text h)
                        && (2 <=? Z.of_nat (length (Py.split (text h)))))
              (map (fun h => mkHeading (level_of lvl)
                                       (clean_text (get_text h)) lvl)
                   (find_all [lvl] doc))
            = map (fun t => mkHeading (level_of lvl) t lvl)
                  (List.filter heading_ok
                     (map (fun e => clean_text (get_text e))
                          (find_all [lvl] doc)))).
  { intros lvl. induction (find_all [lvl] doc) as [| e l IH]; [done |].
    cbn [map List.filter text]. rewrite heading_test, IH.
    by destruct (heading_ok _). }
  by rewrite !Hblock.
Qed.

(** X11 -- the headings that [extract_main_content] reports are grouped
    by level, all [h1] first and the [h6] last, and within one level they
    stand in the order of the document: the list is, level after level,
    the cleaned texts with at least two words of the elements of that
    level, in their order.  So the order of the document is kept only
    within one level; each heading has a level from 1 to 6 with the tag of
    that level. *)
Theorem headings_are_grouped_by_level (doc : soup) :
  extract_headings doc
  = flat_map
      (fun lvl =>
         map (fun t => mkHeading (level_of lvl) t lvl)
             (List.filter heading_ok
                (map (fun e => clean_text (get_text e))
                     (find_all [lvl] doc))))
      ["h1"; "h2"; "h3"; "h4"; "h5"; "h6"]
  /\ StronglySorted Z.le (map level (extract_headings doc))
  /\ Forall (fun h =>
       (level h, tag h) ∈ [(1, "h1"); (2, "h2"); (3, "h3");
                           (4, "h4"); (5, "h5"); (6, "h6")]
       /\ (exists e, e ∈ find_all [tag h] doc
                     /\ text h = clean_text (get_text e))
       /\ (2 <= length (Py.split (text h)))%nat)
     (extract_headings doc).
Proof.
  split; [apply extract_headings_by_level |].
  unfold extract_headings, heading_tags. cbn [foldl].
  rewrite !headings_of_level. cbn [app].
  pose proof (headings_block doc "h1") as H1.
  pose proof (headings_block doc "h2") as H2.
  pose proof (headings_block doc "h3") as H3.
  pose proof (headings_block doc "h4") as H4.
  pose proof (headings_block doc "h5") as H5.
  pose proof (headings_block doc "h6") as H6.
  revert H1 H2 H3 H4 H5 H6.
  generalize (List.filter
       (fun h => Py.nonempty (text h)
                 && (2 <=? Z.of_nat (length (Py.split (text h)))))
       (map (fun h => mkHeading (level_of "h1") (clean_text (get_text h)) "h1")
            (find_all ["h1"] doc))).
  generalize (List.filter
       (fun h => Py.nonempty (text h)
                 && (2 <=? Z.of_nat (length (Py.split (text h)))))
       (map (fun h => mkHeading (level_of "h2") (clean_text (get_text h)) "h2")
            (find_all ["h2"] doc))).
  generalize (List.filter
       (fun h => Py.nonempty (text h)
                 && (2 <=? Z.of_nat (length (Py.split (text h)))))
       (map (fun h => mkHeading (level_of "h3") (clean_text (get_text h)) "h3")
            (find_all ["h3"] doc))).
  generalize (List.filter
       (fun h => Py.nonempty (text h)
                 && (2 <=? Z.of_nat (length (Py.split (text h)))))
       (map (fun h => mkHeading (level_of "h4") (clean_text (get_text h)) "h4")
            (find_all ["h4"] doc))).
  generalize (List.filter
       (fun h => Py.nonempty (text h)
                 && (2 <=? Z.of_nat (length (Py.split (text h)))))
       (map (fun h => mkHeading (level_of "h5") (clean_text (get_text h)) "h5")
            (find_all ["h5"] doc))).
  generalize (List.filter
       (fun h => Py.nonempty (text h)
                 && (2 <=? Z.of_nat (length (Py.split (text h)))))
       (map (fun h => mkHeading (level_of "h6") (clean_text (get_text h)) "h6")
            (find_all ["h6"] doc))).
  intros b6 b5 b4 b3 b2 b1 H1 H2 H3 H4 H5 H6.
  assert (Hconst : forall (b : list heading) lvl (P : heading -> Prop),
            Forall (fun h => level h = level_of lvl /\ P h) b ->
            Forall (fun n => n = level_of lvl) (map level b)).
  { intros b lvl P Hb. apply Forall_fmap. eapply Forall_impl; [exact Hb |].
    by intros h [? _]. }
  apply Hconst in H1 as L1. apply Hconst in H2 as L2.
  apply Hconst in H3 as L3. apply Hconst in H4 as L4.
  apply Hconst in H5 as L5. apply Hconst in H6 as L6.
  change (level_of "h1") with 1 in *. change (level_of "h2") with 2 in *.
  change (level_of "h3") with 3 in *. change (level_of "h4") with 4 in *.
  change (level_of "h5") with 5 in *. change (level_of "h6") with 6 in *.
  assert (Hsorted : forall (l : list Z) n,
            Forall (fun m => m = n) l -> StronglySorted Z.le l).
  { intros l n Hl. induction Hl as [| m l -> Hl IH]; constructor; [done |].
    eapply Forall_impl; [exact Hl |]. intros ? ->. done. }
  split.
  - rewrite !map_app.
    repeat apply StronglySorted_app_2;
      try (by eapply Hsorted; eassumption);
      intros x1 x2 Hx1 Hx2;
      repeat (apply elem_of_app in Hx1 as [Hx1 | Hx1]);
      repeat match goal with
             | L : Forall _ ?l, Hx : _ ∈ ?l |- _ =>
                 apply (proj1 (Forall_forall _ _) L) in Hx
             end; lia.
  - repeat (apply Forall_app; split);
      (eapply Forall_impl; [eassumption |]);
      intros h (-> & -> & He & Hw); (split; [| done]);
      apply list_elem_of_In; cbn [In]; auto 10.
Qed.

Lemma foldl_length_le {A B : Type} (f : list B -> A -> list B)
    (l : list A) (acc : list B) :
  (forall acc x, (length (f acc x) <= S (length acc))%nat) ->
  (length (foldl f acc l) <= length acc + length l)%nat.
Proof.
  intros Hstep. revert acc.
  induction l as [| x l IH]; intros acc; cbn [foldl length]; [lia |].
  etrans; [apply IH |]. specialize (Hstep acc x). lia.
Qed.

Lemma list_items_nonempty (ul : node) :
  Forall (fun item => item <> "" /\ boilerplate item = false)
    (foldl (fun list_items li =>
              let item_text := clean_text (get_text li) in
              if Py.nonempty item_text then list_items ++ [item_text]
              else list_items)
           [] (find_all_in ["li"] ul)).
Proof.
  apply (foldl_invariant
           (Forall (fun item => item <> "" /\ boilerplate item = false)));
    [constructor |].
  intros acc li Hacc _. cbv zeta.
  destruct (clean_text (get_text li)) as [| c item] eqn:Htext; [done |].
  cbn [Py.nonempty]. apply Forall_app. split; [done |].
  apply Forall_singleton. split; [done |]. rewrite <- Htext.
  apply clean_text_not_boilerplate.
Qed.

(** X12 -- [extract_main_content] reports no empty list and no empty list
    item, and no empty table and no empty row: every list is a [ul] or an
    [ol] with at least one item, every item is a non-empty cleaned text,
    every table has at least one row and every row at least one cell (a
    cell may be the empty string). *)
Theorem lists_and_tables_are_not_empty (doc : soup) :
  Forall (fun l =>
            l.(list_type) ∈ ["ul"; "ol"] /\ l.(items) <> []
            /\ Forall (fun item => item <> "" /\ boilerplate item = false)
                      l.(items))
         (extract_lists doc)
  /\ (length (extract_lists doc) <= length (find_all ["ul"; "ol"] doc))%nat
  /\ Forall (fun rows => rows <> [] /\ Forall (fun cells => cells <> []) rows)
            (extract_tables doc)
  /\ (length (extract_tables doc) <= length (find_all ["table"] doc))%nat.
Proof.
  split; [| split; [| split]].
  - unfold extract_lists.
    apply (foldl_invariant
             (Forall (fun l =>
                l.(list_type) ∈ ["ul"; "ol"] /\ l.(items) <> []
                /\ Forall (fun item => item <> "" /\ boilerplate item = false)
                          l.(items)))); [constructor |].
    intros acc ul Hacc Hul. cbv zeta.
    pose proof (list_items_nonempty ul) as Hitems.
    destruct (foldl _ [] (find_all_in ["li"] ul)) as [| item rest] eqn:Hl;
      [done |].
    apply Forall_app. split; [done |]. apply Forall_singleton.
    cbn [list_type items]. split; [| done].
    apply list_elem_of_In, filter_In in Hul as [_ Htag].
    destruct ul as [| | t a cs]; try done. cbn in Htag |- *.
    by apply bool_decide_eq_true in Htag.
  - unfold extract_lists. apply (foldl_length_le _ _ []).
    intros acc ul. destruct (foldl _ [] (find_all_in ["li"] ul)); [lia |].
    rewrite length_app. cbn. lia.
  - unfold extract_tables.
    apply (foldl_invariant
             (Forall (fun rows =>
                rows <> [] /\ Forall (fun cells => cells <> []) rows)));
      [constructor |].
    intros acc table Hacc _.
    match goal with
    | |- context [match ?rows with [] => _ | _ => _ end] =>
        assert (Hrows : Forall (fun cells : list string => cells <> []) rows)
    end.
    { apply (foldl_invariant (Forall (fun cells : list string => cells <> [])));
        [constructor |].
      intros rows tr Hrows _.
      destruct (foldl _ [] (find_all_in ["td"; "th"] tr)) eqn:Hc; [done |].
      apply Forall_app. split; [done |]. by apply Forall_singleton. }
    destruct (foldl _ [] (find_all_in ["tr"] table)) eqn:Hr; [done |].
    apply Forall_app. split; [done |]. by apply Forall_singleton.
  - unfold extract_tables. apply (foldl_length_le _ _ []).
    intros acc table. destruct (foldl _ [] (find_all_in ["tr"] table)); [lia |].
    rewrite length_app. cbn. lia.
Qed.

End structure.

(** ** The tree after the chrome is removed ([extract_main_content]) *)

Section chrome.
Import Html ContentExtractor.

Lemma node_nested_ind (P : node -> Prop) :
  (forall s, P (Text s)) -> (forall s, P (Comment s)) ->
  (forall t a cs, Forall P cs -> P (Element t a cs)) ->
  forall n, P n.
Proof.
  intros Htext Hcomment Helement.
  fix IH 1. intros [s | s | t a cs]; [apply Htext | apply Hcomment |].
  apply Helement. induction cs as [| c cs IHcs]; constructor; [apply IH | done].
Qed.

Lemma descendants_element (t : string) (a : list (string * string))
    (cs : list node) :
  descendants (Element t a cs) = descendants_of cs.
Proof.
  cbn [descendants]. unfold descendants_of.
  induction cs as [| c cs IH]; [done |]. cbn [flat_map]. by rewrite IH.
Qed.

Lemma decompose_in_element (names : list string) (t : string)
    (a : list (string * string)) (cs : list node) :
  decompose_in names (Element t a cs) = Element t a (decompose_all names cs).
Proof.
  cbn [decompose_in].
  f_equal;
    try (induction cs as [| c cs IH];
         [done | cbn [decompose_all]; by rewrite IH]).
Qed.

Lemma extract_comments_in_element (t : string) (a : list (string * string))
    (cs : list node) :
  extract_comments_in (Element t a cs) = Element t a (extract_comments cs).
Proof.
  cbn [extract_comments_in].
  f_equal;
    try (induction cs as [| c cs IH];
         [done | cbn [extract_comments]; by rewrite IH]).
Qed.

Lemma decompose_in_kind (names names' : list string) (n : node) :
  is_tag names' (decompose_in names n) = is_tag names' n
  /\ is_comment (decompose_in names n) = is_comment n.
Proof. by destruct n. Qed.

Lemma extract_comments_in_kind (names : list string) (n : node) :
  is_tag names (extract_comments_in n) = is_tag names n
  /\ is_comment (extract_comments_in n) = is_comment n.
Proof. by destruct n. Qed.

(** Every node of the tree after [decompose] is what is left of a node of
    the tree before that is not one of the removed elements. *)
Lemma descendants_decompose_all (names : list string) (doc : soup)
    (d' : node) :
  d' ∈ descendants_of (decompose_all names doc) ->
  exists d, d ∈ descendants_of doc /\ d' = decompose_in names d
            /\ is_tag names d = false.
Proof.
  revert d'.
  assert (Hnode : forall n d',
            d' ∈ descendants (decompose_in names n) ->
            exists d, d ∈ descendants n /\ d' = decompose_in names d
                      /\ is_tag names d = false).
  { induction n as [s | s | t a cs IH] using node_nested_ind;
      intros d'; [by intros ?%elem_of_nil | by intros ?%elem_of_nil |].
    rewrite decompose_in_element, !descendants_element.
    induction IH as [| c cs Hc _ IHcs]; [by intros ?%elem_of_nil |].
    cbn [decompose_all]. unfold descendants_of in *.
    destruct (is_tag names c) eqn:Htag.
    - intros (d & Hd & Heq)%IHcs. exists d. split; [| done].
      cbn [flat_map]. apply elem_of_app. by right.
    - cbn [flat_map]. rewrite !elem_of_app, !elem_of_cons.
      intros [[-> | Hd] | Hd].
      + exists c. split; [| done]. apply elem_of_app. left. by left.
      + apply Hc in Hd as (d & Hd & Heq). exists d. split; [| done].
        apply elem_of_app. left. by right.
      + apply IHcs in Hd as (d & Hd & Heq). exists d. split; [| done].
        apply elem_of_app. by right. }
  induction doc as [| c doc IH]; intros d'; [by intros ?%elem_of_nil |].
  cbn [decompose_all]. unfold descendants_of in *.
  destruct (is_tag names c) eqn:Htag.
  - intros (d & Hd & Heq)%IH. exists d. split; [| done].
    cbn [flat_map]. apply elem_of_app. by right.
  - cbn [flat_map]. rewrite !elem_of_app, !elem_of_cons.
    intros [[-> | Hd] | Hd].
    + exists c. split; [| done]. apply elem_of_app. left. by left.
    + apply Hnode in Hd as (d & Hd & Heq). exists d. split; [| done].
      apply elem_of_app. left. by right.
    + apply IH in Hd as (d & Hd & Heq). exists d. split; [| done].
      apply elem_of_app. by right.
Qed.

Lemma descendants_extract_comments (doc : soup) (d' : node) :
  d' ∈ descendants_of (extract_comments doc) ->
  exists d, d ∈ descendants_of doc /\ d' = extract_comments_in d
            /\ is_comment d = false.
Proof.
  revert d'.
  assert (Hnode : forall n d',
            d' ∈ descendants (extract_comments_in n) ->
            exists d, d ∈ descendants n /\ d' = extract_comments_in d
                      /\ is_comment d = false).
  { induction n as [s | s | t a cs IH] using node_nested_ind;
      intros d'; [by intros ?%elem_of_nil | by intros ?%elem_of_nil |].
    rewrite extract_comments_in_element, !descendants_element.
    induction IH as [| c cs Hc _ IHcs]; [by intros ?%elem_of_nil |].
    cbn [extract_comments]. unfold descendants_of in *.
    destruct (is_comment c) eqn:Htag.
    - intros (d & Hd & Heq)%IHcs. exists d. split; [| done].
      cbn [flat_map]. apply elem_of_app. by right.
    - cbn [flat_map]. rewrite !elem_of_app, !elem_of_cons.
      intros [[-> | Hd] | Hd].
      + exists c. split; [| done]. apply elem_of_app. left. by left.
      + apply Hc in Hd as (d & Hd & Heq). exists d. split; [| done].
        apply elem_of_app. left. by right.
      + apply IHcs in Hd as (d & Hd & Heq). exists d. split; [| done].
        apply elem_of_app. by right. }
  induction doc as [| c doc IH]; intros d'; [by intros ?%elem_of_nil |].
  cbn [extract_comments]. unfold descendants_of in *.
  destruct (is_comment c) eqn:Htag.
  - intros (d & Hd & Heq)%IH. exists d. split; [| done].
    cbn [flat_map]. apply elem_of_app. by right.
  - cbn [flat_map]. rewrite !elem_of_app, !elem_of_cons.
    intros [[-> | Hd] | Hd].
    + exists c. split; [| done]. apply elem_of_app. left. by left.
    + apply Hnode in Hd as (d & Hd & Heq). exists d. split; [| done].
      apply elem_of_app. left. by right.
    + apply IH in Hd as (d & Hd & Heq). exists d. split; [| done].
      apply elem_of_app. by right.
Qed.

Lemma strip_chrome_clean (doc : soup) (d : node) :
  d ∈ descendants_of (strip_chrome doc) ->
  is_tag ["script"; "style"; "nav"; "footer"; "header"] d = false
  /\ is_comment d = false
  /\ exists d0, d0 ∈ descendants_of doc /\ name_of d = name_of d0.
Proof.
  intros (d1 & Hd1 & -> & Hc)%descendants_extract_comments.
  apply descendants_decompose_all in Hd1 as (d0 & Hd0 & -> & Ht).
  rewrite (proj1 (extract_comments_in_kind _ _)),
    (proj2 (extract_comments_in_kind [] _)),
    (proj1 (decompose_in_kind _ _ _)).
  rewrite (proj2 (decompose_in_kind _ [] _)) in Hc.
  split; [done |].
  split; [by rewrite (proj2 (decompose_in_kind _ [] _)) |].
  exists d0. split; [done |]. by destruct d0.
Qed.

(** X13 -- in the tree that [extract_main_content] reads the content from
    (and leaves behind for [extract_links]), no [script], [style], [nav],
    [footer] or [header] element and no comment is left at any depth; every
    node of it is what remains of a node of the parsed document with the
    same tag name. *)
Theorem no_chrome_is_left (doc : soup) :
  (forall d,
     d ∈ descendants_of (strip_chrome doc) ->
     is_tag ["script"; "style"; "nav"; "footer"; "header"] d = false
     /\ is_comment d = false
     /\ exists d0, d0 ∈ descendants_of doc /\ name_of d = name_of d0)
  /\ find_all ["script"; "style"; "nav"; "footer"; "header"]
              (strip_chrome doc) = []
  /\ (extract_main_content doc).1 = strip_chrome doc.
Proof.
  pose proof (strip_chrome_clean doc) as Hall.
  split; [exact Hall |]. split; [| done].
  unfold find_all.
  destruct (List.filter _ _) as [| d l] eqn:Hf; [done |].
  assert (Hd : In d (List.filter
                       (is_tag ["script"; "style"; "nav"; "footer"; "header"])
                       (descendants_of (strip_chrome doc))))
    by (rewrite Hf; by left).
  apply filter_In in Hd as [Hd%list_elem_of_In Htag].
  apply Hall in Hd as [Hno _]. congruence.
Qed.

End chrome.

(** ** The full quality score *)

Section full_score.
Import ContentExtractor EnhancedWebScraper.

(** X14 -- a page reaches the quality score 1.0 only with a title longer
    than 10 characters, main content longer than 200 characters, a heading,
    a paragraph, and a bonus for the text-to-HTML ratio (above 0.05): the
    five bonuses for title, text, headings and paragraphs alone sum, in
    floating point, to less than 1.0. *)
Theorem full_score_needs_the_density_bonus (c : content) (html_length : Z) :
  _calculate_quality_score c html_length = 1%float ->
  10 < Py.len c.(title)
  /\ 200 < Py.len c.(main_content)
  /\ c.(headings) <> []
  /\ c.(paragraphs) <> []
  /\ 0 < html_length
  /\ (PrimFloat.ltb 0.1 (truediv (Py.len c.(main_content)) html_length)
      || PrimFloat.ltb 0.05 (truediv (Py.len c.(main_content)) html_length))
     = true.
Proof.
  unfold _calculate_quality_score. rewrite title_test.
  destruct (10 <? Py.len (title c)) eqn:E1;
    destruct (500 <? Py.len (main_content c)) eqn:E2;
    destruct (200 <? Py.len (main_content c)) eqn:E3;
    destruct (100 <? Py.len (main_content c)) eqn:E4;
    destruct (headings c);
    (destruct (3 <? Z.of_nat (length (paragraphs c))) eqn:E5;
     [ apply three_lt_length_nil in E5 | ]);
    destruct (paragraphs c); try congruence;
    destruct (0 <? html_length) eqn:E6;
    try destruct (PrimFloat.ltb 0.1 (truediv _ _));
    try destruct (PrimFloat.ltb 0.05 (truediv _ _));
    intros E;
    first [ exfalso;
            apply (f_equal (fun x => PrimFloat.eqb x 1)) in E;
            vm_compute in E; discriminate E
          | repeat split; first [ done | lia ] ].
Qed.

End full_score.

Section full_score_examples.
Import ContentExtractor EnhancedWebScraper.

Lemma full_score_needs_the_density_bonus_witness :
  let c := mkContent "A title of some length"
             [mkHeading 1 "Two words" "h1"] ["a"; "b"; "c"; "d"] [] []
             (Demo.repeat_str 100 "lorem ipsum ") in
  10 < Py.len c.(title)
  /\ 200 < Py.len c.(main_content)
  /\ c.(headings) <> []
  /\ c.(paragraphs) <> []
  /\ 0 < 2000
  /\ (PrimFloat.ltb 0.1 (truediv (Py.len c.(main_content)) 2000)
      || PrimFloat.ltb 0.05 (truediv (Py.len c.(main_content)) 2000))
     = true.
Proof.
  intros c. apply (full_score_needs_the_density_bonus c 2000).
  vm_compute. reflexivity.
Defined.

End full_score_examples.

(** ** The round-based crawl: which URLs are fetched *)

Section round_crawl_invariants.
Import SimpleScraper CrawlSpec RoundSpec.
Context `{UrlLib} `{Web}.

Lemma startswith_refl (s : string) : Py.startswith s s = true.
Proof.
  unfold Py.startswith. induction s as [| c s IH]; [done |]. cbn.
  by destruct (ascii_dec c c).
Qed.

Lemma dispatch_spec (max_pages : Z) (scraped_pages : list page)
    (current_urls : list string) (visited_urls : gset string) :
  let r := dispatch max_pages scraped_pages current_urls visited_urls in
  NoDup r.2
  /\ (forall t, t ∈ r.2 -> t ∈ current_urls /\ t ∉ visited_urls)
  /\ (forall u, u ∈ r.1 <-> u ∈ visited_urls \/ u ∈ r.2).
Proof.
  cbv zeta. unfold dispatch.
  apply (foldl_invariant
           (fun r : gset string * list string =>
              NoDup r.2
              /\ (forall t, t ∈ r.2 -> t ∈ current_urls /\ t ∉ visited_urls)
              /\ (forall u, u ∈ r.1 <-> u ∈ visited_urls \/ u ∈ r.2))).
  - cbn [fst snd]. split; [apply NoDup_nil_2 |]. split.
    + by intros t ?%elem_of_nil.
    + intros u. split; [by left | by intros [? | ?%elem_of_nil]].
  - intros [seen tasks] u (Hnd & Hsub & Hseen) Hu. cbn [fst snd] in *.
    case_bool_decide as Hnew; cbn [negb andb]; [done |].
    destruct (_ <? _); [| done]. cbn [fst snd].
    split; [| split].
    + apply NoDup_app. repeat split; [done | | apply NoDup_singleton].
      intros t Ht ->%list_elem_of_singleton. apply Hnew, Hseen. by right.
    + intros t [Ht | ->%list_elem_of_singleton]%elem_of_app;
        [by apply Hsub |].
      split; [done |]. intros Hv. apply Hnew, Hseen. by left.
    + intros u0. rewrite elem_of_union, elem_of_singleton, Hseen,
        elem_of_app, list_elem_of_singleton. tauto.
Qed.

Lemma round_visited (base_url : string) (depth max_pages : Z)
    (include_images : bool) (current_depth : nat) (st : state) :
  (round base_url depth max_pages include_images current_depth st)
    .(visited_urls)
  = (dispatch max_pages st.(scraped_pages) st.(urls_to_visit)
              st.(visited_urls)).1.
Proof.
  unfold round. destruct (dispatch _ _ _ _) as [seen tasks].
  by destruct (collect _ _ _ _ _ _).
Qed.

Lemma wanted_links_prefix (base_url : string) (visited_urls : gset string)
    (p : page) :
  Forall (fun u => Py.startswith u base_url = true)
         (wanted_links base_url visited_urls p).
Proof.
  apply Forall_forall. intros u Hu.
  apply list_elem_of_In, filter_In in Hu as [_ Hu].
  by apply andb_true_iff in Hu as [[_ Hu]%andb_true_iff _].
Qed.

Lemma round_invariant (base_url : string) (depth max_pages : Z)
    (include_images : bool) (current_depth : nat) (st : state) :
  crawl_invariant base_url st ->
  crawl_invariant base_url
    (round base_url depth max_pages include_images current_depth st).
Proof.
  intros (Hnd & Hseen & Hpre & Hfront & Hpages).
  destruct (round_spec base_url depth max_pages include_images
              current_depth st) as (Hsp & Hd & Hu).
  pose proof (round_visited base_url depth max_pages include_images
                current_depth st) as Hv.
  destruct (dispatch_spec max_pages (scraped_pages st) (urls_to_visit st)
              (visited_urls st)) as (Hnd' & Hsub & Hseen').
  unfold crawl_invariant. rewrite Hsp, Hd, Hu, Hv.
  split; [| split; [| split; [| split]]].
  - apply NoDup_app. repeat split; [done | | done].
    intros u Hu1 Hu2. apply Hsub in Hu2 as [_ Hu2]. by apply Hu2, Hseen.
  - intros u. rewrite Hseen', Hseen, elem_of_app. tauto.
  - apply Forall_app. split; [done |]. apply Forall_forall.
    intros u [Hu1 _]%Hsub. by apply (proj1 (Forall_forall _ _) Hfront).
  - destruct (_ && _); [| constructor].
    apply Forall_flat_map, Forall_forall. intros p _.
    apply wanted_links_prefix.
  - by rewrite map_app, omap_app, Hpages.
Qed.

Lemma rounds_invariant (base_url : string) (depth max_pages : Z)
    (include_images : bool) (range : list nat) (st : state) :
  crawl_invariant base_url st ->
  crawl_invariant base_url
    (rounds base_url depth max_pages include_images range st).
Proof.
  revert st. induction range as [| current_depth range IH]; intros st Hinv;
    [done |].
  cbn [rounds]. destruct (_ || _); [done |].
  by apply IH, round_invariant.
Qed.

Lemma crawl_invariant_holds (url : string) (depth max_pages : Z)
    (include_images : bool) :
  crawl_invariant url (crawl url depth max_pages include_images).
Proof.
  apply rounds_invariant. unfold crawl_invariant.
  cbn [dispatched visited_urls urls_to_visit scraped_pages map].
  split; [apply NoDup_nil_2 |].
  split; [intros u; split;
          [by intros ?%elem_of_empty | by intros ?%elem_of_nil] |].
  split; [constructor |].
  split; [apply Forall_singleton, startswith_refl | done].
Qed.

Lemma scrape_single_page_url (target : string) (p : page) :
  scrape_single_page target = Page p -> url p = target.
Proof.
  unfold scrape_single_page.
  destruct (http_get target) as [| e | e | r]; try done.
  destruct (negb _); [done |].
  destruct (extract_images _ _); [| done]. by intros [= <-].
Qed.

Lemma page_urls_sublist (l : list string) :
  map url (omap page_of (map scrape_single_page l)) `sublist_of` l.
Proof.
  induction l as [| t l IH]; [done |]. cbn [map omap list_omap].
  destruct (scrape_single_page t) as [p | e u | e] eqn:Hp; cbn [page_of].
  - cbn [map]. rewrite (scrape_single_page_url _ _ Hp).
    by apply sublist_skip.
  - by apply sublist_cons.
  - by apply sublist_cons.
Qed.

(** X15 -- the round-based crawl never creates two tasks for one URL, and
    every URL it fetches starts with the seed URL (as a string: the seed
    itself, or a link that has the seed as a prefix); the pages of the job
    have pairwise distinct URLs, which are fetched URLs in the order of
    their fetch. *)
Theorem crawl_fetches_each_url_once_under_the_seed (url : string)
    (depth max_pages : Z) (include_images : bool) :
  let st := crawl url depth max_pages include_images in
  let job := scrape_website_async url depth max_pages include_images in
  NoDup st.(dispatched)
  /\ Forall (fun u => Py.startswith u url = true) st.(dispatched)
  /\ map SimpleScraper.url job.(pages) `sublist_of` st.(dispatched)
  /\ NoDup (map SimpleScraper.url job.(pages)).
Proof.
  cbv zeta.
  destruct (crawl_invariant_holds url depth max_pages include_images)
    as (Hnd & _ & Hpre & _ & Hpages).
  cbn [pages scrape_website_async]. rewrite Hpages.
  repeat split; [done | done | apply page_urls_sublist |].
  eapply sublist_NoDup; [exact Hnd | apply page_urls_sublist].
Qed.

(** X16 -- a crawl with [depth <= 0] or [max_pages <= 0] fetches nothing;
    otherwise, with [depth = 1] or with [include_images] false (the default
    of the API request), it fetches the seed and nothing else: in
    src/test_api.py links are followed only when images were asked for. *)
Theorem crawl_follows_links_only_with_images (url : string)
    (depth max_pages : Z) (include_images : bool) :
  let st := crawl url depth max_pages include_images in
  (depth <= 0 \/ max_pages <= 0 ->
   st.(dispatched) = [] /\ st.(scraped_pages) = [])
  /\ (0 < depth -> 0 < max_pages ->
      depth = 1 \/ include_images = false ->
      st.(dispatched) = [url]
      /\ st.(scraped_pages) = omap page_of [scrape_single_page url]).
Proof.
  cbv zeta. unfold crawl. split.
  - intros Hnone.
    destruct (Z.to_nat depth) as [| n] eqn:En; [done |].
    cbn [seq rounds urls_to_visit scraped_pages length].
    replace (max_pages <=? Z.of_nat 0) with true
      by (symmetry; apply Z.leb_le; lia).
    by rewrite orb_true_r.
  - intros Hdepth Hmax Hflat.
    destruct (Z.to_nat depth) as [| n] eqn:En; [lia |].
    cbn [seq rounds urls_to_visit scraped_pages length].
    replace (max_pages <=? Z.of_nat 0) with false
      by (symmetry; apply Z.leb_gt; lia).
    rewrite bool_decide_eq_false_2 by done. cbn [orb].
    destruct (round_spec url depth max_pages include_images 0
                (mkState [] ∅ [url] [])) as (Hsp & Hd & Hu).
    assert (Htasks : (dispatch max_pages [] [url] ∅).2 = [url]).
    { unfold dispatch. cbn [foldl length].
      rewrite bool_decide_eq_false_2 by apply not_elem_of_empty.
      replace (Z.of_nat 0 <? max_pages) with true
        by (symmetry; apply Z.ltb_lt; lia).
      done. }
    cbn [scraped_pages urls_to_visit visited_urls dispatched] in Hsp, Hd, Hu.
    rewrite Htasks in Hsp, Hd, Hu.
    replace ((Z.of_nat 0 <? depth - 1) && include_images) with false in Hu.
    2:{ destruct Hflat as [-> | ->]; [done | by rewrite andb_false_r]. }
    destruct (seq 1 n) as [| c range]; cbn [rounds]; [by rewrite Hsp, Hd |].
    rewrite Hu, bool_decide_eq_true_2 by done. cbn [orb].
    by rewrite Hsp, Hd.
Qed.

Lemma startswith_https (s : string) :
  Py.startswith s "https" = true -> Py.startswith s "http" = true.
Proof.
  unfold Py.startswith.
  destruct s as [| c1 [| c2 [| c3 [| c4 s]]]]; cbn [String.prefix];
    try done; repeat (destruct (ascii_dec _ _); try done).
  by destruct s.
Qed.

(** The lists of a page and their counts. *)
Lemma page_lists_are_cut_bounds (target : string) (p : page) :
  scrape_single_page target = Page p ->
  Z.of_nat (length p.(headings)) = Z.min 20 p.(headings_count)
  /\ Z.of_nat (length p.(paragraphs)) = Z.min 50 p.(paragraphs_count)
  /\ Z.of_nat (length p.(links)) = Z.min 100 p.(links_count)
  /\ Z.of_nat (length p.(images)) = Z.min 50 p.(images_count).
Proof.
  unfold scrape_single_page.
  destruct (http_get target) as [| e | e | r]; try done.
  destruct (negb _); [done |].
  destruct (extract_images _ _) as [imgs |]; [| done]. intros [= <-].
  cbn [headings paragraphs links images
       headings_count paragraphs_count links_count images_count].
  rewrite !length_take. lia.
Qed.

(** X17 -- a page that [scrape_single_page] returns carries the URL it was
    asked for and comes from a response with status 200; its lists are cut
    to 20 headings, 50 paragraphs, 100 links and 50 images while the
    [..._count] fields count the lists before the cut; every link is
    absolute (its [href] starts with "http") with a text of at most 100
    characters, and every paragraph is longer than 20 characters. *)
Theorem page_lists_are_cut_after_counting (target : string) (p : page) :
  scrape_single_page target = Page p ->
  SimpleScraper.url p = target
  /\ (exists r, http_get target = NetResponse r /\ r.(status) = 200
                /\ content_length p = Py.len r.(body))
  /\ Z.of_nat (length p.(headings)) = Z.min 20 p.(headings_count)
  /\ Z.of_nat (length p.(paragraphs)) = Z.min 50 p.(paragraphs_count)
  /\ Z.of_nat (length p.(links)) = Z.min 100 p.(links_count)
  /\ Z.of_nat (length p.(images)) = Z.min 50 p.(images_count)
  /\ Forall (fun l => Py.startswith l.(link_url) "http" = true
                      /\ Py.len l.(link_text) <= 100) p.(links)
  /\ Forall (fun t => 20 < Py.len t) p.(paragraphs).
Proof.
  unfold scrape_single_page.
  destruct (http_get target) as [| e | e | r]; try done.
  case_bool_decide as Hstatus; cbn [negb]; [| done].
  destruct (extract_images _ _) as [imgs |]; [| done]. intros [= <-].
  cbn [SimpleScraper.url content_length headings paragraphs links images
       headings_count paragraphs_count links_count images_count].
  split; [done |]. split; [by exists r |].
  rewrite !length_take.
  split; [lia |]. split; [lia |]. split; [lia |]. split; [lia |]. split.
  - apply Forall_take. unfold extract_links.
    apply (foldl_invariant
             (Forall (fun l => Py.startswith l.(link_url) "http" = true
                               /\ Py.len l.(link_text) <= 100)));
      [constructor |].
    intros acc a Hacc _. cbv zeta.
    destruct (Py.nonempty (Html.get_or_empty "href" a)); [| done].
    cbn [andb].
    destruct (Py.startswith (Html.get_or_empty "href" a) "http") eqn:Hhttp.
    + apply Forall_app. split; [done |]. apply Forall_singleton.
      cbn [link_url link_text]. split; [done |].
      unfold Py.len. rewrite take_length. lia.
    + cbn [orb].
      destruct (Py.startswith (Html.get_or_empty "href" a) "https") eqn:Hs;
        [| done].
      apply startswith_https in Hs. congruence.
  - apply Forall_take. unfold extract_paragraphs.
    apply (foldl_invariant (Forall (fun t => 20 < Py.len t)));
      [constructor |].
    intros acc el Hacc _. cbv zeta.
    destruct (Py.nonempty _); [| done]. cbn [andb].
    destruct (20 <? _) eqn:Hlen; [| done].
    apply Forall_app. split; [done |]. apply Forall_singleton. lia.
Qed.

Lemma sum_of_bound {A : Type} (f : A -> Z) (c : Z) (l : list A) :
  Forall (fun x => 0 <= f x <= c) l ->
  0 <= sum_of f l <= c * Z.of_nat (length l).
Proof.
  unfold sum_of.
  assert (Hgen : forall acc,
            Forall (fun x => 0 <= f x <= c) l ->
            acc <= foldl (fun acc x => acc + f x) acc l
            <= acc + c * Z.of_nat (length l)).
  { induction l as [| x l IH]; intros acc Hl; cbn [foldl length]; [lia |].
    apply Forall_cons in Hl as [Hx Hl]. specialize (IH (acc + f x) Hl).
    lia. }
  intros Hl. specialize (Hgen 0 Hl). lia.
Qed.

Lemma sum_of_le {A : Type} (f g : A -> Z) (l : list A) :
  Forall (fun x => f x <= g x) l -> sum_of f l <= sum_of g l.
Proof.
  unfold sum_of.
  assert (Hgen : forall a b,
            a <= b -> Forall (fun x => f x <= g x) l ->
            foldl (fun acc x => acc + f x) a l
            <= foldl (fun acc x => acc + g x) b l).
  { induction l as [| x l IH]; intros a b Hab Hl; cbn [foldl]; [done |].
    apply Forall_cons in Hl as [Hx Hl]. apply IH; [lia | done]. }
  intros Hl. by apply Hgen.
Qed.

(** X18 -- the summary of a job adds up the lists of the pages after their
    cut, not the [..._count] fields: with [n] pages scraped, the totals are
    at most [20 n] headings, [50 n] paragraphs, [100 n] links and [50 n]
    images, and never exceed the sums of the counts. *)
Theorem summary_adds_up_the_cut_lists (url : string) (depth max_pages : Z)
    (include_images : bool) :
  let job := scrape_website_async url depth max_pages include_images in
  let s := job.(job_summary) in
  0 <= s.(total_headings) <= 20 * job.(pages_scraped)
  /\ 0 <= s.(total_paragraphs) <= 50 * job.(pages_scraped)
  /\ 0 <= s.(total_links) <= 100 * job.(pages_scraped)
  /\ 0 <= s.(total_images) <= 50 * job.(pages_scraped)
  /\ s.(total_headings) <= sum_of headings_count job.(pages)
  /\ s.(total_paragraphs) <= sum_of paragraphs_count job.(pages)
  /\ s.(total_links) <= sum_of links_count job.(pages)
  /\ s.(total_images) <= sum_of images_count job.(pages).
Proof.
  cbv zeta.
  cbn [scrape_website_async job_summary pages pages_scraped total_headings
       total_paragraphs total_links total_images].
  destruct (crawl_invariant_holds url depth max_pages include_images)
    as (_ & _ & _ & _ & Hpages).
  assert (Hall : Forall (fun p => exists target,
                           scrape_single_page target = Page p)
                   (scraped_pages (crawl url depth max_pages include_images))).
  { rewrite Hpages. apply Forall_forall. intros p Hp.
    apply list_elem_of_omap in Hp as (r & Hr & Hp).
    apply list_elem_of_fmap in Hr as (target & -> & _).
    exists target.
    destruct (scrape_single_page target) as [p' | |]; [| done..].
    by injection Hp as ->. }
  do 4 (split; [apply sum_of_bound; (eapply Forall_impl; [exact Hall |]);
                intros p [target Hp%page_lists_are_cut_bounds]; lia |]).
  repeat split; apply sum_of_le; (eapply Forall_impl; [exact Hall |]);
    intros p [target Hp%page_lists_are_cut_bounds]; lia.
Qed.

End round_crawl_invariants.

Section round_crawl_invariant_examples.
Import SimpleScraper.

Lemma page_lists_are_cut_after_counting_witness :
  exists p,
    @scrape_single_page PyUrl.lib Demo.example_com "https://example.com/"
    = Page p
    /\ SimpleScraper.url p = "https://example.com/"
    /\ Z.of_nat (length p.(links)) = Z.min 100 p.(links_count)
    /\ Forall (fun l => Py.startswith l.(link_url) "http" = true
                        /\ Py.len l.(link_text) <= 100) p.(links).
Proof.
  destruct (@scrape_single_page PyUrl.lib Demo.example_com
              "https://example.com/") as [p | |] eqn:E;
    try (by vm_compute in E).
  exists p. split; [reflexivity |].
  destruct (page_lists_are_cut_after_counting (H := PyUrl.lib)
              (H0 := Demo.example_com) _ _ E)
    as (Hu & _ & _ & _ & Hl & _ & Hlinks & _).
  by repeat split.
Defined.

End round_crawl_invariant_examples.

(** ** The queue-based crawl: the job as a whole *)

Section queue_crawl_invariants.
Import MainApi CrawlSpec QueueSpec.
Context `{UrlLib} `{Web}.

Lemma loop_fuel_mono (fuel k : nat) (depth max_pages : Z) (st : state)
    (r : exn state) :
  loop fuel depth max_pages st = Some r ->
  loop (fuel + k) depth max_pages st = Some r.
Proof.
  revert st. induction fuel as [| fuel IH]; intros st; [done |].
  cbn [loop Nat.add]. destruct (_ || _); [done |].
  destruct (iteration depth st); [apply IH | done].
Qed.

(** The two ways through one turn of the loop. *)
Lemma iteration_cases (depth : Z) (st st' : state) (current_url : string)
    (queue : list string) :
  st.(urls_to_scrape) = current_url :: queue ->
  iteration depth st = Ret st' ->
  (current_url ∈ st.(visited_urls)
   /\ st' = mkState st.(scraped_pages) queue st.(visited_urls))
  \/ ((current_url ∉ st.(visited_urls))
      /\ st'.(visited_urls) = st.(visited_urls) ∪ {[current_url]}
      /\ exists page,
           url page = current_url
           /\ st'.(scraped_pages) = st.(scraped_pages) ++ [page]).
Proof.
  unfold iteration. intros ->.
  case_bool_decide as Hseen; [intros [= <-]; by left |].
  destruct (urlopen current_url) as [html |]; [| done].
  cbn [mbind exn_bind].
  destruct (extract_links _ _ _ _ _ _) as [[links queue'] |]; [| done].
  cbn [mbind exn_bind].
  destruct (extract_images _ _); [| done]. cbn [mbind exn_bind].
  intros [= <-]. right. cbn [visited_urls scraped_pages].
  split; [done |]. split; [done |].
  eexists. split; [| reflexivity]. reflexivity.
Qed.

Lemma iteration_invariant (seed : string) (depth : Z) (st st' : state) :
  st.(urls_to_scrape) <> [] ->
  iteration depth st = Ret st' ->
  queue_invariant seed st -> queue_invariant seed st'.
Proof.
  intros Hq Hit (Hfirst & Hnd & Hvis & Hpages & Hqueue).
  destruct (urls_to_scrape st) as [| current_url queue] eqn:Hqueue';
    [done |].
  apply Forall_cons in Hqueue as [Hcur Hrest].
  pose proof (iteration_queue depth st st' Hit) as (added & Hq' & Hadded).
  rewrite Hqueue' in Hq', Hadded. cbn [tail head] in Hq', Hadded.
  destruct (iteration_cases depth st st' current_url queue Hqueue' Hit)
    as [[Hseen ->] | (Hnew & Hv & page & Hurl & Hp)].
  - split; [| done]. cbn [scraped_pages urls_to_scrape visited_urls].
    intros Hnil. destruct (Hfirst Hnil) as [_ Hempty].
    rewrite Hempty in Hseen. by apply elem_of_empty in Hseen.
  - unfold queue_invariant. rewrite Hp, Hv, Hq', map_app. cbn [map].
    rewrite Hurl. split; [by destruct (scraped_pages st) |].
    split; [| split; [| split]].
    + apply NoDup_app. repeat split; [done | | apply NoDup_singleton].
      intros u Hu ->%list_elem_of_singleton. by apply Hnew, Hvis.
    + intros u [Hu | ->%list_elem_of_singleton]%elem_of_app.
      * apply elem_of_union_l. by apply Hvis.
      * apply elem_of_union_r. by apply elem_of_singleton.
    + apply Forall_app. split; [done | by apply Forall_singleton].
    + apply Forall_app. split; [done |].
      eapply Forall_impl; [exact Hadded |].
      intros u (Hnil & _ & c & [= <-] & Hhost).
      destruct (Hfirst Hnil) as [[= -> _] _]. by right.
Qed.

Lemma loop_invariant (seed : string) (fuel : nat) (depth max_pages : Z)
    (st st' : state) :
  loop fuel depth max_pages st = Some (Ret st') ->
  queue_invariant seed st -> queue_invariant seed st'.
Proof.
  revert st. induction fuel as [| fuel IH]; intros st; [done |].
  cbn [loop].
  destruct (bool_decide _ || (max_pages <=? _)) eqn:Hguard.
  { by intros [= <-]. }
  apply orb_false_elim in Hguard as [Hq%bool_decide_eq_false _].
  destruct (iteration depth st) as [st1 | e] eqn:Hit; [| done].
  intros Hrun Hinv. apply (IH st1 Hrun).
  by apply (iteration_invariant seed depth st).
Qed.

(** X19 -- the crawl of [scrape_enhanced] ends, and more turns than it
    needs change nothing; a job that completes holds at most [max_pages]
    pages (none for [max_pages <= 0]), its summary counts them, its pages
    have pairwise distinct URLs, and each page is the seed or on the host
    of the seed. *)
Theorem scrape_enhanced_ends_within_its_page_limit (seed : string)
    (depth max_pages : Z) :
  exists fuel o,
    (forall fuel', (fuel <= fuel')%nat ->
       scrape_enhanced fuel' seed depth max_pages = Some o)
    /\ forall pages s,
         o = Completed pages s ->
         Z.of_nat (length pages) <= Z.max 0 max_pages
         /\ s = summarize pages
         /\ s.(total_pages) = Z.of_nat (length pages)
         /\ NoDup (map url pages)
         /\ Forall (on_seed_host seed) (map url pages).
Proof.
  destruct (loop_terminates seed depth max_pages) as (fuel & r & Hloop).
  exists fuel.
  exists (match r with
          | Ret st => Completed st.(scraped_pages)
                                (summarize st.(scraped_pages))
          | Raise e => Failed ("Enhanced scraping failed: " +:+ e)
          end).
  split.
  - intros fuel' Hle. unfold scrape_enhanced.
    replace fuel' with (fuel + (fuel' - fuel))%nat by lia.
    rewrite (loop_fuel_mono _ _ _ _ _ _ Hloop). by destruct r.
  - intros pages s Ho. destruct r as [st | e]; [| done].
    injection Ho as <- <-.
    assert (Hinit : queue_invariant seed (mkState [] [seed] ∅)).
    { unfold queue_invariant. cbn [scraped_pages urls_to_scrape
        visited_urls map].
      split; [done |]. split; [apply NoDup_nil_2 |].
      split; [by intros u ?%elem_of_nil |]. split; [constructor |].
      apply Forall_singleton. by left. }
    destruct (loop_invariant seed _ _ _ _ _ Hloop Hinit)
      as (_ & Hnd & _ & Hpages & _).
    repeat split; try done.
    destruct (Z.le_gt_cases 0 max_pages) as [Hpos | Hneg].
    + rewrite Z.max_r by done.
      apply (loop_page_cap _ _ _ _ _ Hloop). cbn. lia.
    + rewrite Z.max_l by lia. revert Hloop.
      destruct fuel as [| fuel]; [done |]. cbn [loop scraped_pages length].
      replace (max_pages <=? Z.of_nat 0) with true
        by (symmetry; apply Z.leb_le; lia).
      rewrite orb_true_r. by intros [= <-].
Qed.

(** The depth of a request matters only as "above 1 or not". *)
Lemma loop_depth (fuel : nat) (depth depth' max_pages : Z) (st : state) :
  (1 <? depth) = (1 <? depth') ->
  loop fuel depth max_pages st = loop fuel depth' max_pages st.
Proof.
  intros Hd. revert st. induction fuel as [| fuel IH]; intros st; [done |].
  cbn [loop]. destruct (_ || _); [done |].
  assert (Hit : iteration depth st = iteration depth' st).
  { unfold iteration, extract_links, wants_link. by rewrite Hd. }
  rewrite Hit. destruct (iteration depth' st); [apply IH | done].
Qed.

(** X20 -- the answer of [scrape_enhanced] depends on the requested depth
    only through the test [depth > 1]: every depth above 1 gives the answer
    of depth 2 (links are taken from the first page only), and every depth
    of at most 1 gives the answer of depth 1. *)
Theorem scrape_enhanced_has_two_depths (fuel : nat) (seed : string)
    (depth max_pages : Z) :
  scrape_enhanced fuel seed depth max_pages
  = scrape_enhanced fuel seed (if 1 <? depth then 2 else 1) max_pages.
Proof.
  unfold scrape_enhanced.
  rewrite (loop_depth fuel depth (if 1 <? depth then 2 else 1)); [done |].
  by destruct (1 <? depth).
Qed.

(** X21 -- when the seed cannot be fetched ([urlopen] raises), a job with
    [max_pages >= 1] fails with the message "Enhanced scraping failed: "
    followed by the text of the exception, and returns no page. *)
Theorem scrape_enhanced_fails_with_the_seed (fuel : nat) (seed : string)
    (depth max_pages : Z) (e : string) :
  0 < max_pages -> urlopen seed = Raise e ->
  scrape_enhanced (S fuel) seed depth max_pages
  = Some (Failed ("Enhanced scraping failed: " +:+ e)).
Proof.
  intros Hmax Hopen. unfold scrape_enhanced.
  cbn [loop urls_to_scrape scraped_pages length].
  rewrite bool_decide_eq_false_2 by done.
  replace (max_pages <=? Z.of_nat 0) with false
    by (symmetry; apply Z.leb_gt; lia).
  cbn [orb]. unfold iteration. cbn [urls_to_scrape visited_urls].
  rewrite bool_decide_eq_false_2 by apply not_elem_of_empty.
  by rewrite Hopen.
Qed.

End queue_crawl_invariants.

Section queue_crawl_invariant_examples.
Import MainApi.

Lemma scrape_enhanced_fails_with_the_seed_witness :
  @scrape_enhanced PyUrl.lib Demo.gone_com 1 "https://gone.example/" 2 10
  = Some (Failed ("Enhanced scraping failed: "
                  +:+ "HTTP Error 404: Not Found")).
Proof.
  apply (scrape_enhanced_fails_with_the_seed (H := PyUrl.lib)
           (H0 := Demo.gone_com) 0 "https://gone.example/" 2 10).
  - lia.
  - vm_compute. reflexivity.
Defined.

End queue_crawl_invariant_examples.

Section enhanced_link_examples.
Import Html ContentExtractor EnhancedWebScraper.

Lemma extract_links_are_distinct_and_classified_witness :
  exists links,
    extract_links (H := PyUrl.lib) Demo.seed_page "https://example.com/"
    = Ret links
    /\ map link_url links
       = ["https://example.com/a"; "https://example.com/b";
          "https://example.com/c"]
    /\ NoDup (map link_url links)
    /\ (length links <= length (find_all ["a"] Demo.seed_page))%nat.
Proof.
  destruct (extract_links (H := PyUrl.lib) Demo.seed_page
              "https://example.com/") as [links |] eqn:E;
    [| by vm_compute in E].
  exists links. split; [reflexivity |].
  destruct (extract_links_are_distinct_and_classified (H := PyUrl.lib)
              _ _ _ E) as (Hnd & Hlen & _).
  split; [| by split].
  clear Hnd Hlen. vm_compute in E. injection E as <-. reflexivity.
Defined.

End enhanced_link_examples.

(** ** Structured data of a scraped page *)

Section structured_data.
Import Html ContentExtractor StructuredData.
Context `{Json}.

Lemma filter_none {A : Type} (f : A -> bool) (l : list A) :
  (forall x, x ∈ l -> f x = false) -> List.filter f l = [].
Proof.
  induction l as [| x l IH]; intros Hall; [done |]. cbn [List.filter].
  rewrite (Hall x) by left. apply IH. intros y Hy. apply Hall. by right.
Qed.

Lemma no_script_is_left (doc : soup) :
  json_ld_scripts (strip_chrome doc) = [].
Proof.
  unfold json_ld_scripts, find_all.
  rewrite (filter_none (is_tag ["script"])); [done |].
  intros d [Hd _]%strip_chrome_clean.
  destruct d as [| | t a cs]; try done. cbn in Hd |- *.
  apply bool_decide_eq_false in Hd. apply bool_decide_eq_false.
  intros ->%list_elem_of_singleton. apply Hd. by left.
Qed.

Lemma extract_json_ld_raises (scripts : list node)
    (acc : exn (list json_value)) :
  (exists script, script ∈ scripts /\ string_of script = None) ->
  exists e,
    foldl (fun (acc : exn (list json_value)) script =>
      json_ld_data ← acc;
      match string_of script with
      | None =>
          Raise "the JSON object must be str, bytes or bytearray, not NoneType"
      | Some s =>
          match json_loads s with
          | Loaded data => Ret (json_ld_data ++ [data])
          | JSONDecodeError => Ret json_ld_data
          | LoadError e => Raise e
          end
      end) acc scripts = Raise e.
Proof.
  match goal with |- context [foldl ?f _ _] => set (step := f) end.
  assert (Hraised : forall l e, foldl step (Raise e) l = Raise e).
  { induction l as [| x l IH]; intros e; [done | apply IH]. }
  revert acc. induction scripts as [| x l IH]; intros acc (script & Hin & Hs).
  { by apply elem_of_nil in Hin. }
  cbn [foldl]. destruct acc as [data | e]; [| by exists e; apply Hraised].
  apply elem_of_cons in Hin as [<- | Hin].
  - unfold step at 2. cbn [mbind exn_bind]. rewrite Hs.
    eexists. apply Hraised.
  - apply IH. by exists script.
Qed.

(** X22 -- the [structured_data] of a result of [scrape_url] never holds
    JSON-LD data: [extract_main_content] has removed every [script] element
    from the tree before [extract_structured_data] reads it (and so the
    call does not raise there); called on a parsed tree, the function
    raises (a [TypeError] of [json.loads], or an earlier exception) as soon
    as one JSON-LD [script] element has no single string below it. *)
Theorem json_ld_is_lost_after_content_extraction (doc : soup) :
  (exists data,
     structured_data_of_page doc = Ret data /\ data.(json_ld) = []
     /\ data.(open_graph)
        = extract_prefixed "property" "og:" 3 (extract_main_content doc).1)
  /\ ((exists script,
         script ∈ json_ld_scripts doc /\ string_of script = None) ->
      exists e, extract_structured_data doc = Raise e).
Proof.
  split.
  - unfold structured_data_of_page, extract_structured_data,
      extract_json_ld.
    change (extract_main_content doc).1 with (strip_chrome doc).
    rewrite no_script_is_left. cbn [foldl mbind exn_bind].
    by eexists.
  - intros Hnone. unfold extract_structured_data, extract_json_ld.
    destruct (extract_json_ld_raises (json_ld_scripts doc) (Ret []) Hnone)
      as [e ->].
    by exists e.
Qed.

End structured_data.

(** ** The task store *)

Section task_store.
Import TaskApi TaskSpec.
Context `{UrlLib} `{Web}.

Lemma update_task_other (id : string) (f : task -> task) (st st' : store)
    (id' : string) :
  update_task id f st = Some st' -> id' <> id ->
  st'.(task_status) !! id' = st.(task_status) !! id'
  /\ st'.(scraping_results) = st.(scraping_results).
Proof.
  unfold update_task. destruct (task_status st !! id) as [t |]; [| done].
  cbn [mbind option_bind]. intros [= <-] Hne. cbn [task_status
    scraping_results].
  by rewrite lookup_insert_ne.
Qed.

Lemma update_task_same (id : string) (f : task -> task) (st st' : store) :
  update_task id f st = Some st' ->
  exists t, st.(task_status) !! id = Some t
            /\ st'.(task_status) !! id = Some (f t)
            /\ st'.(scraping_results) = st.(scraping_results).
Proof.
  unfold update_task. destruct (task_status st !! id) as [t |]; [| done].
  cbn [mbind option_bind]. intros [= <-]. exists t.
  cbn [task_status scraping_results]. by rewrite lookup_insert_eq.
Qed.

(** An update that does not complete the task keeps the results. *)
Lemma results_kept_update (id : string) (f : task -> task) (st st' : store) :
  (forall t, (f t).(status) <> "completed") ->
  update_task id f st = Some st' ->
  results_kept st -> results_kept st'.
Proof.
  intros Hf Hup Hkept id' t' Ht' Hdone.
  destruct (decide (id' = id)) as [-> | Hne].
  - apply update_task_same in Hup as (t & _ & Hnew & _).
    rewrite Hnew in Ht'. injection Ht' as <-. by apply Hf in Hdone.
  - destruct (update_task_other _ _ _ _ id' Hup Hne) as [Hsame ->].
    rewrite Hsame in Ht'. by apply (Hkept id' t').
Qed.

(** Storing a result and completing the task keeps the results. *)
Lemma results_kept_complete (id : string) (r : stored_result)
    (st st' : store) :
  (forall t, st.(task_status) !! id = Some t -> t.(status) <> "completed") ->
  update_task id (completed r) (store_result id r st) = Some st' ->
  results_kept st -> results_kept st'.
Proof.
  intros Hopen Hup Hkept id' t' Ht' Hdone.
  destruct (decide (id' = id)) as [-> | Hne].
  - apply update_task_same in Hup as (t & _ & Hnew & ->).
    rewrite Hnew in Ht'. injection Ht' as <-. exists r.
    cbn [result completed store_result scraping_results].
    by rewrite lookup_insert_eq.
  - destruct (update_task_other _ _ _ _ id' Hup Hne) as [Hsame ->].
    rewrite Hsame in Ht'. cbn [store_result task_status scraping_results]
      in *.
    rewrite lookup_insert_ne by done. by apply (Hkept id' t').
Qed.

(** X23 -- the task store of src/test_api.py keeps, through every
    endpoint and task, the result of each task that is marked completed:
    the empty store does, [start_scraping] and [start_enhanced_scraping],
    [run_scraping_task] and [run_enhanced_scraping_task] preserve it, and
    on such a store [get_scraping_result] never answers "Result not
    found". *)
Theorem completed_tasks_keep_their_result :
  results_kept empty
  /\ (forall id st, results_kept st -> results_kept (register id st))
  /\ (forall id url depth max_pages include_images st st',
        results_kept st ->
        run_scraping_task id url depth max_pages include_images st
        = Some st' ->
        results_kept st')
  /\ (forall available id request st st',
        results_kept st ->
        run_enhanced_scraping_task available id request st = Some st' ->
        results_kept st')
  /\ (forall id st,
        results_kept st ->
        get_scraping_result id st <> HTTPException 404 "Result not found").
Proof.
  split; [| split; [| split; [| split]]].
  - intros id t Ht. cbn [TaskApi.empty task_status] in Ht.
    by rewrite lookup_empty in Ht.
  - intros id st Hkept id' t'. cbn [register task_status scraping_results].
    destruct (decide (id' = id)) as [-> | Hne].
    + rewrite lookup_insert_eq. by intros [= <-].
    + rewrite lookup_insert_ne by done. apply Hkept.
  - intros id url depth max_pages include_images st st' Hkept.
    unfold run_scraping_task.
    destruct (update_task id processing st) as [st1 |] eqn:Hup; [| done].
    cbn [mbind option_bind]. intros Hdone.
    eapply results_kept_complete; [| exact Hdone |].
    + intros t Ht. apply update_task_same in Hup as (t0 & _ & Hnew & _).
      rewrite Hnew in Ht. by injection Ht as <-.
    + by eapply results_kept_update; [| exact Hup |].
  - intros available id request st st' Hkept.
    unfold run_enhanced_scraping_task. destruct available; cbn [negb].
    2:{ intros Hup. by eapply results_kept_update; [| exact Hup |]. }
    destruct (update_task id processing st) as [st1 |] eqn:Hup; [| done].
    cbn [mbind option_bind].
    destruct (EnhancedWebScraper.scrape_url _ _ _ _) as [[r s] |]; [| done].
    cbn [mbind option_bind].
    assert (Hkept1 : results_kept st1)
      by by eapply results_kept_update; [| exact Hup |].
    destruct r as [p | e u c].
    + intros Hdone. eapply results_kept_complete; [| exact Hdone | done].
      intros t Ht. apply update_task_same in Hup as (t0 & _ & Hnew & _).
      rewrite Hnew in Ht. by injection Ht as <-.
    + intros Hdone. by eapply results_kept_update; [| exact Hdone |].
  - intros id st Hkept. unfold get_scraping_result.
    destruct (task_status st !! id) as [t |] eqn:Ht; [| done].
    case_bool_decide as Hdone; cbn [negb]; [| done].
    destruct (Hkept id t Ht Hdone) as (r & _ & ->). done.
Qed.

(** X24 -- [run_enhanced_scraping_task] on a registered task, with the
    scraper module available, always ends; if [scrape_url] returns a page,
    the task is marked completed with progress 100 and
    [get_scraping_result] answers that page; if it returns an error, the
    task is marked failed with progress 0 and that error, and
    [get_scraping_result] answers 400 "Task not completed yet". *)
Theorem enhanced_task_ends_completed_or_failed (id : string)
    (request : enhanced_request) (st : store) (t : task) :
  st.(task_status) !! id = Some t ->
  exists st' r s,
    run_enhanced_scraping_task true id request st = Some st'
    /\ EnhancedWebScraper.scrape_url (config_of request)
         request.(request_url) 0 EnhancedWebScraper.initial = Some (r, s)
    /\ match r with
       | EnhancedWebScraper.Success p =>
           get_task_status id st'
           = Reply (mkTask t.(task_id) "completed" 100
                           (Some (PageResult p)) t.(error))
           /\ get_scraping_result id st' = Reply (PageResult p)
       | EnhancedWebScraper.Failure e _ _ =>
           get_task_status id st'
           = Reply (mkTask t.(task_id) "failed" 0 t.(result) (Some e))
           /\ get_scraping_result id st'
              = HTTPException 400 "Task not completed yet"
       end.
Proof.
  intros Ht.
  destruct (scrape_url_state (config_of request) (request_url request) 0
              EnhancedWebScraper.initial) as (r & s & Hrun & _).
  assert (Hup : update_task id processing st
                = Some (mkStore (<[id := processing t]> st.(task_status))
                                st.(scraping_results))).
  { unfold update_task. by rewrite Ht. }
  destruct r as [p | e u c]; eexists _, _, s;
    (split; [| split; [exact Hrun |]]).
  - unfold run_enhanced_scraping_task. cbn [negb].
    rewrite Hup. cbn [mbind option_bind]. rewrite Hrun.
    cbn [mbind option_bind]. unfold update_task, store_result.
    cbn [task_status scraping_results]. rewrite lookup_insert_eq.
    reflexivity.
  - unfold get_task_status, get_scraping_result.
    cbn [task_status scraping_results]. rewrite !lookup_insert_eq.
    cbn [status completed processing task_id result error].
    by rewrite bool_decide_eq_true_2 by done.
  - unfold run_enhanced_scraping_task. cbn [negb].
    rewrite Hup. cbn [mbind option_bind]. rewrite Hrun.
    cbn [mbind option_bind]. unfold update_task.
    cbn [task_status scraping_results]. rewrite lookup_insert_eq.
    reflexivity.
  - unfold get_task_status, get_scraping_result.
    cbn [task_status scraping_results]. rewrite !lookup_insert_eq.
    cbn [status failed processing task_id result error].
    by rewrite bool_decide_eq_false_2 by done.
Qed.

End task_store.

Section task_store_examples.
Import TaskApi.

Lemma enhanced_task_ends_completed_or_failed_witness :
  exists st',
    @run_enhanced_scraping_task PyUrl.lib Demo.example_com true "task_1"
      (mkRequest "https://example.com/missing" 30 2 1.0%float)
      (register "task_1" empty) = Some st'
    /\ get_task_status "task_1" st'
       = Reply (mkTask "task_1" "failed" 0 None (Some "Page not found"))
    /\ get_scraping_result "task_1" st'
       = HTTPException 400 "Task not completed yet".
Proof.
  destruct (enhanced_task_ends_completed_or_failed (H := PyUrl.lib)
              (H0 := Demo.example_com) "task_1"
              (mkRequest "https://example.com/missing" 30 2 1.0%float)
              (register "task_1" empty)
              (mkTask "task_1" "pending" 0 None None))
    as (st' & r & s & Hrun & Hscrape & Hr).
  { apply lookup_insert_eq. }
  exists st'. split; [exact Hrun |].
  vm_compute in Hscrape. injection Hscrape as <- _. exact Hr.
Defined.

End task_store_examples.
